(** * Social-media post generator: the post store, the three generators and
      the orchestrator of [social_media_chatbot.py], embedded in Rocq.

    Conventions of the embedding.
    - A Python [str] is a Rocq [string]; the model is exact on ASCII text
      (case mapping and white space of characters above 127 are not modelled).
    - A Python object that comes out of [json.loads], or that the program
      builds as a [dict] literal, is a [pyobj]; a [dict] is an association list
      in insertion order.  Floating-point numbers are outside the model.
    - An exception is the message [str(e)] it carries; a computation that can
      raise returns a [result].
    - The language-model client, the clock, the directory operations and the
      conversation memory are oracles of an environment [Env]; the [json]
      codec and [repr] are members of the class [External]. *)

From Stdlib Require Import List String Ascii ZArith Lia Bool Arith.
From Stdlib Require Import Permutation Sorted DecimalString.
Import ListNotations.
Open Scope string_scope.
Open Scope nat_scope.
Set Warnings "-register-all".

(* ================================================================== *)
(** * Part I.  Definitions *)
(* ================================================================== *)

(** ** Python string operations *)

Module PyStr.

Definition code (c : ascii) : nat := nat_of_ascii c.

(** [str.isspace] on one ASCII character: TAB, LF, VT, FF, CR, the four
    separators FS, GS, RS, US, and the space. *)
Definition is_space (c : ascii) : bool :=
  let n := code c in
  ((9 <=? n) && (n <=? 13)) || ((28 <=? n) && (n <=? 32)).

Definition is_upper (c : ascii) : bool :=
  let n := code c in (65 <=? n) && (n <=? 90).

Definition is_lower (c : ascii) : bool :=
  let n := code c in (97 <=? n) && (n <=? 122).

Definition to_lower (c : ascii) : ascii :=
  if is_upper c then ascii_of_nat (code c + 32) else c.

Definition to_upper (c : ascii) : ascii :=
  if is_lower c then ascii_of_nat (code c - 32) else c.

(** [s.lower()] *)
Fixpoint lower (s : string) : string :=
  match s with
  | EmptyString => EmptyString
  | String c s' => String (to_lower c) (lower s')
  end.

(** [s.title()]: a cased character is upper-cased when the character before
    it is not cased, and lower-cased otherwise. *)
Fixpoint title_from (previous_is_cased : bool) (s : string) : string :=
  match s with
  | EmptyString => EmptyString
  | String c s' =>
      if is_lower c then
        String (if previous_is_cased then c else to_upper c) (title_from true s')
      else if is_upper c then
        String (if previous_is_cased then to_lower c else c) (title_from true s')
      else String c (title_from false s')
  end.

Definition title (s : string) : string := title_from false s.

Fixpoint lstrip (s : string) : string :=
  match s with
  | EmptyString => EmptyString
  | String c s' => if is_space c then lstrip s' else s
  end.

Fixpoint rstrip (s : string) : string :=
  match s with
  | EmptyString => EmptyString
  | String c s' =>
      match rstrip s' with
      | EmptyString => if is_space c then EmptyString else String c EmptyString
      | r => String c r
      end
  end.

(** [s.strip()] *)
Definition strip (s : string) : string := rstrip (lstrip s).

(** [s.split()]: the maximal runs of characters that are not white space. *)
Fixpoint split (s : string) : list string :=
  match s with
  | EmptyString => []
  | String c s' =>
      if is_space c then split s'
      else
        match s' with
        | EmptyString => [String c EmptyString]
        | String d _ =>
            if is_space d then String c EmptyString :: split s'
            else
              match split s' with
              | w :: ws => String c w :: ws
              | [] => [String c EmptyString]
              end
        end
  end.

Definition newline : ascii := ascii_of_nat 10.

(** The text of two line feeds. *)
Definition blank_line : string := String newline (String newline EmptyString).

(** [s.split('\n')[0]]: the text before the first line feed. *)
Fixpoint first_line (s : string) : string :=
  match s with
  | EmptyString => EmptyString
  | String c s' => if Ascii.eqb c newline then EmptyString else String c (first_line s')
  end.

(** [s[:n]] for [n >= 0]. *)
Fixpoint take (n : nat) (s : string) : string :=
  match n, s with
  | O, _ => EmptyString
  | _, EmptyString => EmptyString
  | S n', String c s' => String c (take n' s')
  end.

(** [s[:n]] for any integer [n]: a negative bound counts from the end. *)
Definition slice_to (n : Z) (s : string) : string :=
  if (0 <=? n)%Z then take (Z.to_nat n) s
  else take (String.length s - Z.to_nat (- n)) s.

(** [q in s]: [q] occurs in [s] as a contiguous block. *)
Fixpoint contains (q s : string) : bool :=
  String.prefix q s ||
  match s with
  | EmptyString => false
  | String _ s' => contains q s'
  end.

(** [s.startswith(p)] and [s.endswith(p)] *)
Definition startswith (s p : string) : bool := String.prefix p s.

Fixpoint endswith (s p : string) : bool :=
  String.eqb s p ||
  match s with
  | EmptyString => false
  | String _ s' => endswith s' p
  end.

(** [sep.join(l)] *)
Definition join (sep : string) (l : list string) : string := String.concat sep l.

(** The characters of a string, each as a string of length one (iterating
    over a [str]). *)
Fixpoint chars (s : string) : list string :=
  match s with
  | EmptyString => []
  | String c s' => String c EmptyString :: chars s'
  end.

(** Position of the first opening brace, and the text from it on. *)
Fixpoint from_first_open (s : string) : option string :=
  match s with
  | EmptyString => None
  | String c s' => if Ascii.eqb c "{"%char then Some s else from_first_open s'
  end.

(** The longest prefix that ends with a closing brace. *)
Fixpoint upto_last_close (s : string) : option string :=
  match s with
  | EmptyString => None
  | String c s' =>
      match upto_last_close s' with
      | Some r => Some (String c r)
      | None => if Ascii.eqb c "}"%char then Some (String c EmptyString) else None
      end
  end.

(** [re.search(r'\{.*\}', s, re.DOTALL)]: the match starts at the first
    opening brace and, the star being greedy and the dot matching line feeds,
    runs to the last closing brace after it; there is no match when no
    closing brace follows the first opening one. *)
Definition search_braces (s : string) : option string :=
  match from_first_open s with
  | None => None
  | Some t => upto_last_close t
  end.

(** Decimal digits. *)
Definition digit (n : nat) : ascii := ascii_of_nat (48 + n mod 10).

(** [n] written with exactly [w] digits, the low-order ones ([%02d]-style
    fields of [strftime] and [isoformat], whose values fit the width). *)
Fixpoint zero_padded (w n : nat) : string :=
  match w with
  | O => EmptyString
  | S w' => zero_padded w' (n / 10) ++ String (digit n) EmptyString
  end.

(** [str(n)] for an [int]. *)
Definition of_int (z : Z) : string := NilZero.string_of_int (Z.to_int z).

End PyStr.

(** ** Python objects *)

Inductive pyobj : Type :=
| PyNone
| PyBool (b : bool)
| PyInt (n : Z)
| PyStr (s : string)
| PyList (items : list pyobj)
| PyDict (members : list (string * pyobj)).

(** A [dict] with [str] keys, in insertion order. *)
Definition dict : Type := list (string * pyobj).

(** An exception is its message; [result] is the outcome of a call. *)
Inductive result (A : Type) : Type :=
| Ok (a : A)
| Raise (msg : string).
Arguments Ok {A} a.
Arguments Raise {A} msg.

Definition type_name (v : pyobj) : string :=
  match v with
  | PyNone => "NoneType"
  | PyBool _ => "bool"
  | PyInt _ => "int"
  | PyStr _ => "str"
  | PyList _ => "list"
  | PyDict _ => "dict"
  end.

Definition attribute_error {A} (v : pyobj) (attr : string) : result A :=
  Raise ("'" ++ type_name v ++ "' object has no attribute '" ++ attr ++ "'").

Definition type_error {A} (v : pyobj) (what : string) : result A :=
  Raise ("'" ++ type_name v ++ "' object " ++ what).

(** Truth value of an object ([if post_id:]). *)
Definition truthy (v : pyobj) : bool :=
  match v with
  | PyNone => false
  | PyBool b => b
  | PyInt n => negb (n =? 0)%Z
  | PyStr s => negb (String.eqb s "")
  | PyList l => match l with [] => false | _ => true end
  | PyDict d => match d with [] => false | _ => true end
  end.

Module Dict.

(** [d.get(k)] as an option. *)
Fixpoint lookup {V : Type} (k : string) (d : list (string * V)) : option V :=
  match d with
  | [] => None
  | (k', v) :: d' => if String.eqb k k' then Some v else lookup k d'
  end.

(** [d.get(k, default)] *)
Definition get {V : Type} (d : list (string * V)) (k : string) (default : V) : V :=
  match lookup k d with
  | Some v => v
  | None => default
  end.

(** [d[k] = v]: an existing key keeps its place, a new key goes last. *)
Fixpoint set {V : Type} (k : string) (v : V) (d : list (string * V)) : list (string * V) :=
  match d with
  | [] => [(k, v)]
  | (k', v') :: d' => if String.eqb k k' then (k, v) :: d' else (k', v') :: set k v d'
  end.

End Dict.

(** Sequencing of calls that can raise. *)
Definition bind {A B : Type} (m : result A) (k : A -> result B) : result B :=
  match m with
  | Ok a => k a
  | Raise msg => Raise msg
  end.

Declare Scope result_scope.
Delimit Scope result_scope with result.
Notation "x <- m ;; k" := (bind m (fun x => k))
  (at level 61, m at next level, right associativity) : result_scope.

(** [v.lower()]: only a [str] has the method. *)
Definition py_lower (v : pyobj) : result string :=
  match v with
  | PyStr s => Ok (PyStr.lower s)
  | _ => attribute_error v "lower"
  end.

(** The objects that a [for] loop over [v] yields: the items of a list, the
    characters of a string, the keys of a dict. *)
Definition py_iter (v : pyobj) : result (list pyobj) :=
  match v with
  | PyList l => Ok l
  | PyStr s => Ok (map PyStr (PyStr.chars s))
  | PyDict d => Ok (map (fun kv => PyStr (fst kv)) d)
  | _ => type_error v "is not iterable"
  end.

(** [a < b] on the objects used as sort keys: text against text, integers
    (and booleans, which are integers) against integers.  Any other pair is
    reported as a [TypeError]; Python also orders lists, which no timestamp of
    this program is. *)
Definition py_lt (a b : pyobj) : result bool :=
  let as_int v :=
    match v with
    | PyInt n => Some n
    | PyBool b => Some (if b then 1%Z else 0%Z)
    | _ => None
    end in
  match a, b with
  | PyStr s, PyStr t => Ok (String.ltb s t)
  | _, _ =>
      match as_int a, as_int b with
      | Some m, Some n => Ok (m <? n)%Z
      | _, _ =>
          Raise ("'<' not supported between instances of '" ++ type_name a
                 ++ "' and '" ++ type_name b ++ "'")
      end
  end.

(** [l[:n]] for any integer [n]: a negative bound counts from the end. *)
Definition slice_to {A : Type} (n : Z) (l : list A) : list A :=
  if (0 <=? n)%Z then firstn (Z.to_nat n) l
  else firstn (List.length l - Z.to_nat (- n)) l.

(** ** What the program takes from libraries *)

(** The [json] codec, [repr], and the content of files.
    - [json_loads] is [json.loads] on a text that starts with an opening
      brace (the only texts the program hands to it): the parse is a dict, or
      the call raises.
    - [py_repr] is [repr] of a list or a dict, used when an f-string formats
      one.
    - [json_dump v] is what [json.dump(v, f, indent=2, ensure_ascii=False)]
      leaves in the file, [json_load] is [open] followed by [json.load].
    - [text_report] is the human-readable report of [_save_post], whose layout
      is not modelled: what the text file holds after the writes, and whether
      one of them raised. *)
Class External : Type := {
  json_loads : string -> result dict;
  py_repr : pyobj -> string;
  FileContent : Type;
  json_dump : pyobj -> FileContent;
  json_load : FileContent -> result pyobj;
  text_report : dict -> FileContent * result unit
}.

(** [str(v)], which is also how an f-string formats [v]. *)
Definition py_str `{External} (v : pyobj) : string :=
  match v with
  | PyNone => "None"
  | PyBool b => if b then "True" else "False"
  | PyInt n => PyStr.of_int n
  | PyStr s => s
  | PyList _ | PyDict _ => py_repr v
  end.

(** [v.get]: only a dict has the method. *)
Definition as_dict (v : pyobj) : result dict :=
  match v with
  | PyDict d => Ok d
  | _ => attribute_error v "get"
  end.

(** [d.get(outer, {}).get(inner, default)] *)
Definition get_nested (d : dict) (outer inner : string) (default : pyobj) : result pyobj :=
  bind (as_dict (Dict.get d outer (PyDict []))) (fun sub => Ok (Dict.get sub inner default)).

(** [d.get(k)]: [None] when the key is absent. *)
Definition get_or_none (d : dict) (k : string) : pyobj := Dict.get d k PyNone.

(** [d[k]] *)
Definition subscript (d : dict) (k : string) : result pyobj :=
  match Dict.lookup k d with
  | Some v => Ok v
  | None => Raise ("'" ++ k ++ "'")
  end.

(** [v[:n]]: lists and strings can be sliced. *)
Definition py_slice_to (n : Z) (v : pyobj) : result pyobj :=
  match v with
  | PyStr s => Ok (PyStr (PyStr.slice_to n s))
  | PyList l => Ok (PyList (slice_to n l))
  | PyDict _ => Raise "unhashable type: 'slice'"
  | _ => type_error v "is not subscriptable"
  end.

(** [len(v)] *)
Definition py_len (v : pyobj) : result Z :=
  match v with
  | PyStr s => Ok (Z.of_nat (String.length s))
  | PyList l => Ok (Z.of_nat (List.length l))
  | PyDict d => Ok (Z.of_nat (List.length d))
  | _ => Raise ("object of type '" ++ type_name v ++ "' has no len()")
  end.

(** [os.path.join(a, b)] on POSIX paths. *)
Definition path_join (a b : string) : string :=
  if PyStr.startswith b "/" then b
  else if String.eqb a "" || PyStr.endswith a "/" then a ++ b
  else a ++ "/" ++ b.

(** What [print] writes, one event per call in an [except] branch; the
    progress lines of the success paths are not modelled. *)
Inductive event : Type :=
| LoadError (filename msg : string)
| TopicError (msg : string)
| ContentError (msg : string)
| HashtagError (msg : string)
| SaveError (msg : string)
| PostError (msg : string).

(** ** The post store: class [PostMemory] *)

Module PostMemory.

(** The value stored per post: the dict with the seven keys that [load_posts]
    and [add_post] build.  The fields hold whatever objects the post record
    held; [file_path] is always built as text. *)
Record entry : Type := {
  platform : pyobj;
  niche : pyobj;
  title : pyobj;
  content : pyobj;
  hashtags : pyobj;
  timestamp : pyobj;
  file_path : string
}.

(** A key of [posts_memory].  [True] and [1] are the same key, as are
    [False] and [0]. *)
Inductive key : Type :=
| KNone
| KStr (s : string)
| KInt (n : Z).

Definition key_eqb (a b : key) : bool :=
  match a, b with
  | KNone, KNone => true
  | KStr s, KStr t => String.eqb s t
  | KInt m, KInt n => (m =? n)%Z
  | _, _ => false
  end.

(** Hashing the object used as a key: lists and dicts are not hashable. *)
Definition as_key (v : pyobj) : result key :=
  match v with
  | PyNone => Ok KNone
  | PyBool b => Ok (KInt (if b then 1 else 0))
  | PyInt n => Ok (KInt n)
  | PyStr s => Ok (KStr s)
  | PyList _ | PyDict _ => Raise ("unhashable type: '" ++ type_name v ++ "'")
  end.

(** [self.posts_memory]: a dict, hence ordered by first insertion. *)
Definition store : Type := list (key * entry).

Fixpoint lookup (k : key) (m : store) : option entry :=
  match m with
  | [] => None
  | (k', e) :: m' => if key_eqb k k' then Some e else lookup k m'
  end.

(** [self.posts_memory[k] = e] *)
Fixpoint set (k : key) (e : entry) (m : store) : store :=
  match m with
  | [] => [(k, e)]
  | (k', e') :: m' => if key_eqb k k' then (k', e) :: m' else (k', e') :: set k e m'
  end.

(** [self.posts_memory.values()] *)
Definition values (m : store) : list entry := map snd m.

Open Scope result_scope.

(** [query in v.lower()] *)
Definition in_lower (query : string) (v : pyobj) : result bool :=
  s <- py_lower v ;; Ok (PyStr.contains query s).

(** [any(query in tag.lower() for tag in tags)], which stops at the first
    tag that matches. *)
Fixpoint any_in_lower (query : string) (tags : list pyobj) : result bool :=
  match tags with
  | [] => Ok false
  | tag :: rest =>
      b <- in_lower query tag ;;
      if b then Ok true else any_in_lower query rest
  end.

(** The condition of the [if] in [search_posts]; [or] evaluates its right
    operand only when the left one is false. *)
Definition matches (query : string) (post : entry) : result bool :=
  b1 <- in_lower query (title post) ;;
  if b1 then Ok true else
  b2 <- in_lower query (content post) ;;
  if b2 then Ok true else
  tags <- py_iter (hashtags post) ;;
  any_in_lower query tags.

Fixpoint search_loop (query : string) (posts matching_posts : list entry)
  : result (list entry) :=
  match posts with
  | [] => Ok matching_posts
  | post :: rest =>
      b <- matches query post ;;
      search_loop query rest (if b then matching_posts ++ [post] else matching_posts)
  end.

(** [search_posts(query)] *)
Definition search_posts (query : string) (m : store) : result (list entry) :=
  let query := PyStr.lower query in
  search_loop query (values m) [].

(** [sorted(posts, key=lambda x: x['timestamp'], reverse=True)].  The sort is
    stable, also with [reverse=True]: posts with equal keys keep their original
    order.  [insert x l] puts [x], which came before every post of [l], in
    front of the first post whose key is not greater than its own. *)
Fixpoint insert (x : entry) (l : list entry) : result (list entry) :=
  match l with
  | [] => Ok [x]
  | y :: l' =>
      lt <- py_lt (timestamp x) (timestamp y) ;;
      if lt then (r <- insert x l' ;; Ok (y :: r)) else Ok (x :: l)
  end.

Fixpoint sorted_reverse (l : list entry) : result (list entry) :=
  match l with
  | [] => Ok []
  | x :: l' => r <- sorted_reverse l' ;; insert x r
  end.

(** [get_recent_posts(limit)] *)
Definition get_recent_posts (limit : Z) (m : store) : result (list entry) :=
  sorted_posts <- sorted_reverse (values m) ;;
  Ok (slice_to limit sorted_posts).

Section Loading.
Context `{External}.

Definition posts_dir : string := "posts".

(** The dict literal of [load_posts] and [add_post]; the two differ in the
    [file_path] only. *)
Definition index_entry (post_data : dict) (path : string) : result entry :=
  platform <- get_nested post_data "parameters" "platform" (PyStr "") ;;
  niche <- get_nested post_data "parameters" "niche" (PyStr "") ;;
  title <- get_nested post_data "topic" "title" (PyStr "") ;;
  content <- get_nested post_data "content" "content" (PyStr "") ;;
  hashtags <- get_nested post_data "hashtags" "primary_hashtags" (PyList []) ;;
  Ok {| platform := platform; niche := niche; title := title; content := content;
        hashtags := hashtags;
        timestamp := Dict.get post_data "generation_timestamp" (PyStr "");
        file_path := path |}.

(** [add_post(post_data)] *)
Definition add_post (post_data : dict) (m : store) : result store :=
  let post_id := get_or_none post_data "post_id" in
  if truthy post_id then
    e <- index_entry post_data (path_join posts_dir (py_str post_id ++ ".json")) ;;
    k <- as_key post_id ;;
    Ok (set k e m)
  else Ok m.

(** The body of the [try] of [load_posts] for one file. *)
Definition load_file (filename : string) (data : FileContent) (m : store) : result store :=
  let file_path := path_join posts_dir filename in
  loaded <- json_load data ;;
  post_data <- as_dict loaded ;;
  let post_id := get_or_none post_data "post_id" in
  if truthy post_id then
    e <- index_entry post_data file_path ;;
    k <- as_key post_id ;;
    Ok (set k e m)
  else Ok m.

(** The loop of [load_posts] over [os.listdir], in listing order; each
    exception is caught and printed. *)
Fixpoint load_loop (listing : list (string * FileContent)) (m : store) (out : list event)
  : store * list event :=
  match listing with
  | [] => (m, out)
  | (filename, data) :: rest =>
      if PyStr.endswith filename ".json" then
        match load_file filename data m with
        | Ok m' => load_loop rest m' out
        | Raise e => load_loop rest m (out ++ [LoadError filename e])
        end
      else load_loop rest m out
  end.

(** [load_posts()]: [directory] is [None] when [posts] does not exist, and
    its listing otherwise. *)
Definition load_posts (directory : option (list (string * FileContent))) (m : store)
  : store * list event :=
  match directory with
  | None => (m, [])
  | Some listing => load_loop listing m []
  end.

(** [PostMemory()] *)
Definition init (directory : option (list (string * FileContent))) : store * list event :=
  load_posts directory [].

End Loading.

Close Scope result_scope.

(** The index entry of the data model: every field is text, the hashtags
    are a sequence of text. *)
Record PostIndexEntry : Type := {
  entry_platform : string;
  entry_niche : string;
  entry_title : string;
  entry_content : string;
  entry_hashtags : list string;
  entry_timestamp : string;
  entry_location : string
}.

(** The dict that holds a well-typed index entry. *)
Definition stored (p : PostIndexEntry) : entry :=
  {| platform := PyStr (entry_platform p);
     niche := PyStr (entry_niche p);
     title := PyStr (entry_title p);
     content := PyStr (entry_content p);
     hashtags := PyList (map PyStr (entry_hashtags p));
     timestamp := PyStr (entry_timestamp p);
     file_path := entry_location p |}.

(** A store state of the data model, as the program holds it. *)
Definition stored_index (idx : list (key * PostIndexEntry)) : store :=
  map (fun kp => (fst kp, stored (snd kp))) idx.

End PostMemory.

(** ** The world the program runs in *)

(** [datetime.now()] *)
Record datetime : Type := {
  year : nat; month : nat; day : nat;
  hour : nat; minute : nat; second : nat; microsecond : nat
}.

Module Clock.
Import PyStr.

(** [strftime('%Y%m%d_%H%M%S')] *)
Definition compact (t : datetime) : string :=
  zero_padded 4 (year t) ++ zero_padded 2 (month t) ++ zero_padded 2 (day t) ++ "_"
  ++ zero_padded 2 (hour t) ++ zero_padded 2 (minute t) ++ zero_padded 2 (second t).

(** [strftime('%y%m%d_%H%M')] *)
Definition short (t : datetime) : string :=
  zero_padded 2 (year t) ++ zero_padded 2 (month t) ++ zero_padded 2 (day t) ++ "_"
  ++ zero_padded 2 (hour t) ++ zero_padded 2 (minute t).

(** [isoformat()]: the microseconds are written when they are not zero. *)
Definition isoformat (t : datetime) : string :=
  zero_padded 4 (year t) ++ "-" ++ zero_padded 2 (month t) ++ "-" ++ zero_padded 2 (day t)
  ++ "T" ++ zero_padded 2 (hour t) ++ ":" ++ zero_padded 2 (minute t) ++ ":"
  ++ zero_padded 2 (second t)
  ++ (if microsecond t =? 0 then "" else "." ++ zero_padded 6 (microsecond t)).

End Clock.

(** What a generator sends to the language model: the values interpolated
    into its prompt (the fixed wording is not reproduced). *)
Inductive request : Type :=
| TopicRequest (niche audience tone : string)
| ContentRequest (platform title hook angle : string) (char_limit : Z)
    (engagement_question : string)
| HashtagRequest (platform title excerpt : string) (limit : Z) (seo_context : string).

(** The collaborators outside the program, as oracles.
    - [llm_invoke n r]: the [content] of the response to the [n]-th call of
      [llm.invoke], made with request [r], or the exception it raises.
    - [now n]: the [n]-th reading of the clock.
    - [makedirs]: the outcome of [os.makedirs("posts", exist_ok=True)].
    - [open_write path]: whether [path] can be opened and written.
    - [save_context]: the outcome of [conversation_memory.save_context]. *)
Record Env : Type := {
  llm_invoke : nat -> request -> result string;
  now : nat -> datetime;
  makedirs : result unit;
  open_write : string -> result unit;
  save_context : result unit
}.

Section Program.
Context `{External}.

(** The mutable state: the two call counters of the oracles, the directories
    and files on disk, the post store, the conversation turns, and the
    printed events. *)
Record State : Type := {
  llm_calls : nat;
  clock_reads : nat;
  directories : list string;
  files : list (string * FileContent);
  posts_memory : PostMemory.store;
  conversation : list (string * string);
  stdout : list event
}.

(** A method call: it reads the environment, changes the state, and returns
    or raises. *)
Definition M (A : Type) : Type := Env -> State -> result A * State.

Definition ret {A : Type} (a : A) : M A := fun _ st => (Ok a, st).

Definition raise {A : Type} (msg : string) : M A := fun _ st => (Raise msg, st).

Definition mbind {A B : Type} (m : M A) (k : A -> M B) : M B :=
  fun env st =>
    match m env st with
    | (Ok a, st') => k a env st'
    | (Raise msg, st') => (Raise msg, st')
    end.

(** [try: body  except Exception as e: handler(e)]; what the body did to the
    state before it raised stays done. *)
Definition try_except {A : Type} (body : M A) (handler : string -> M A) : M A :=
  fun env st =>
    match body env st with
    | (Ok a, st') => (Ok a, st')
    | (Raise msg, st') => handler msg env st'
    end.

(** A pure call that can raise. *)
Definition lift {A : Type} (r : result A) : M A := fun _ st => (r, st).

Definition print (e : event) : M unit :=
  fun _ st =>
    (Ok tt, {| llm_calls := llm_calls st; clock_reads := clock_reads st;
               directories := directories st; files := files st;
               posts_memory := posts_memory st; conversation := conversation st;
               stdout := stdout st ++ [e] |}).

(** [self.llm.invoke(messages)] followed by [response.content] *)
Definition invoke (r : request) : M string :=
  fun env st =>
    (llm_invoke env (llm_calls st) r,
     {| llm_calls := S (llm_calls st); clock_reads := clock_reads st;
        directories := directories st; files := files st;
        posts_memory := posts_memory st; conversation := conversation st;
        stdout := stdout st |}).

(** [datetime.now()] *)
Definition datetime_now : M datetime :=
  fun env st =>
    (Ok (now env (clock_reads st)),
     {| llm_calls := llm_calls st; clock_reads := S (clock_reads st);
        directories := directories st; files := files st;
        posts_memory := posts_memory st; conversation := conversation st;
        stdout := stdout st |}).

(** [os.makedirs(d, exist_ok=True)] *)
Definition os_makedirs (d : string) : M unit :=
  fun env st =>
    match makedirs env with
    | Raise msg => (Raise msg, st)
    | Ok _ =>
        (Ok tt,
         {| llm_calls := llm_calls st; clock_reads := clock_reads st;
            directories := if existsb (String.eqb d) (directories st)
                           then directories st else directories st ++ [d];
            files := files st;
            posts_memory := posts_memory st; conversation := conversation st;
            stdout := stdout st |})
    end.

(** [with open(path, 'w') as f: ...] leaving [data] in the file. *)
Definition write_file (path : string) (data : FileContent) : M unit :=
  fun env st =>
    match open_write env path with
    | Raise msg => (Raise msg, st)
    | Ok _ =>
        (Ok tt,
         {| llm_calls := llm_calls st; clock_reads := clock_reads st;
            directories := directories st;
            files := Dict.set path data (files st);
            posts_memory := posts_memory st; conversation := conversation st;
            stdout := stdout st |})
    end.

(** [self.post_memory.add_post(post_data)] *)
Definition memory_add_post (post_data : dict) : M unit :=
  fun _ st =>
    match PostMemory.add_post post_data (posts_memory st) with
    | Raise msg => (Raise msg, st)
    | Ok m =>
        (Ok tt,
         {| llm_calls := llm_calls st; clock_reads := clock_reads st;
            directories := directories st; files := files st;
            posts_memory := m; conversation := conversation st;
            stdout := stdout st |})
    end.

(** [self.conversation_memory.save_context({"input": i}, {"output": o})] *)
Definition memory_save_context (input output : string) : M unit :=
  fun env st =>
    match save_context env with
    | Raise msg => (Raise msg, st)
    | Ok _ =>
        (Ok tt,
         {| llm_calls := llm_calls st; clock_reads := clock_reads st;
            directories := directories st; files := files st;
            posts_memory := posts_memory st;
            conversation := conversation st ++ [(input, output)];
            stdout := stdout st |})
    end.

End Program.

Declare Scope program_scope.
Delimit Scope program_scope with program.
Notation "x <- m ;; k" := (mbind m (fun x => k))
  (at level 61, m at next level, right associativity) : program_scope.
Notation "m ;;; k" := (mbind m (fun _ => k))
  (at level 61, right associativity) : program_scope.

(** ** The generators *)

Module TopicGenerator.
Section Methods.
Context `{External}.
Open Scope program_scope.

(** The topic built when the response holds no object that parses: its title
    is the first line of the response. *)
Definition unparsed (response : string) : dict :=
  [("title", PyStr (PyStr.first_line response));
   ("hook", PyStr "Ready to transform your approach?");
   ("angle", PyStr "Expert insights and practical tips");
   ("engagement_question", PyStr "What's your experience with this?")].

(** The topic returned when the call raised. *)
Definition fallback (niche : string) : dict :=
  [("title", PyStr ("Latest " ++ PyStr.title niche ++ " Insights"));
   ("hook", PyStr "Discover game-changing strategies");
   ("angle", PyStr "Expert perspective");
   ("engagement_question", PyStr "What are your thoughts?")].

(** [generate_topic(niche, audience, tone)] *)
Definition generate_topic (niche audience tone : string) : M dict :=
  try_except
    (response <- invoke (TopicRequest niche audience tone) ;;
     ret (match PyStr.search_braces response with
          | Some group =>
              match json_loads group with
              | Ok topic_data => topic_data
              | Raise _ => unparsed response
              end
          | None => unparsed response
          end))
    (fun e => print (TopicError e) ;;; ret (fallback niche)).

End Methods.
End TopicGenerator.

Module ContentGenerator.
Section Methods.
Context `{External}.
Open Scope program_scope.

Definition platform_limits : list (string * Z) :=
  [("instagram", 2200%Z); ("linkedin", 3000%Z); ("twitter", 280%Z); ("facebook", 63206%Z)].

(** [self.platform_limits.get(platform.lower(), 2200)] *)
Definition char_limit_of (platform : string) : Z :=
  Dict.get platform_limits (PyStr.lower platform) 2200%Z.

(** The text of the content returned when the call raised. *)
Definition fallback_text (topic_data : dict) : string :=
  py_str (get_or_none topic_data "hook") ++ PyStr.blank_line
  ++ "Stay tuned for more insights on " ++ py_str (get_or_none topic_data "title") ++ "!"
  ++ PyStr.blank_line ++ py_str (get_or_none topic_data "engagement_question").

(** The content returned when the call raised. *)
Definition fallback (topic_data : dict) (platform : string) : dict :=
  [("content", PyStr (fallback_text topic_data));
   ("platform", PyStr platform);
   ("character_count", PyInt 0);
   ("within_limit", PyBool true)].

(** What [generate_content] sends to the model. *)
Definition request_of (topic_data : dict) (platform : string) : request :=
  ContentRequest platform
    (py_str (get_or_none topic_data "title"))
    (py_str (get_or_none topic_data "hook"))
    (py_str (get_or_none topic_data "angle"))
    (char_limit_of platform)
    (py_str (get_or_none topic_data "engagement_question")).

(** [generate_content(topic_data, platform)] *)
Definition generate_content (topic_data : dict) (platform : string) : M dict :=
  try_except
    (let char_limit := char_limit_of platform in
     response <- invoke (request_of topic_data platform) ;;
     let content := PyStr.strip response in
     ret [("content", PyStr content);
          ("platform", PyStr platform);
          ("character_count", PyInt (Z.of_nat (String.length content)));
          ("within_limit", PyBool (Z.of_nat (String.length content) <=? char_limit)%Z)])
    (fun e => print (ContentError e) ;;; ret (fallback topic_data platform)).

End Methods.
End ContentGenerator.

Module HashtagGenerator.
Section Methods.
Context `{External}.

Definition platform_limits : list (string * Z) :=
  [("instagram", 30%Z); ("linkedin", 10%Z); ("twitter", 5%Z); ("facebook", 8%Z)].

(** [self.platform_limits.get(platform.lower(), 30)] *)
Definition limit_of (platform : pyobj) : result Z :=
  bind (py_lower platform) (fun p => Ok (Dict.get platform_limits p 30%Z)).

(** [_generate_fallback_hashtags(platform, topic_data)] *)
Definition _generate_fallback_hashtags (platform : pyobj) (topic_data : dict) : result dict :=
  (lowered <- py_lower (Dict.get topic_data "title" (PyStr "")) ;;
   let title_words := PyStr.split lowered in
   let basic_hashtags :=
     map (fun word => "#" ++ word)
         (filter (fun word => 3 <? String.length word) title_words) in
   limit <- limit_of platform ;;
   Ok [("primary_hashtags", PyList (map PyStr (slice_to limit basic_hashtags)));
       ("alternative_hashtags",
        PyList [PyStr ("#" ++ py_str platform); PyStr "#content"; PyStr "#socialmedia"]);
       ("strategy", PyStr "Using basic keyword-based hashtags");
       ("reach_prediction", PyStr "Moderate reach expected");
       ("total_primary", PyInt (Z.of_nat (List.length basic_hashtags)))])%result.

(** The f-string part [seo_context]. *)
Definition seo_context (seo_keywords : option (list string)) : string :=
  match seo_keywords with
  | Some (k :: ks) => "SEO Keywords: " ++ PyStr.join ", " (k :: ks)
  | _ => "Use relevant industry keywords"
  end.

Open Scope program_scope.

(** The [hashtag_data] chosen from the response: the object found in it when
    one is found and parses, the fallback otherwise. *)
Definition parse_or_fallback (platform : pyobj) (topic_data : dict) (response : string)
  : result dict :=
  match PyStr.search_braces response with
  | Some group =>
      match json_loads group with
      | Ok parsed => Ok parsed
      | Raise _ => _generate_fallback_hashtags platform topic_data
      end
  | None => _generate_fallback_hashtags platform topic_data
  end.

(** What [generate_hashtags] sends to the model. *)
Definition request_of (platform : pyobj) (topic_data : dict) (excerpt : pyobj)
    (limit : Z) (seo_keywords : option (list string)) : request :=
  HashtagRequest (py_str platform) (py_str (get_or_none topic_data "title"))
    (py_str excerpt) limit (seo_context seo_keywords).

(** [generate_hashtags(topic_data, content_data, seo_keywords)] *)
Definition generate_hashtags (topic_data content_data : dict)
    (seo_keywords : option (list string)) : M dict :=
  let platform := Dict.get content_data "platform" (PyStr "instagram") in
  try_except
    (limit <- lift (limit_of platform) ;;
     excerpt <- lift (py_slice_to 200 (get_or_none content_data "content")) ;;
     response <- invoke (request_of platform topic_data excerpt limit seo_keywords) ;;
     hashtag_data <- lift (parse_or_fallback platform topic_data response) ;;
     primary <- lift (subscript hashtag_data "primary_hashtags") ;;
     truncated <- lift (py_slice_to limit primary) ;;
     let hashtag_data := Dict.set "primary_hashtags" truncated hashtag_data in
     total <- lift (py_len truncated) ;;
     ret (Dict.set "total_primary" (PyInt total) hashtag_data))
    (fun e => print (HashtagError e) ;;;
              lift (_generate_fallback_hashtags platform topic_data)).

End Methods.
End HashtagGenerator.

(** ** The orchestrator: class [AIInfluencerChatbot] *)

Module AIInfluencerChatbot.
Section Methods.
Context `{External}.
Open Scope program_scope.

(** [_save_post(post_data)].  [os.makedirs] and the two look-ups of the file
    name stand before the [try]; the writes stand inside it. *)
Definition _save_post (post_data : dict) : M unit :=
  let posts_dir := "posts" in
  os_makedirs posts_dir ;;;
  platform <- lift (get_nested post_data "parameters" "platform" (PyStr "general")) ;;
  niche <- lift (get_nested post_data "parameters" "niche" (PyStr "content")) ;;
  t <- datetime_now ;;
  let base_filename := py_str platform ++ "_" ++ py_str niche ++ "_" ++ Clock.short t in
  let json_path := path_join posts_dir (base_filename ++ ".json") in
  let txt_path := path_join posts_dir (base_filename ++ ".txt") in
  try_except
    (write_file json_path (json_dump (PyDict post_data)) ;;;
     write_file txt_path (fst (text_report post_data)) ;;;
     lift (snd (text_report post_data)))
    (fun e => print (SaveError e)).

Definition seo_object (seo_keywords : option (list string)) : pyobj :=
  match seo_keywords with
  | None => PyNone
  | Some l => PyList (map PyStr l)
  end.

(** The dict returned from the [except] branch. *)
Definition error_result (e : string) (t : datetime) : dict :=
  [("error", PyStr e);
   ("ready_to_post", PyBool false);
   ("generation_timestamp", PyStr (Clock.isoformat t))].

(** The body of the [try] of [generate_complete_post]. *)
Definition generate_steps (niche audience tone platform : string)
    (seo_keywords : option (list string)) : M dict :=
  topic_data <- TopicGenerator.generate_topic niche audience tone ;;
  content_data <- ContentGenerator.generate_content topic_data platform ;;
  hashtag_data <- HashtagGenerator.generate_hashtags topic_data content_data seo_keywords ;;
  t_id <- datetime_now ;;
  t_stamp <- datetime_now ;;
  let complete_post : dict :=
    [("post_id", PyStr ("ai_influencer_" ++ Clock.compact t_id));
     ("generation_timestamp", PyStr (Clock.isoformat t_stamp));
     ("parameters",
      PyDict [("niche", PyStr niche); ("audience", PyStr audience); ("tone", PyStr tone);
              ("platform", PyStr platform); ("seo_keywords", seo_object seo_keywords)]);
     ("topic", PyDict topic_data);
     ("content", PyDict content_data);
     ("hashtags", PyDict hashtag_data);
     ("ready_to_post", PyBool true)] in
  _save_post complete_post ;;;
  memory_add_post complete_post ;;;
  memory_save_context ("Generate a " ++ platform ++ " post about " ++ niche)
    ("Generated post: " ++ py_str (Dict.get topic_data "title" (PyStr ""))) ;;;
  ret complete_post.

(** [generate_complete_post(niche, audience, tone, platform, seo_keywords)] *)
Definition generate_complete_post (niche audience tone platform : string)
    (seo_keywords : option (list string)) : M dict :=
  try_except
    (generate_steps niche audience tone platform seo_keywords)
    (fun e => print (PostError e) ;;;
              t <- datetime_now ;;
              ret (error_result e t)).

End Methods.
End AIInfluencerChatbot.

(** ** Vocabulary of the properties *)

(** [q] is a substring of [s]. *)
Definition occurs_in (q s : string) : Prop :=
  exists before after : string, s = before ++ q ++ after.

Module Query.
Import PostMemory.

(** The case-insensitive match of the search: the query, case-folded, is a
    substring of the case-folded title, content, or one of the hashtags. *)
Definition hit (query : string) (p : PostIndexEntry) : Prop :=
  occurs_in (PyStr.lower query) (PyStr.lower (entry_title p))
  \/ occurs_in (PyStr.lower query) (PyStr.lower (entry_content p))
  \/ exists tag, In tag (entry_hashtags p)
                 /\ occurs_in (PyStr.lower query) (PyStr.lower tag).

(** The same match as a test. *)
Definition hitb (query : string) (p : PostIndexEntry) : bool :=
  let q := PyStr.lower query in
  PyStr.contains q (PyStr.lower (entry_title p))
  || PyStr.contains q (PyStr.lower (entry_content p))
  || existsb (fun tag => PyStr.contains q (PyStr.lower tag)) (entry_hashtags p).

(** The entries of a store state, in index order. *)
Definition entries (idx : list (key * PostIndexEntry)) : list PostIndexEntry :=
  map snd idx.

(** Timestamps are compared as text. *)
Definition newer_or_same (a b : PostIndexEntry) : Prop :=
  (entry_timestamp b <=? entry_timestamp a)%string = true.

Definition stamped (t : string) (p : PostIndexEntry) : bool :=
  String.eqb (entry_timestamp p) t.

(** The sort of [get_recent_posts] on entries of the data model. *)
Fixpoint place (x : PostIndexEntry) (l : list PostIndexEntry) : list PostIndexEntry :=
  match l with
  | [] => [x]
  | y :: l' =>
      if (entry_timestamp x <? entry_timestamp y)%string then y :: place x l' else x :: l
  end.

Fixpoint newest_first (l : list PostIndexEntry) : list PostIndexEntry :=
  match l with
  | [] => []
  | x :: l' => place x (newest_first l')
  end.

(** A store of two posts, used to probe the slice of [get_recent_posts]. *)
Definition two_posts : list (key * PostIndexEntry) :=
  [(KStr "ai_influencer_20240101_090000",
    {| entry_platform := "twitter"; entry_niche := "fitness";
       entry_title := "Morning runs"; entry_content := "Run early.";
       entry_hashtags := ["#running"]; entry_timestamp := "2024-01-01T09:00:00";
       entry_location := "posts/ai_influencer_20240101_090000.json" |});
   (KStr "ai_influencer_20240102_090000",
    {| entry_platform := "twitter"; entry_niche := "fitness";
       entry_title := "Evening stretches"; entry_content := "Stretch late.";
       entry_hashtags := ["#mobility"]; entry_timestamp := "2024-01-02T09:00:00";
       entry_location := "posts/ai_influencer_20240102_090000.json" |})].

End Query.

(** ** Vocabulary of the properties of [load_posts] *)

Module Loaded.
Section Vocabulary.
Context `{External}.
Import PostMemory.
Open Scope result_scope.

(** What the [try] body of [load_posts] makes of one file: an exception, no
    entry (the record has no post id), or an entry under its key. *)
Definition file_entry (filename : string) (data : FileContent)
  : result (option (key * entry)) :=
  loaded <- json_load data ;;
  post_data <- as_dict loaded ;;
  let post_id := get_or_none post_data "post_id" in
  if truthy post_id then
    e <- index_entry post_data (path_join posts_dir filename) ;;
    k <- as_key post_id ;;
    Ok (Some (k, e))
  else Ok None.

(** The files that [load_posts] opens. *)
Definition is_post_file (file : string * FileContent) : bool :=
  PyStr.endswith (fst file) ".json".

(** The files whose [try] body completes. *)
Definition parses (file : string * FileContent) : bool :=
  match file_entry (fst file) (snd file) with
  | Ok _ => true
  | Raise _ => false
  end.

(** The file is opened and yields an entry under the key [k]. *)
Definition yields (k : key) (file : string * FileContent) : Prop :=
  is_post_file file = true
  /\ exists e, file_entry (fst file) (snd file) = Ok (Some (k, e)).

(** The entries of the post files that parse, in listing order. *)
Definition contributions (listing : list (string * FileContent)) : list (key * entry) :=
  flat_map (fun file =>
              if is_post_file file then
                match file_entry (fst file) (snd file) with
                | Ok (Some ke) => [ke]
                | _ => []
                end
              else []) listing.

(** One warning per post file that does not parse, in listing order. *)
Definition warnings (listing : list (string * FileContent)) : list event :=
  flat_map (fun file =>
              if is_post_file file then
                match file_entry (fst file) (snd file) with
                | Raise e => [LoadError (fst file) e]
                | Ok _ => []
                end
              else []) listing.

(** Successive assignments [posts_memory[k] = e]. *)
Definition insert_all (l : list (key * entry)) (m : store) : store :=
  fold_left (fun m ke => set (fst ke) (snd ke) m) l m.

(** Two entries agree on everything but the file path. *)
Definition same_projection (a b : entry) : Prop :=
  platform a = platform b /\ niche a = niche b /\ title a = title b
  /\ content a = content b /\ hashtags a = hashtags b /\ timestamp a = timestamp b.

End Vocabulary.
End Loaded.

(** ** Concrete worlds, used to run the program *)

Module Sample.

(** A codec in which a file holds a JSON document or something else, no
    response of the model parses, and the report never fails. *)
Definition codec : External :=
  {| json_loads := fun _ => Raise "Expecting value: line 1 column 1 (char 0)";
     py_repr := fun _ => "<object>";
     FileContent := option pyobj;
     json_dump := fun v => Some v;
     json_load := fun data =>
       match data with
       | Some v => Ok v
       | None => Raise "Expecting value: line 1 column 1 (char 0)"
       end;
     text_report := fun _ => (None, Ok tt) |}.

(** 4 November 2025, 10:02:03. *)
Definition morning : datetime :=
  {| year := 2025; month := 11; day := 4; hour := 10; minute := 2; second := 3;
     microsecond := 0 |}.

(** The model is unreachable; the disk and the conversation memory work. *)
Definition offline : Env :=
  {| llm_invoke := fun _ _ => Raise "503 service unavailable";
     now := fun _ => morning;
     makedirs := Ok tt;
     open_write := fun _ => Ok tt;
     save_context := Ok tt |}.

(** The model answers every request with the same plain sentence. *)
Definition online : Env :=
  {| llm_invoke := fun _ _ => Ok "  Move a little every day.  ";
     now := fun _ => morning;
     makedirs := Ok tt;
     open_write := fun _ => Ok tt;
     save_context := Ok tt |}.

(** The model is unreachable and the directory cannot be created. *)
Definition read_only : Env :=
  {| llm_invoke := fun _ _ => Raise "503 service unavailable";
     now := fun _ => morning;
     makedirs := Raise "[Errno 30] Read-only file system: 'posts'";
     open_write := fun _ => Raise "[Errno 30] Read-only file system";
     save_context := Ok tt |}.

(** A fresh process on an empty disk. *)
Definition fresh `{External} : State :=
  {| llm_calls := 0; clock_reads := 0; directories := []; files := [];
     posts_memory := []; conversation := []; stdout := [] |}.

(** A topic whose title has eight words of more than three characters. *)
Definition long_topic : dict :=
  [("title", PyStr "Seven Quick Habits That Boost Daily Energy Levels");
   ("hook", PyStr "Tired by noon?");
   ("angle", PyStr "Small changes");
   ("engagement_question", PyStr "Which habit will you try?")].

Definition twitter_content : dict :=
  [("content", PyStr "Tired by noon? Try these habits.");
   ("platform", PyStr "twitter");
   ("character_count", PyInt 32);
   ("within_limit", PyBool true)].

(** The post of a run with the model unreachable, as [generate_complete_post]
    assembles it. *)
Definition saved_post : dict :=
  [("post_id", PyStr "ai_influencer_20251104_100203");
   ("generation_timestamp", PyStr "2025-11-04T10:02:03");
   ("parameters",
    PyDict [("niche", PyStr "fitness"); ("audience", PyStr "gym-goers");
            ("tone", PyStr "motivational"); ("platform", PyStr "twitter");
            ("seo_keywords", PyNone)]);
   ("topic",
    PyDict [("title", PyStr "Latest Fitness Insights");
            ("hook", PyStr "Discover game-changing strategies");
            ("angle", PyStr "Expert perspective");
            ("engagement_question", PyStr "What are your thoughts?")]);
   ("content",
    PyDict [("content", PyStr "Discover game-changing strategies");
            ("platform", PyStr "twitter");
            ("character_count", PyInt 0);
            ("within_limit", PyBool true)]);
   ("hashtags",
    PyDict [("primary_hashtags", PyList [PyStr "#latest"; PyStr "#fitness"; PyStr "#insights"]);
            ("total_primary", PyInt 3)]);
   ("ready_to_post", PyBool true)].

(** A directory with a file that is not JSON, a text report, and a saved
    post. *)
Definition listing : list (string * option pyobj) :=
  [("broken.json", None);
   ("twitter_fitness_251104_1002.txt", None);
   ("twitter_fitness_251104_1002.json", Some (PyDict saved_post))].

End Sample.

(** ** The other methods of the post store *)

Module PostLookup.
Import PostMemory.
Open Scope result_scope.

(** [get_post(post_id)] *)
Definition get_post (post_id : string) (m : store) : option entry :=
  lookup (KStr post_id) m.

(** [field.lower() == name.lower()] *)
Definition lower_equal (field : pyobj) (name : string) : result bool :=
  s <- py_lower field ;; Ok (String.eqb s (PyStr.lower name)).

(** [[post for post in posts if test(post)]], the tests running in order. *)
Fixpoint comprehension (test : entry -> result bool) (posts : list entry)
  : result (list entry) :=
  match posts with
  | [] => Ok []
  | post :: rest =>
      b <- test post ;;
      kept <- comprehension test rest ;;
      Ok (if b then post :: kept else kept)
  end.

(** [get_posts_by_platform(platform)] *)
Definition get_posts_by_platform (name : string) (m : store) : result (list entry) :=
  comprehension (fun post => lower_equal (platform post) name) (values m).

(** [get_posts_by_niche(niche)] *)
Definition get_posts_by_niche (name : string) (m : store) : result (list entry) :=
  comprehension (fun post => lower_equal (niche post) name) (values m).

(** The keys of the store, in order. *)
Definition keys (m : store) : list key := map fst m.

Close Scope result_scope.
End PostLookup.

(** ** The analysis methods of the chatbot *)

Module Analyst.
Section Methods.
Context `{External}.
Import PostMemory.
Open Scope result_scope.

(** The character U+274C that opens the error texts, as its three UTF-8
    bytes. *)
Definition cross_mark : string :=
  String (ascii_of_nat 226) (String (ascii_of_nat 157) (String (ascii_of_nat 140) "")).

(** The answers of the model to the two analysis prompts, by the values
    interpolated into them: the context of the posts, and for the second the
    query as well.  (The client is the one of the generators; its requests
    there have another shape, so its answers here are oracles of their own.) *)
Record Model : Type := {
  suggestions_reply : string -> result string;
  similar_reply : string -> string -> result string
}.

(** [f"Post: {post['title']}\nContent: {post['content'][:200]}..."] *)
Definition post_context (post : entry) : result string :=
  excerpt <- py_slice_to 200 (content post) ;;
  Ok ("Post: " ++ py_str (title post) ++ String PyStr.newline "Content: "
      ++ py_str excerpt ++ "...").

Fixpoint post_contexts (posts : list entry) : result (list string) :=
  match posts with
  | [] => Ok []
  | post :: rest =>
      c <- post_context post ;;
      cs <- post_contexts rest ;;
      Ok (c :: cs)
  end.

(** The join of the contexts of [posts[:3]]. *)
Definition posts_context (posts : list entry) : result string :=
  cs <- post_contexts (firstn 3 posts) ;;
  Ok (PyStr.join PyStr.blank_line cs).

(** [if platform:] on an optional text. *)
Definition given (s : option string) : option string :=
  match s with
  | Some t => if String.eqb t "" then None else Some t
  | None => None
  end.

Definition no_suggestions : string :=
  "I don't have any relevant posts to suggest yet. Let's create some!".

Definition no_similar : string :=
  "I couldn't find any similar posts. Let's create something new!".

(** [get_post_suggestions(platform, niche)].  The selection of the posts and
    the building of the prompt stand before the [try]. *)
Definition get_post_suggestions (model : Model) (platform niche : option string)
    (m : store) : result string :=
  recent_posts <-
    match given platform, given niche with
    | Some p, _ => PostLookup.get_posts_by_platform p m
    | None, Some n => PostLookup.get_posts_by_niche n m
    | None, None => get_recent_posts 5 m
    end ;;
  match recent_posts with
  | [] => Ok no_suggestions
  | _ =>
      context <- posts_context recent_posts ;;
      match suggestions_reply model context with
      | Ok response => Ok (PyStr.strip response)
      | Raise e => Ok (cross_mark ++ " Error analyzing posts: " ++ e)
      end
  end.

(** [search_similar_posts(query)] *)
Definition search_similar_posts (model : Model) (query : string) (m : store)
  : result string :=
  matching_posts <- search_posts query m ;;
  match matching_posts with
  | [] => Ok no_similar
  | _ =>
      context <- posts_context matching_posts ;;
      match similar_reply model query context with
      | Ok response => Ok (PyStr.strip response)
      | Raise e => Ok (cross_mark ++ " Error analyzing similar posts: " ++ e)
      end
  end.

End Methods.
End Analyst.

(** ** The command loop: what [main] makes of one line of input *)

Module Cli.

Inductive action : Type :=
| Exit
| Help
| Generate (platform niche audience : string)
| Suggest (platform niche : option string)
| Search (query : string)
| MissingQuery
| Clear
| Chat (text : string).

(** [filter_type in ["instagram", "linkedin", "twitter"]] *)
Definition listed_platform (s : string) : bool :=
  existsb (String.eqb s) ["instagram"; "linkedin"; "twitter"].

(** The branch of the [if]/[elif] chain taken for one line, with the
    arguments of the call it makes. *)
Definition interpret (line : string) : action :=
  let user_input := PyStr.lower (PyStr.strip line) in
  if String.eqb user_input "exit" then Exit
  else if String.eqb user_input "help" then Help
  else if PyStr.startswith user_input "generate post" then
    let parts := PyStr.split user_input in
    Generate (nth 2 parts "instagram") (nth 3 parts "technology")
      (nth 4 parts "professionals")
  else if PyStr.startswith user_input "suggest posts" then
    let parts := PyStr.split user_input in
    match nth_error parts 2 with
    | Some filter_type =>
        if listed_platform filter_type then Suggest (Some filter_type) None
        else Suggest None (Some filter_type)
    | None => Suggest None None
    end
  else if PyStr.startswith user_input "search posts" then
    let query := PyStr.join " " (skipn 2 (PyStr.split user_input)) in
    if String.eqb query "" then MissingQuery else Search query
  else if String.eqb user_input "clear" then Clear
  else Chat user_input.

(** The call of [generate_complete_post] made for a [Generate] line: the
    tone and the keywords keep their defaults. *)
Definition generate `{External} (platform niche audience : string) : M dict :=
  AIInfluencerChatbot.generate_complete_post niche audience "engaging" platform None.

End Cli.

(** ** Vocabulary of the further properties *)

Module Shape.

Definition is_dict (v : pyobj) : bool :=
  match v with
  | PyDict _ => true
  | _ => false
  end.

Definition is_text (v : pyobj) : bool :=
  match v with
  | PyStr _ => true
  | _ => false
  end.

(** The sub-dicts that the index entry reads. *)
Definition sections : list string := ["parameters"; "topic"; "content"; "hashtags"].

(** Each section of the record is a dict or is absent. *)
Definition sections_ok (post_data : dict) : bool :=
  forallb (fun name =>
             match Dict.lookup name post_data with
             | Some v => is_dict v
             | None => true
             end) sections.

(** Lists and dicts cannot key a dict. *)
Definition hashable (v : pyobj) : bool :=
  match v with
  | PyList _ | PyDict _ => false
  | _ => true
  end.

End Shape.

Module Frame.
Section State.
Context `{External}.

(** A call left the clock, the disk, the store and the conversation as they
    were. *)
Definition untouched (st st' : State) : Prop :=
  clock_reads st' = clock_reads st
  /\ directories st' = directories st
  /\ files st' = files st
  /\ posts_memory st' = posts_memory st
  /\ conversation st' = conversation st.

End State.
End Frame.

Module Text.

(** Every character of the string passes the test. *)
Fixpoint all_chars (test : ascii -> bool) (s : string) : bool :=
  match s with
  | EmptyString => true
  | String c s' => test c && all_chars test s'
  end.

Definition not_space (c : ascii) : bool := negb (PyStr.is_space c).

Definition not_upper (c : ascii) : bool := negb (PyStr.is_upper c).

Definition is_blank (s : string) : bool := all_chars PyStr.is_space s.

(** A word as the command line passes it on: not empty, without white space
    and without upper-case letters. *)
Definition plain_word (w : string) : Prop :=
  w <> "" /\ all_chars not_space w = true /\ all_chars not_upper w = true.

End Text.

(** Records used to probe the error paths. *)
Module Probe.

(** A record whose topic is text instead of a dict. *)
Definition malformed_post : dict :=
  [("post_id", PyStr "ai_influencer_20251104_100203");
   ("topic", PyStr "Morning runs")].

(** A topic as the model may return it, with a null title. *)
Definition untitled_topic : dict :=
  [("title", PyNone); ("hook", PyStr "Tired by noon?")].

End Probe.

(** The context that the analysis prompts give of posts of the data model. *)
Module Digest.
Import PostMemory.

Definition of_entry (p : PostIndexEntry) : string :=
  "Post: " ++ entry_title p ++ String PyStr.newline "Content: "
  ++ PyStr.take 200 (entry_content p) ++ "...".

Definition of_posts (posts : list PostIndexEntry) : string :=
  PyStr.join PyStr.blank_line (map of_entry (firstn 3 posts)).

End Digest.

(** Braces, for the span that the generators hand to [json.loads]. *)
Module Braces.

Definition not_open (c : ascii) : bool := negb (Ascii.eqb c "{"%char).

Definition not_close (c : ascii) : bool := negb (Ascii.eqb c "}"%char).

End Braces.

(** Worlds used to probe the error paths. *)
Module ProbeWorld.

(** A codec whose [json.loads] reads every text as the empty object. *)
Definition empty_object_codec : External :=
  {| json_loads := fun _ => Ok [];
     py_repr := fun _ => "<object>";
     FileContent := option pyobj;
     json_dump := fun v => Some v;
     json_load := fun data =>
       match data with
       | Some v => Ok v
       | None => Raise "Expecting value: line 1 column 1 (char 0)"
       end;
     text_report := fun _ => (None, Ok tt) |}.

(** A codec whose [json.loads] reads every text as a topic with a null
    title. *)
Definition untitled_codec : External :=
  {| json_loads := fun _ => Ok Probe.untitled_topic;
     py_repr := fun _ => "<object>";
     FileContent := option pyobj;
     json_dump := fun v => Some v;
     json_load := fun data =>
       match data with
       | Some v => Ok v
       | None => Raise "Expecting value: line 1 column 1 (char 0)"
       end;
     text_report := fun _ => (None, Ok tt) |}.

(** The model answers every request with an empty object. *)
Definition braces : Env :=
  {| llm_invoke := fun _ _ => Ok "{}";
     now := fun _ => Sample.morning;
     makedirs := Ok tt;
     open_write := fun _ => Ok tt;
     save_context := Ok tt |}.

(** The model answers twice and is unreachable from the third call on. *)
Definition drops_out : Env :=
  {| llm_invoke := fun n _ =>
       match n with
       | 0 | 1 => Ok "{}"
       | _ => Raise "503 service unavailable"
       end;
     now := fun _ => Sample.morning;
     makedirs := Ok tt;
     open_write := fun _ => Ok tt;
     save_context := Ok tt |}.

(** An index entry whose title is [None], as a record with a null title
    leaves it. *)
Definition untitled_entry : PostMemory.entry :=
  {| PostMemory.platform := PyStr "twitter";
     PostMemory.niche := PyStr "fitness";
     PostMemory.title := PyNone;
     PostMemory.content := PyStr "Run early.";
     PostMemory.hashtags := PyList [PyStr "#running"];
     PostMemory.timestamp := PyStr "2024-01-03T09:00:00";
     PostMemory.file_path := "posts/ai_influencer_20240103_090000.json" |}.

End ProbeWorld.

(* ================================================================== *)
(** * Part II.  Properties *)
(* ================================================================== *)

(** ** Strings *)

Lemma prefix_app (q s : string) :
  String.prefix q s = true <-> exists after, s = q ++ after.
Proof.
  revert s; induction q as [|c q IH]; intros s; simpl.
  - destruct s; simpl; split; eauto.
  - destruct s as [|d s]; simpl.
    + split; [discriminate | intros [after Hs]; discriminate].
    + destruct (ascii_dec c d) as [->|Hne].
      * rewrite IH. split; intros [after Hs]; exists after; congruence.
      * split; [discriminate | intros [after Hs]; congruence].
Qed.

Lemma contains_occurs (q s : string) :
  PyStr.contains q s = true <-> occurs_in q s.
Proof.
  unfold occurs_in.
  induction s as [|c s IH].
  - cbn [PyStr.contains]. rewrite orb_false_r, prefix_app. split.
    + intros [after Hs]. exists "", after. exact Hs.
    + intros [before [after Hs]]. destruct before; simpl in Hs; [eauto | discriminate].
  - cbn [PyStr.contains]. rewrite orb_true_iff, prefix_app, IH. split.
    + intros [[after Hs] | [before [after Hs]]].
      * exists "", after. exact Hs.
      * exists (String c before), after. simpl. congruence.
    + intros [before [after Hs]]. destruct before as [|d before]; simpl in Hs.
      * left. eauto.
      * right. exists before, after. congruence.
Qed.


Lemma string_compare_refl (s : string) : (s ?= s)%string = Eq.
Proof.
  induction s as [|c s IH]; simpl; [reflexivity|].
  unfold Ascii.compare. rewrite N.compare_refl. exact IH.
Qed.

Lemma string_compare_lt_trans (a b c : string) :
  (a ?= b)%string = Lt -> (b ?= c)%string = Lt -> (a ?= c)%string = Lt.
Proof.
  revert b c; induction a as [|x a IH]; intros [|y b] [|z c]; simpl; try congruence.
  unfold Ascii.compare.
  destruct (N.compare_spec (N_of_ascii x) (N_of_ascii y)) as [Exy|Lxy|Gxy];
    destruct (N.compare_spec (N_of_ascii y) (N_of_ascii z)) as [Eyz|Lyz|Gyz];
    try congruence; intros Hab Hbc.
  - rewrite Exy, Eyz, N.compare_refl. eauto.
  - rewrite Exy. apply N.compare_lt_iff in Lyz. rewrite Lyz. reflexivity.
  - rewrite <- Eyz. apply N.compare_lt_iff in Lxy. rewrite Lxy. reflexivity.
  - assert (Hxz : (N_of_ascii x < N_of_ascii z)%N) by lia.
    apply N.compare_lt_iff in Hxz. rewrite Hxz. reflexivity.
Qed.

Lemma string_ltb_leb (a b : string) : (a <? b)%string = negb (b <=? a)%string.
Proof.
  unfold String.ltb, String.leb. rewrite (String.compare_antisym b a).
  destruct (a ?= b)%string; reflexivity.
Qed.

Lemma string_leb_refl (a : string) : (a <=? a)%string = true.
Proof. unfold String.leb. rewrite string_compare_refl. reflexivity. Qed.

Lemma string_leb_trans (a b c : string) :
  (a <=? b)%string = true -> (b <=? c)%string = true -> (a <=? c)%string = true.
Proof.
  unfold String.leb.
  destruct (a ?= b)%string eqn:Hab; try discriminate;
    destruct (b ?= c)%string eqn:Hbc; try discriminate; intros _ _.
  - apply String.compare_eq_iff in Hab, Hbc. subst. rewrite string_compare_refl. reflexivity.
  - apply String.compare_eq_iff in Hab. subst. rewrite Hbc. reflexivity.
  - apply String.compare_eq_iff in Hbc. subst. rewrite Hab. reflexivity.
  - rewrite (string_compare_lt_trans _ _ _ Hab Hbc). reflexivity.
Qed.

(** ** The post store: search *)

Section Search.
Import PostMemory Query.

Lemma values_stored_index (idx : list (key * PostIndexEntry)) :
  values (stored_index idx) = map stored (entries idx).
Proof.
  unfold values, stored_index, entries. rewrite !map_map. reflexivity.
Qed.

Lemma hitb_hit (query : string) (p : PostIndexEntry) :
  hitb query p = true <-> hit query p.
Proof.
  unfold hitb, hit. rewrite !orb_true_iff, !contains_occurs, existsb_exists.
  split.
  - intros [[Ht | Hc] | [tag [Hin Htag]]]; auto.
    right; right. exists tag. split; [assumption | apply contains_occurs; assumption].
  - intros [Ht | [Hc | [tag [Hin Htag]]]]; auto.
    right. exists tag. split; [assumption | apply contains_occurs; assumption].
Qed.

Lemma any_in_lower_text (q : string) (tags : list string) :
  any_in_lower q (map PyStr tags)
  = Ok (existsb (fun tag => PyStr.contains q (PyStr.lower tag)) tags).
Proof.
  induction tags as [|tag tags IH]; simpl; [reflexivity|].
  destruct (PyStr.contains q (PyStr.lower tag)); simpl; [reflexivity | exact IH].
Qed.

Lemma matches_stored (query : string) (p : PostIndexEntry) :
  matches (PyStr.lower query) (stored p) = Ok (hitb query p).
Proof.
  unfold matches, hitb, in_lower; simpl.
  destruct (PyStr.contains _ (PyStr.lower (entry_title p))); simpl; [reflexivity|].
  destruct (PyStr.contains _ (PyStr.lower (entry_content p))); simpl; [reflexivity|].
  apply any_in_lower_text.
Qed.

Lemma search_loop_stored (query : string) (l : list PostIndexEntry) (found : list entry) :
  search_loop (PyStr.lower query) (map stored l) found
  = Ok (found ++ map stored (filter (hitb query) l))%list.
Proof.
  revert found; induction l as [|p l IH]; intros found; simpl.
  - rewrite app_nil_r. reflexivity.
  - rewrite matches_stored; simpl. rewrite IH.
    destruct (hitb query p); simpl; [rewrite <- app_assoc|]; reflexivity.
Qed.

Lemma search_posts_stored (idx : list (key * PostIndexEntry)) (query : string) :
  search_posts query (stored_index idx)
  = Ok (map stored (filter (hitb query) (entries idx))).
Proof.
  unfold search_posts. rewrite values_stored_index, search_loop_stored. reflexivity.
Qed.





End Search.

(** ** The post store: recent posts *)

Section Recent.
Import PostMemory Query.

Lemma insert_stored (x : PostIndexEntry) (l : list PostIndexEntry) :
  insert (stored x) (map stored l) = Ok (map stored (place x l)).
Proof.
  induction l as [|y l IH]; simpl; [reflexivity|].
  destruct (entry_timestamp x <? entry_timestamp y)%string; simpl; [|reflexivity].
  rewrite IH. reflexivity.
Qed.

Lemma sorted_reverse_stored (l : list PostIndexEntry) :
  sorted_reverse (map stored l) = Ok (map stored (newest_first l)).
Proof.
  induction l as [|x l IH]; simpl; [reflexivity|].
  rewrite IH; simpl. apply insert_stored.
Qed.

Lemma place_perm (x : PostIndexEntry) (l : list PostIndexEntry) :
  Permutation (place x l) (x :: l).
Proof.
  induction l as [|y l IH]; simpl; [reflexivity|].
  destruct (entry_timestamp x <? entry_timestamp y)%string; [|reflexivity].
  rewrite IH. apply perm_swap.
Qed.

Lemma newest_first_perm (l : list PostIndexEntry) : Permutation (newest_first l) l.
Proof.
  induction l as [|x l IH]; simpl; [reflexivity|].
  rewrite place_perm. apply perm_skip, IH.
Qed.

Lemma newer_or_same_trans (a b c : PostIndexEntry) :
  newer_or_same a b -> newer_or_same b c -> newer_or_same a c.
Proof. unfold newer_or_same. intros Hab Hbc. eapply string_leb_trans; eassumption. Qed.

Lemma place_sorted (x : PostIndexEntry) (l : list PostIndexEntry) :
  StronglySorted newer_or_same l -> StronglySorted newer_or_same (place x l).
Proof.
  induction l as [|y l IH]; intros Hs; simpl.
  - constructor; constructor.
  - inversion Hs as [|? ? Hl Hy]; subst.
    destruct (entry_timestamp x <? entry_timestamp y)%string eqn:Hlt.
    + constructor; [apply IH; assumption|].
      eapply Permutation_Forall; [symmetry; apply place_perm|].
      constructor; [|assumption].
      unfold newer_or_same. rewrite string_ltb_leb in Hlt.
      destruct (String.leb_total (entry_timestamp x) (entry_timestamp y)) as [H1|H1];
        [assumption | rewrite H1 in Hlt; discriminate].
    + constructor; [assumption|].
      assert (Hyx : newer_or_same x y).
      { unfold newer_or_same. rewrite string_ltb_leb in Hlt.
        apply negb_false_iff in Hlt. exact Hlt. }
      constructor; [assumption|].
      eapply Forall_impl; [|exact Hy]. intros z Hz.
      eapply newer_or_same_trans; eassumption.
Qed.

Lemma newest_first_sorted (l : list PostIndexEntry) :
  StronglySorted newer_or_same (newest_first l).
Proof.
  induction l as [|x l IH]; simpl; [constructor | apply place_sorted, IH].
Qed.

Lemma string_ltb_neq (a b : string) : (a <? b)%string = true -> a <> b.
Proof.
  unfold String.ltb. intros Hlt ->. rewrite string_compare_refl in Hlt. discriminate.
Qed.

Lemma place_stable (t : string) (x : PostIndexEntry) (l : list PostIndexEntry) :
  filter (stamped t) (place x l) = filter (stamped t) (x :: l).
Proof.
  induction l as [|y l IH]; [reflexivity|].
  cbn [place].
  destruct (entry_timestamp x <? entry_timestamp y)%string eqn:Hlt; [|reflexivity].
  cbn [filter] in *. rewrite IH.
  destruct (stamped t x) eqn:Hx; [|reflexivity].
  destruct (stamped t y) eqn:Hy; [|reflexivity].
  unfold stamped in Hx, Hy. apply String.eqb_eq in Hx, Hy.
  apply string_ltb_neq in Hlt. congruence.
Qed.

Lemma newest_first_stable (t : string) (l : list PostIndexEntry) :
  filter (stamped t) (newest_first l) = filter (stamped t) l.
Proof.
  induction l as [|x l IH]; [reflexivity|].
  cbn [newest_first]. rewrite place_stable. cbn [filter]. rewrite IH. reflexivity.
Qed.

Lemma not_newer_or_same (a b : PostIndexEntry) :
  (entry_timestamp a <? entry_timestamp b)%string = true -> ~ newer_or_same a b.
Proof.
  unfold newer_or_same. rewrite string_ltb_leb. intros Hlt Hle.
  rewrite Hle in Hlt. discriminate.
Qed.

Lemma older_differs (a b : PostIndexEntry) :
  (entry_timestamp a <? entry_timestamp b)%string = true -> a <> b.
Proof. intros Hlt ->. apply string_ltb_neq in Hlt. congruence. Qed.

(** Three posts with increasing timestamps have one arrangement that is
    sorted newest first. *)
Lemma sorted_three (s : list PostIndexEntry) (e1 e2 e3 : PostIndexEntry) :
  (entry_timestamp e1 <? entry_timestamp e2)%string = true ->
  (entry_timestamp e2 <? entry_timestamp e3)%string = true ->
  Permutation s [e1; e2; e3] ->
  StronglySorted newer_or_same s ->
  s = [e3; e2; e1].
Proof.
  intros L12 L23 HP HS.
  assert (L13 : (entry_timestamp e1 <? entry_timestamp e3)%string = true).
  { unfold String.ltb in *.
    destruct (entry_timestamp e1 ?= entry_timestamp e2)%string eqn:H12; try discriminate.
    destruct (entry_timestamp e2 ?= entry_timestamp e3)%string eqn:H23; try discriminate.
    rewrite (string_compare_lt_trans _ _ _ H12 H23). reflexivity. }
  pose proof (Permutation_length HP) as Hlen.
  destruct s as [|x [|y [|z [|]]]]; try discriminate.
  assert (Hnd : NoDup [x; y; z]).
  { apply (Permutation_NoDup (Permutation_sym HP)).
    pose proof (older_differs _ _ L12). pose proof (older_differs _ _ L23).
    pose proof (older_differs _ _ L13).
    repeat constructor; simpl; intuition congruence. }
  assert (Hxy : x <> y /\ x <> z /\ y <> z).
  { inversion Hnd as [|? ? Hx Hnd']; subst. inversion Hnd' as [|? ? Hy _]; subst.
    simpl in Hx, Hy. intuition congruence. }
  destruct Hxy as [Hxy [Hxz Hyz]].
  assert (Hx : In x [e1; e2; e3]) by (apply (Permutation_in _ HP); simpl; auto).
  assert (Hy : In y [e1; e2; e3]) by (apply (Permutation_in _ HP); simpl; auto).
  assert (Hz : In z [e1; e2; e3]) by (apply (Permutation_in _ HP); simpl; auto).
  inversion HS as [|? ? HS' Fx]; subst.
  inversion HS' as [|? ? _ Fy]; subst.
  inversion Fx as [|? ? Nxy Fx']; subst. inversion Fx' as [|? ? Nxz _]; subst.
  inversion Fy as [|? ? Nyz _]; subst.
  pose proof (not_newer_or_same _ _ L12). pose proof (not_newer_or_same _ _ L23).
  pose proof (not_newer_or_same _ _ L13).
  simpl in Hx, Hy, Hz.
  destruct Hx as [<-|[<-|[<-|[]]]]; destruct Hy as [<-|[<-|[<-|[]]]];
    destruct Hz as [<-|[<-|[<-|[]]]]; try contradiction; reflexivity.
Qed.

(** C6, as amended.  On every store state of the data model and for every
    limit [n >= 0], [get_recent_posts] returns the first [n] posts of the
    index sorted by timestamp, newest first: at most [n] posts, taken from a
    rearrangement of the index that is sorted by decreasing timestamp and in which
    posts with equal timestamps keep their insertion order.  In particular,
    when the index holds three posts with timestamps [T1 < T2 < T3], in any
    insertion order, the limit 2 yields the post of [T3], then that of [T2]. *)
Theorem get_recent_posts_newest_first
    (idx : list (key * PostIndexEntry)) (n : Z) (Hn : (0 <= n)%Z) :
  let sorted_posts := newest_first (entries idx) in
  let shown := firstn (Z.to_nat n) sorted_posts in
  get_recent_posts n (stored_index idx) = Ok (map stored shown)
  /\ (Z.of_nat (List.length shown) <= n)%Z
  /\ Permutation sorted_posts (entries idx)
  /\ StronglySorted newer_or_same sorted_posts
  /\ (forall t, filter (stamped t) sorted_posts = filter (stamped t) (entries idx))
  /\ (forall e1 e2 e3,
        (entry_timestamp e1 <? entry_timestamp e2)%string = true ->
        (entry_timestamp e2 <? entry_timestamp e3)%string = true ->
        Permutation (entries idx) [e1; e2; e3] ->
        n = 2%Z ->
        shown = [e3; e2]).
Proof.
  intros sorted_posts shown. subst sorted_posts shown.
  repeat split.
  - unfold get_recent_posts. rewrite values_stored_index, sorted_reverse_stored; simpl.
    unfold slice_to. apply Z.leb_le in Hn. rewrite Hn, firstn_map. reflexivity.
  - pose proof (firstn_le_length (Z.to_nat n) (newest_first (entries idx))). lia.
  - apply newest_first_perm.
  - apply newest_first_sorted.
  - intros t. apply newest_first_stable.
  - intros e1 e2 e3 L12 L23 HP ->.
    rewrite (sorted_three (newest_first (entries idx)) e1 e2 e3 L12 L23).
    + reflexivity.
    + rewrite newest_first_perm. exact HP.
    + apply newest_first_sorted.
Qed.

(** The amended C6 on a store of two posts with limit 1. *)
Lemma get_recent_posts_newest_first_witness :
  (0 <= 1)%Z
  /\ get_recent_posts 1 (stored_index two_posts)
     = Ok (map stored (firstn 1 (newest_first (entries two_posts)))).
Proof.
  split; [lia|].
  exact (proj1 (get_recent_posts_newest_first two_posts 1 ltac:(lia))).
Defined.

(** C6 as stated fails for a negative limit: with two posts in the store,
    [get_recent_posts(-1)] returns one post, which is more than [-1]. *)
Lemma get_recent_posts_negative_limit :
  exists found,
    get_recent_posts (-1) (stored_index two_posts) = Ok found
    /\ ~ (Z.of_nat (List.length found) <= -1)%Z.
Proof.
  eexists. split; [vm_compute; reflexivity | simpl; lia].
Qed.

End Recent.

(** ** The content generator *)

Section Content.
Context `{External}.
Import ContentGenerator.

Lemma generate_content_returned (env : Env) (st : State) (topic_data : dict)
    (platform response : string) :
  llm_invoke env (llm_calls st) (request_of topic_data platform) = Ok response ->
  fst (generate_content topic_data platform env st)
  = Ok [("content", PyStr (PyStr.strip response));
        ("platform", PyStr platform);
        ("character_count", PyInt (Z.of_nat (String.length (PyStr.strip response))));
        ("within_limit",
         PyBool (Z.of_nat (String.length (PyStr.strip response)) <=? char_limit_of platform)%Z)].
Proof.
  intros Hcall. unfold generate_content, try_except, mbind, invoke, ret.
  rewrite Hcall. reflexivity.
Qed.

Lemma generate_content_raised (env : Env) (st : State) (topic_data : dict)
    (platform e : string) :
  llm_invoke env (llm_calls st) (request_of topic_data platform) = Raise e ->
  fst (generate_content topic_data platform env st) = Ok (fallback topic_data platform).
Proof.
  intros Hcall. unfold generate_content, try_except, mbind, invoke, ret, print.
  rewrite Hcall. reflexivity.
Qed.

Lemma char_limit_default (platform : string) :
  PyStr.lower platform <> "instagram" -> PyStr.lower platform <> "linkedin" ->
  PyStr.lower platform <> "twitter" -> PyStr.lower platform <> "facebook" ->
  char_limit_of platform = 2200%Z.
Proof.
  intros H1 H2 H3 H4. unfold char_limit_of, Dict.get, platform_limits; simpl.
  apply String.eqb_neq in H1, H2, H3, H4. rewrite H1, H2, H3, H4. reflexivity.
Qed.

(** C3.  For every platform and every response of the model, the content
    returned when the call succeeds holds the trimmed response, its exact
    length as [character_count], and [within_limit] true precisely when that
    length is at most the budget of the platform; when the call raises, the
    content is the hook, the continuation line and the engagement question,
    with [character_count] 0 and [within_limit] true.  The budgets are 2200,
    3000, 280 and 63206 for instagram, linkedin, twitter and facebook, and
    2200 for any other platform. *)
Theorem generate_content_measures (env : Env) (st : State) (topic_data : dict)
    (platform : string) :
  let call := llm_invoke env (llm_calls st) (request_of topic_data platform) in
  let budget := char_limit_of platform in
  (forall response, call = Ok response ->
     let text := PyStr.strip response in
     exists flag,
       fst (generate_content topic_data platform env st)
       = Ok [("content", PyStr text);
             ("platform", PyStr platform);
             ("character_count", PyInt (Z.of_nat (String.length text)));
             ("within_limit", PyBool flag)]
       /\ (flag = true <-> (Z.of_nat (String.length text) <= budget)%Z))
  /\ (forall e, call = Raise e ->
       fst (generate_content topic_data platform env st)
       = Ok [("content",
              PyStr (py_str (get_or_none topic_data "hook") ++ PyStr.blank_line
                     ++ "Stay tuned for more insights on "
                     ++ py_str (get_or_none topic_data "title") ++ "!"
                     ++ PyStr.blank_line
                     ++ py_str (get_or_none topic_data "engagement_question")));
             ("platform", PyStr platform);
             ("character_count", PyInt 0);
             ("within_limit", PyBool true)])
  /\ (char_limit_of "instagram" = 2200 /\ char_limit_of "linkedin" = 3000
      /\ char_limit_of "twitter" = 280 /\ char_limit_of "facebook" = 63206)%Z
  /\ (forall other,
        PyStr.lower other <> "instagram" -> PyStr.lower other <> "linkedin" ->
        PyStr.lower other <> "twitter" -> PyStr.lower other <> "facebook" ->
        char_limit_of other = 2200%Z).
Proof.
  cbv zeta. split; [|split; [|split]].
  - intros response Hcall. eexists. split.
    + apply generate_content_returned. exact Hcall.
    + apply Z.leb_le.
  - intros e Hcall. apply (generate_content_raised env st topic_data platform e Hcall).
  - repeat split; reflexivity.
  - apply char_limit_default.
Qed.

End Content.

(** C3 run twice: the model answers, and the model is unreachable. *)
Lemma generate_content_measures_witness :
  (llm_invoke Sample.online 0
     (ContentGenerator.request_of (H := Sample.codec) Sample.long_topic "twitter")
   = Ok "  Move a little every day.  "
   /\ exists flag,
       fst (ContentGenerator.generate_content (H := Sample.codec) Sample.long_topic
              "twitter" Sample.online Sample.fresh)
       = Ok [("content", PyStr "Move a little every day.");
             ("platform", PyStr "twitter");
             ("character_count", PyInt 24);
             ("within_limit", PyBool flag)]
       /\ (flag = true <-> (24 <= 280)%Z))
  /\ (llm_invoke Sample.offline 0
        (ContentGenerator.request_of (H := Sample.codec) Sample.long_topic "twitter")
      = Raise "503 service unavailable"
      /\ Dict.lookup "character_count"
           match fst (ContentGenerator.generate_content (H := Sample.codec)
                        Sample.long_topic "twitter" Sample.offline Sample.fresh) with
           | Ok content_data => content_data
           | Raise _ => []
           end
         = Some (PyInt 0)).
Proof.
  split; (split; [reflexivity|]).
  - exact (proj1 (generate_content_measures (H := Sample.codec) Sample.online
                    (Sample.fresh (H := Sample.codec)) Sample.long_topic "twitter")
             _ eq_refl).
  - rewrite (proj1 (proj2 (generate_content_measures (H := Sample.codec) Sample.offline
                             (Sample.fresh (H := Sample.codec)) Sample.long_topic "twitter"))
               _ eq_refl).
    reflexivity.
Defined.

(** ** The hashtag generator *)

Lemma lookup_set_same {V : Type} (k : string) (v : V) (d : list (string * V)) :
  Dict.lookup k (Dict.set k v d) = Some v.
Proof.
  induction d as [|[k' v'] d IH]; simpl.
  - rewrite String.eqb_refl. reflexivity.
  - destruct (String.eqb k k') eqn:Hk; simpl; [rewrite String.eqb_refl | rewrite Hk];
      [reflexivity | exact IH].
Qed.

Lemma lookup_set_other {V : Type} (k k0 : string) (v : V) (d : list (string * V)) :
  k0 <> k -> Dict.lookup k0 (Dict.set k v d) = Dict.lookup k0 d.
Proof.
  intros Hne. induction d as [|[k' v'] d IH]; simpl.
  - apply String.eqb_neq in Hne. rewrite Hne. reflexivity.
  - destruct (String.eqb k k') eqn:Hk; simpl.
    + apply String.eqb_eq in Hk. subst k'. apply String.eqb_neq in Hne.
      rewrite Hne. reflexivity.
    + rewrite IH. reflexivity.
Qed.

Section Hashtags.
Context `{External}.
Import HashtagGenerator.

Lemma limit_of_values (platform : pyobj) (limit : Z) :
  limit_of platform = Ok limit -> (5 <= limit <= 30)%Z.
Proof.
  unfold limit_of. destruct platform as [| | |p| |]; simpl; try discriminate.
  unfold Dict.get, platform_limits; simpl.
  repeat match goal with
         | |- context [String.eqb ?a ?b] => destruct (String.eqb a b)
         end; intros [= <-]; lia.
Qed.

(** X29.  When the call returns and the chosen [hashtag_data] holds a list of
    primary tags, the list is cut to the limit of the platform and
    [total_primary] is the length of what is kept. *)
Lemma generate_hashtags_returned (env : Env) (st : State) (topic_data content_data : dict)
    (seo_keywords : option (list string)) (limit : Z) (excerpt : pyobj)
    (response : string) (hashtag_data : dict) (tags : list pyobj) :
  let platform := Dict.get content_data "platform" (PyStr "instagram") in
  limit_of platform = Ok limit ->
  py_slice_to 200 (get_or_none content_data "content") = Ok excerpt ->
  llm_invoke env (llm_calls st) (request_of platform topic_data excerpt limit seo_keywords)
  = Ok response ->
  parse_or_fallback platform topic_data response = Ok hashtag_data ->
  Dict.lookup "primary_hashtags" hashtag_data = Some (PyList tags) ->
  exists result kept,
    fst (generate_hashtags topic_data content_data seo_keywords env st) = Ok result
    /\ Dict.lookup "primary_hashtags" result = Some (PyList kept)
    /\ Dict.lookup "total_primary" result = Some (PyInt (Z.of_nat (List.length kept)))
    /\ (Z.of_nat (List.length kept) <= limit)%Z
    /\ kept = firstn (Z.to_nat limit) tags.
Proof.
  intros platform Hlimit Hexcerpt Hcall Hparse Htags.
  pose proof (limit_of_values _ _ Hlimit) as Hbound.
  exists (Dict.set "total_primary"
            (PyInt (Z.of_nat (List.length (firstn (Z.to_nat limit) tags))))
            (Dict.set "primary_hashtags" (PyList (firstn (Z.to_nat limit) tags)) hashtag_data)),
         (firstn (Z.to_nat limit) tags).
  split; [|split; [|split; [|split]]].
  - unfold generate_hashtags, try_except, mbind, lift, invoke, ret. fold platform.
    rewrite Hlimit, Hexcerpt; cbn [llm_calls]. rewrite Hcall, Hparse.
    unfold subscript. rewrite Htags. cbn [py_slice_to py_len].
    unfold slice_to. replace (0 <=? limit)%Z with true by (symmetry; apply Z.leb_le; lia).
    reflexivity.
  - rewrite lookup_set_other by discriminate. apply lookup_set_same.
  - apply lookup_set_same.
  - pose proof (firstn_le_length (Z.to_nat limit) tags). lia.
  - reflexivity.
Qed.

(** C1 at the call-failure path.  The model is unreachable, the platform is
    twitter (limit 5) and the title has eight words of more than three
    characters: the fallback keeps five primary tags and reports
    [total_primary] as 8, the number of tags before the cut. *)
Theorem generate_hashtags_call_failure_total (st : State) :
  exists hashtag_data tags,
    fst (generate_hashtags Sample.long_topic Sample.twitter_content None Sample.offline st)
    = Ok hashtag_data
    /\ limit_of (PyStr "twitter") = Ok 5%Z
    /\ Dict.lookup "primary_hashtags" hashtag_data = Some (PyList tags)
    /\ List.length tags = 5
    /\ Dict.lookup "total_primary" hashtag_data = Some (PyInt 8).
Proof.
  eexists _, _. split; [|split; [|split; [|split]]].
  - reflexivity.
  - reflexivity.
  - reflexivity.
  - reflexivity.
  - reflexivity.
Qed.

End Hashtags.

(** ** The orchestrator *)

Section Orchestrator.
Context `{External}.
Import AIInfluencerChatbot.

Lemma mbind_ok {A B : Type} (m : M A) (k : A -> M B) (env : Env) (st st1 : State) (a : A) :
  m env st = (Ok a, st1) -> mbind m k env st = k a env st1.
Proof. intros Hm. unfold mbind. rewrite Hm. reflexivity. Qed.

Lemma mbind_raise {A B : Type} (m : M A) (k : A -> M B) (env : Env) (st st1 : State)
    (e : string) :
  m env st = (Raise e, st1) -> mbind m k env st = (Raise e, st1).
Proof. intros Hm. unfold mbind. rewrite Hm. reflexivity. Qed.

Lemma mbind_ok_inv {A B : Type} (m : M A) (k : A -> M B) (env : Env) (st st' : State)
    (b : B) :
  mbind m k env st = (Ok b, st') ->
  exists a st1, m env st = (Ok a, st1) /\ k a env st1 = (Ok b, st').
Proof.
  unfold mbind. destruct (m env st) as [[a|e] st1]; intros Hk; [eauto | discriminate].
Qed.

Lemma generate_topic_raised (env : Env) (st : State) (niche audience tone e : string) :
  llm_invoke env (llm_calls st) (TopicRequest niche audience tone) = Raise e ->
  TopicGenerator.generate_topic niche audience tone env st
  = (Ok (TopicGenerator.fallback niche),
     {| llm_calls := S (llm_calls st); clock_reads := clock_reads st;
        directories := directories st; files := files st;
        posts_memory := posts_memory st; conversation := conversation st;
        stdout := stdout st ++ [TopicError e] |}).
Proof.
  intros Hcall. unfold TopicGenerator.generate_topic, try_except, mbind, invoke, print, ret.
  rewrite Hcall. reflexivity.
Qed.

Lemma generate_content_raised_state (env : Env) (st : State) (topic_data : dict)
    (platform e : string) :
  llm_invoke env (llm_calls st) (ContentGenerator.request_of topic_data platform) = Raise e ->
  ContentGenerator.generate_content topic_data platform env st
  = (Ok (ContentGenerator.fallback topic_data platform),
     {| llm_calls := S (llm_calls st); clock_reads := clock_reads st;
        directories := directories st; files := files st;
        posts_memory := posts_memory st; conversation := conversation st;
        stdout := stdout st ++ [ContentError e] |}).
Proof.
  intros Hcall.
  unfold ContentGenerator.generate_content, try_except, mbind, invoke, print, ret.
  rewrite Hcall. reflexivity.
Qed.

Lemma generate_hashtags_raised (env : Env) (st : State) (topic_data content_data : dict)
    (seo_keywords : option (list string)) (limit : Z) (excerpt : pyobj) (e : string) :
  let platform := Dict.get content_data "platform" (PyStr "instagram") in
  HashtagGenerator.limit_of platform = Ok limit ->
  py_slice_to 200 (get_or_none content_data "content") = Ok excerpt ->
  llm_invoke env (llm_calls st)
    (HashtagGenerator.request_of platform topic_data excerpt limit seo_keywords) = Raise e ->
  HashtagGenerator.generate_hashtags topic_data content_data seo_keywords env st
  = (HashtagGenerator._generate_fallback_hashtags platform topic_data,
     {| llm_calls := S (llm_calls st); clock_reads := clock_reads st;
        directories := directories st; files := files st;
        posts_memory := posts_memory st; conversation := conversation st;
        stdout := stdout st ++ [HashtagError e] |}).
Proof.
  intros platform Hlimit Hexcerpt Hcall.
  unfold HashtagGenerator.generate_hashtags, try_except, mbind, lift, invoke, print.
  fold platform. rewrite Hlimit, Hexcerpt. cbn [llm_calls]. rewrite Hcall. reflexivity.
Qed.

(** Once the directory is there and the post names its platform and niche,
    [_save_post] returns: what the writes raise is caught.  It reads the
    clock once and leaves the store, the counters of the model and the
    conversation alone. *)
Lemma save_post_returns (env : Env) (st : State) (post_data : dict) (platform niche : pyobj) :
  makedirs env = Ok tt ->
  get_nested post_data "parameters" "platform" (PyStr "general") = Ok platform ->
  get_nested post_data "parameters" "niche" (PyStr "content") = Ok niche ->
  exists st',
    _save_post post_data env st = (Ok tt, st')
    /\ posts_memory st' = posts_memory st
    /\ clock_reads st' = S (clock_reads st)
    /\ llm_calls st' = llm_calls st
    /\ conversation st' = conversation st.
Proof.
  intros Hmk Hp Hn.
  unfold _save_post, try_except, mbind, os_makedirs, lift, datetime_now, write_file, print.
  rewrite Hmk, Hp, Hn. cbn [directories files clock_reads llm_calls posts_memory conversation stdout].
  destruct (open_write env _) as [[]|e1]; [|eexists; repeat split].
  cbn [directories files clock_reads llm_calls posts_memory conversation stdout].
  destruct (open_write env _) as [[]|e2]; [|eexists; repeat split].
  destruct (snd (text_report post_data)) as [[]|e3]; eexists; repeat split.
Qed.

(** C2.  When every call of the model raises, and the directory of the posts
    can be created and the conversation memory takes the turn, the post for
    fitness, gym-goers, motivational, twitter is returned from the [try] body
    (the [except] branch of the orchestrator is not taken) with
    [ready_to_post] true; its topic, content and hashtags are the fallbacks of
    the three generators, which depend on the arguments only: the title is
    "Latest Fitness Insights" and [total_primary] is 3, below the limit 5. *)
Theorem generate_complete_post_offline (env : Env) (st : State)
    (Hllm : forall n r, exists e, llm_invoke env n r = Raise e)
    (Hdir : makedirs env = Ok tt)
    (Hmem : save_context env = Ok tt) :
  exists post hashtags,
    fst (generate_steps "fitness" "gym-goers" "motivational" "twitter" None env st) = Ok post
    /\ fst (generate_complete_post "fitness" "gym-goers" "motivational" "twitter" None env st)
       = Ok post
    /\ Dict.lookup "ready_to_post" post = Some (PyBool true)
    /\ Dict.lookup "topic" post = Some (PyDict (TopicGenerator.fallback "fitness"))
    /\ Dict.lookup "title" (TopicGenerator.fallback "fitness")
       = Some (PyStr "Latest Fitness Insights")
    /\ Dict.lookup "content" post
       = Some (PyDict (ContentGenerator.fallback (TopicGenerator.fallback "fitness") "twitter"))
    /\ Dict.lookup "hashtags" post = Some (PyDict hashtags)
    /\ HashtagGenerator._generate_fallback_hashtags (PyStr "twitter")
         (TopicGenerator.fallback "fitness") = Ok hashtags
    /\ Dict.lookup "total_primary" hashtags = Some (PyInt 3)
    /\ (3 <= 5)%Z.
Proof.
  assert (Hsteps : exists post st',
            generate_steps "fitness" "gym-goers" "motivational" "twitter" None env st
            = (Ok post, st')
            /\ Dict.lookup "ready_to_post" post = Some (PyBool true)
            /\ Dict.lookup "topic" post = Some (PyDict (TopicGenerator.fallback "fitness"))
            /\ Dict.lookup "content" post
               = Some (PyDict (ContentGenerator.fallback (TopicGenerator.fallback "fitness")
                                 "twitter"))
            /\ exists hashtags,
                 Dict.lookup "hashtags" post = Some (PyDict hashtags)
                 /\ HashtagGenerator._generate_fallback_hashtags (PyStr "twitter")
                      (TopicGenerator.fallback "fitness") = Ok hashtags
                 /\ Dict.lookup "total_primary" hashtags = Some (PyInt 3)).
  { unfold generate_steps.
    destruct (Hllm (llm_calls st) (TopicRequest "fitness" "gym-goers" "motivational"))
      as [e1 H1].
    rewrite (mbind_ok _ _ _ _ _ _ (generate_topic_raised env st _ _ _ e1 H1)).
    cbv beta.
    match goal with
    | |- context [mbind (ContentGenerator.generate_content ?t ?p) _ env ?s] =>
        destruct (Hllm (llm_calls s) (ContentGenerator.request_of t p)) as [e2 H2];
        rewrite (mbind_ok _ _ _ _ _ _ (generate_content_raised_state env s t p e2 H2))
    end.
    cbv beta.
    match goal with
    | |- context [mbind (HashtagGenerator.generate_hashtags ?t ?c ?k) _ env ?s] =>
        destruct (Hllm (llm_calls s)
                    (HashtagGenerator.request_of (PyStr "twitter") t
                       (PyStr (PyStr.slice_to 200 (ContentGenerator.fallback_text t))) 5%Z k))
          as [e3 H3];
        pose proof (generate_hashtags_raised env s t c k 5%Z _ e3 eq_refl eq_refl H3) as Hh
    end.
    cbv zeta in Hh.
    change (Dict.get (ContentGenerator.fallback (TopicGenerator.fallback "fitness") "twitter")
              "platform" (PyStr "instagram")) with (PyStr "twitter") in Hh.
    destruct (HashtagGenerator._generate_fallback_hashtags (PyStr "twitter")
                (TopicGenerator.fallback "fitness")) as [hashtags|] eqn:Hfb;
      [|discriminate Hfb].
    rewrite (mbind_ok _ _ _ _ _ _ Hh).
    cbv beta.
    unfold mbind at 1, datetime_now at 1. unfold mbind at 1, datetime_now at 1.
    cbn [clock_reads llm_calls].
    match goal with
    | |- context [mbind (_save_post ?p) _ env ?s] =>
        destruct (save_post_returns env s p (PyStr "twitter") (PyStr "fitness")
                    Hdir eq_refl eq_refl) as [st4 [Hsave _]];
        rewrite (mbind_ok _ _ _ _ _ _ Hsave)
    end.
    unfold mbind, memory_add_post, memory_save_context, ret.
    cbn. rewrite Hmem.
    eexists _, _. split; [reflexivity|].
    repeat split. exists hashtags. repeat split.
    injection Hfb as <-. reflexivity. }
  destruct Hsteps as [post [st' [Hrun [Hready [Htopic [Hcontent [hashtags [Hh [Hf Ht]]]]]]]]].
  exists post, hashtags.
  split; [rewrite Hrun; reflexivity|].
  split; [unfold generate_complete_post, try_except; rewrite Hrun; reflexivity|].
  repeat split; try assumption. lia.
Qed.

Lemma try_except_ok {A : Type} (body : M A) (handler : string -> M A) (env : Env)
    (st st' : State) (a : A) :
  body env st = (Ok a, st') -> try_except body handler env st = (Ok a, st').
Proof. intros Hb. unfold try_except. rewrite Hb. reflexivity. Qed.

(** What the [try] body returns is the post, marked ready. *)
Lemma generate_steps_ready (env : Env) (st st' : State)
    (niche audience tone platform : string) (seo_keywords : option (list string))
    (post : dict) :
  generate_steps niche audience tone platform seo_keywords env st = (Ok post, st') ->
  Dict.lookup "ready_to_post" post = Some (PyBool true).
Proof.
  unfold generate_steps. intros Hrun.
  repeat (apply mbind_ok_inv in Hrun; destruct Hrun as [? [? [_ Hrun]]]).
  unfold ret in Hrun. injection Hrun as <- _. reflexivity.
Qed.

(** C7.  [generate_complete_post] returns whatever its steps do: when a step
    raises, the exception is caught and the result holds its message,
    [ready_to_post] false and the time of the clock reading made in the
    handler; and a result has [ready_to_post] false exactly when the [except]
    branch was taken. *)
Theorem generate_complete_post_catches (env : Env) (st : State)
    (niche audience tone platform : string) (seo_keywords : option (list string)) :
  let run := generate_complete_post niche audience tone platform seo_keywords env st in
  let steps := generate_steps niche audience tone platform seo_keywords env st in
  (exists outcome, fst run = Ok outcome)
  /\ (forall e st1, steps = (Raise e, st1) ->
        fst run = Ok [("error", PyStr e);
                      ("ready_to_post", PyBool false);
                      ("generation_timestamp",
                       PyStr (Clock.isoformat (now env (clock_reads st1))))])
  /\ (forall outcome, fst run = Ok outcome ->
        (Dict.lookup "ready_to_post" outcome = Some (PyBool false)
         <-> exists e st1, steps = (Raise e, st1))).
Proof.
  cbv zeta. unfold generate_complete_post, try_except.
  destruct (generate_steps niche audience tone platform seo_keywords env st)
    as [[post|e] st1] eqn:Hsteps.
  - split; [eexists; reflexivity|]. split; [discriminate|].
    intros outcome [= <-]. rewrite (generate_steps_ready _ _ _ _ _ _ _ _ _ Hsteps).
    split; [discriminate | intros [e' [st2 Habs]]; discriminate].
  - split; [eexists; reflexivity|]. split.
    + intros e' st2 [= <- <-]. reflexivity.
    + intros outcome [= <-]. split; [eauto | reflexivity].
Qed.

End Orchestrator.

(** C2 on an empty disk with the model unreachable. *)
Lemma generate_complete_post_offline_witness :
  (forall n r, exists e, llm_invoke Sample.offline n r = Raise e)
  /\ makedirs Sample.offline = Ok tt
  /\ save_context Sample.offline = Ok tt
  /\ exists post,
       fst (AIInfluencerChatbot.generate_complete_post (H := Sample.codec)
              "fitness" "gym-goers" "motivational" "twitter" None
              Sample.offline Sample.fresh) = Ok post
       /\ Dict.lookup "ready_to_post" post = Some (PyBool true).
Proof.
  assert (Hllm : forall n r, exists e, llm_invoke Sample.offline n r = Raise e)
    by (intros n r; eexists; reflexivity).
  split; [exact Hllm|]. split; [reflexivity|]. split; [reflexivity|].
  destruct (generate_complete_post_offline (H := Sample.codec) Sample.offline
              (Sample.fresh (H := Sample.codec)) Hllm eq_refl eq_refl)
    as [post [hashtags [_ [Hrun [Hready _]]]]].
  exists post. split; assumption.
Defined.

(** C7 when the directory cannot be created: the error of [os.makedirs]
    comes back as the result. *)
Lemma generate_complete_post_catches_witness :
  exists e st1,
    AIInfluencerChatbot.generate_steps (H := Sample.codec)
      "fitness" "gym-goers" "motivational" "twitter" None
      Sample.read_only Sample.fresh = (Raise e, st1)
    /\ fst (AIInfluencerChatbot.generate_complete_post (H := Sample.codec)
              "fitness" "gym-goers" "motivational" "twitter" None
              Sample.read_only Sample.fresh)
       = Ok [("error", PyStr e);
             ("ready_to_post", PyBool false);
             ("generation_timestamp",
              PyStr (Clock.isoformat (now Sample.read_only (clock_reads st1))))].
Proof.
  eexists _, _.
  assert (Hsteps : AIInfluencerChatbot.generate_steps (H := Sample.codec)
                     "fitness" "gym-goers" "motivational" "twitter" None
                     Sample.read_only Sample.fresh = (Raise _, _))
    by (vm_compute; reflexivity).
  split; [exact Hsteps|].
  exact (proj1 (proj2 (generate_complete_post_catches (H := Sample.codec) Sample.read_only
                         (Sample.fresh (H := Sample.codec))
                         "fitness" "gym-goers" "motivational" "twitter" None))
           _ _ Hsteps).
Defined.

(** ** The saved file and the recorded path *)

Section SavedPath.
Context `{External}.
Import AIInfluencerChatbot.

(** C4 at a post generated on an empty disk (model unreachable, 4 November
    2025, 10:02:03).  The post comes back ready and is indexed under its id;
    the path recorded in the index entry is
    [posts/ai_influencer_20251104_100203.json], while the files written are
    [posts/twitter_fitness_251104_1002.json] and its [.txt] companion: no
    file exists at the recorded path. *)
Theorem saved_post_path_not_on_disk :
  exists post st' e,
    generate_complete_post "fitness" "gym-goers" "motivational" "twitter" None
      Sample.offline Sample.fresh = (Ok post, st')
    /\ Dict.lookup "ready_to_post" post = Some (PyBool true)
    /\ Dict.lookup "post_id" post = Some (PyStr "ai_influencer_20251104_100203")
    /\ PostMemory.lookup (PostMemory.KStr "ai_influencer_20251104_100203") (posts_memory st')
       = Some e
    /\ PostMemory.file_path e = "posts/ai_influencer_20251104_100203.json"
    /\ Dict.lookup (PostMemory.file_path e) (files st') = None
    /\ map fst (files st')
       = ["posts/twitter_fitness_251104_1002.json"; "posts/twitter_fitness_251104_1002.txt"]
    /\ Dict.lookup "posts/twitter_fitness_251104_1002.json" (files st')
       = Some (json_dump (PyDict post)).
Proof.
  destruct (generate_complete_post "fitness" "gym-goers" "motivational" "twitter" None
              Sample.offline Sample.fresh) as [outcome st'] eqn:Hrun.
  vm_compute in Hrun.
  match type of Hrun with
  | context [match ?x with Ok _ => _ | Raise _ => _ end] => destruct x as [[]|err]
  end; injection Hrun as <- <-; eexists _, _, _;
    (split; [reflexivity|]); repeat split.
Qed.

End SavedPath.

(** ** Loading the posts *)

Lemma key_eqb_eq (a b : PostMemory.key) : PostMemory.key_eqb a b = true <-> a = b.
Proof.
  destruct a as [|s|m], b as [|t|n]; simpl; try (split; [discriminate | congruence]).
  - split; reflexivity.
  - rewrite String.eqb_eq. split; congruence.
  - rewrite Z.eqb_eq. split; congruence.
Qed.

Lemma key_eqb_refl (a : PostMemory.key) : PostMemory.key_eqb a a = true.
Proof. apply key_eqb_eq. reflexivity. Qed.

Lemma key_eqb_neq (a b : PostMemory.key) : a <> b -> PostMemory.key_eqb a b = false.
Proof.
  intros Hne. destruct (PostMemory.key_eqb a b) eqn:Hk; [|reflexivity].
  apply key_eqb_eq in Hk. contradiction.
Qed.

Lemma store_lookup_set_same (k : PostMemory.key) (e : PostMemory.entry) (m : PostMemory.store) :
  PostMemory.lookup k (PostMemory.set k e m) = Some e.
Proof.
  induction m as [|[k' e'] m IH]; simpl.
  - rewrite key_eqb_refl. reflexivity.
  - destruct (PostMemory.key_eqb k k') eqn:Hk; simpl; rewrite Hk; [reflexivity | exact IH].
Qed.

Lemma store_lookup_set_other (k k0 : PostMemory.key) (e : PostMemory.entry)
    (m : PostMemory.store) :
  k0 <> k -> PostMemory.lookup k0 (PostMemory.set k e m) = PostMemory.lookup k0 m.
Proof.
  intros Hne. induction m as [|[k' e'] m IH]; simpl.
  - rewrite (key_eqb_neq _ _ Hne). reflexivity.
  - destruct (PostMemory.key_eqb k k') eqn:Hk; simpl.
    + apply key_eqb_eq in Hk. subst k'. rewrite (key_eqb_neq _ _ Hne). reflexivity.
    + rewrite IH. reflexivity.
Qed.

Section Load.
Context `{External}.
Import PostMemory Loaded.

Lemma load_file_entry (filename : string) (data : FileContent) (m : store) :
  load_file filename data m
  = match file_entry filename data with
    | Ok (Some (k, e)) => Ok (set k e m)
    | Ok None => Ok m
    | Raise msg => Raise msg
    end.
Proof.
  unfold load_file, file_entry.
  destruct (json_load data) as [loaded|]; simpl; [|reflexivity].
  destruct (as_dict loaded) as [post_data|]; simpl; [|reflexivity].
  destruct (truthy (get_or_none post_data "post_id")); [|reflexivity].
  destruct (index_entry post_data _) as [e|]; simpl; [|reflexivity].
  destruct (as_key _); reflexivity.
Qed.

Lemma load_loop_spec (listing : list (string * FileContent)) (m : store) (out : list event) :
  load_loop listing m out
  = (insert_all (contributions listing) m, (out ++ warnings listing)%list).
Proof.
  revert m out; induction listing as [|[filename data] listing IH]; intros m out.
  - simpl. rewrite app_nil_r. reflexivity.
  - cbn [load_loop contributions warnings flat_map]. unfold is_post_file; cbn [fst snd].
    destruct (PyStr.endswith filename ".json"); [|apply IH].
    rewrite load_file_entry.
    destruct (file_entry filename data) as [[[k e]|]|msg]; rewrite IH.
    + reflexivity.
    + reflexivity.
    + cbn [app]. rewrite <- app_assoc. reflexivity.
Qed.

Lemma contributions_app (l1 l2 : list (string * FileContent)) :
  contributions (l1 ++ l2) = (contributions l1 ++ contributions l2)%list.
Proof. apply flat_map_app. Qed.

Lemma contributions_filter (listing : list (string * FileContent)) :
  contributions (filter (fun file => is_post_file file && parses file) listing)
  = contributions listing.
Proof.
  induction listing as [|file listing IH]; [reflexivity|].
  cbn [filter]. unfold parses at 1.
  destruct (is_post_file file) eqn:Hp; cbn [andb].
  - destruct (file_entry (fst file) (snd file)) as [o|msg] eqn:He;
      cbn [contributions flat_map]; rewrite ?Hp, ?He; fold (contributions listing);
      fold (contributions (filter (fun file => is_post_file file && parses file) listing));
      rewrite IH; reflexivity.
  - cbn [contributions flat_map]. rewrite Hp. exact IH.
Qed.

Lemma insert_all_app (l1 l2 : list (key * entry)) (m : store) :
  insert_all (l1 ++ l2) m = insert_all l2 (insert_all l1 m).
Proof. apply fold_left_app. Qed.

Lemma lookup_insert_all_absent (k : key) (l : list (key * entry)) (m : store) :
  (forall e, ~ In (k, e) l) -> lookup k (insert_all l m) = lookup k m.
Proof.
  revert m; induction l as [|[k' e'] l IH]; intros m Habs; [reflexivity|].
  cbn [insert_all fold_left fst snd]. fold (insert_all l (set k' e' m)).
  rewrite IH by (intros e Hin; apply (Habs e); right; exact Hin).
  apply store_lookup_set_other. intros ->. apply (Habs e'). left. reflexivity.
Qed.

Lemma in_contributions (k : key) (e : entry) (listing : list (string * FileContent)) :
  In (k, e) (contributions listing) ->
  exists file, In file listing /\ is_post_file file = true
               /\ file_entry (fst file) (snd file) = Ok (Some (k, e)).
Proof.
  unfold contributions. rewrite in_flat_map. intros [file [Hin Hke]].
  exists file. split; [assumption|].
  destruct (is_post_file file); [|contradiction].
  destruct (file_entry (fst file) (snd file)) as [[ke|]|]; try contradiction.
  destruct Hke as [->|[]]. auto.
Qed.

Lemma lookup_loaded (before after : list (string * FileContent))
    (file : string * FileContent) (k : key) (e : entry) (m : store) :
  is_post_file file = true ->
  file_entry (fst file) (snd file) = Ok (Some (k, e)) ->
  (forall later, In later after -> ~ yields k later) ->
  lookup k (insert_all (contributions (before ++ file :: after)) m) = Some e.
Proof.
  intros Hp He Hlast.
  change (file :: after) with ([file] ++ after)%list.
  rewrite !contributions_app, !insert_all_app.
  rewrite lookup_insert_all_absent.
  - cbn [contributions flat_map]. rewrite Hp, He. cbn [app insert_all fold_left fst snd].
    apply store_lookup_set_same.
  - intros e' Hin. apply in_contributions in Hin. destruct Hin as [later [Hin [Hp' He']]].
    apply (Hlast later Hin). split; [assumption | eauto].
Qed.

(** C8.  For every listing of the directory, [load_posts] builds the index
    from exactly the post files that parse: the index is the one obtained by
    assigning their entries in listing order, the same as when the other
    files are not there; each post file that fails to parse is reported by
    one printed warning and the load goes on; and a post file that parses
    to an entry has that entry in the index under its id, unless a later
    file carries the same id. *)
Theorem load_posts_skips_unparseable (listing : list (string * FileContent)) (m : store) :
  let loaded := load_posts (Some listing) m in
  fst loaded = insert_all (contributions listing) m
  /\ snd loaded = warnings listing
  /\ fst loaded
     = fst (load_posts (Some (filter (fun file => is_post_file file && parses file) listing)) m)
  /\ (forall file e, In file listing -> is_post_file file = true ->
        file_entry (fst file) (snd file) = Raise e ->
        In (LoadError (fst file) e) (snd loaded))
  /\ (forall before file after k e,
        listing = (before ++ file :: after)%list ->
        is_post_file file = true ->
        file_entry (fst file) (snd file) = Ok (Some (k, e)) ->
        (forall later, In later after -> ~ yields k later) ->
        lookup k (fst loaded) = Some e).
Proof.
  cbv zeta. unfold load_posts. rewrite !load_loop_spec. cbn [fst snd app].
  split; [reflexivity|]. split; [reflexivity|].
  split; [rewrite contributions_filter; reflexivity|]. split.
  - intros file e Hin Hp He. unfold warnings. apply in_flat_map.
    exists file. split; [assumption|]. rewrite Hp, He. left. reflexivity.
  - intros before file after k e -> Hp He Hlast. apply lookup_loaded; assumption.
Qed.


Lemma index_entry_path (post_data : dict) (path1 path2 : string) (e1 : entry) :
  index_entry post_data path1 = Ok e1 ->
  exists e2, index_entry post_data path2 = Ok e2 /\ same_projection e2 e1.
Proof.
  unfold index_entry.
  destruct (get_nested post_data "parameters" "platform" _) as [v1|]; simpl; [|discriminate].
  destruct (get_nested post_data "parameters" "niche" _) as [v2|]; simpl; [|discriminate].
  destruct (get_nested post_data "topic" "title" _) as [v3|]; simpl; [|discriminate].
  destruct (get_nested post_data "content" "content" _) as [v4|]; simpl; [|discriminate].
  destruct (get_nested post_data "hashtags" "primary_hashtags" _) as [v5|]; simpl;
    [|discriminate].
  intros [= <-]. eexists. split; [reflexivity|]. repeat split.
Qed.

(** C9.  With a codec in which [json.load] reads back what [json.dump]
    wrote: when [add_post] enters a post record in the index, loading a
    directory that holds the record dumped in a [.json] file (and no later
    file with the same id) yields, under the same id, an entry with the same
    platform, niche, title, content, hashtags and timestamp. *)
Theorem save_load_round_trip (post_data : dict) (m m' m0 : store) (k : key)
    (filename : string) (before after : list (string * FileContent)) :
  (forall v, json_load (json_dump v) = Ok v) ->
  PyStr.endswith filename ".json" = true ->
  truthy (get_or_none post_data "post_id") = true ->
  as_key (get_or_none post_data "post_id") = Ok k ->
  add_post post_data m = Ok m' ->
  (forall later, In later after -> ~ yields k later) ->
  exists added loaded,
    lookup k m' = Some added
    /\ lookup k (fst (load_posts
                        (Some (before ++ (filename, json_dump (PyDict post_data)) :: after)%list)
                        m0))
       = Some loaded
    /\ same_projection loaded added.
Proof.
  intros Hcodec Hname Hid Hkey Hadd Hlast.
  unfold add_post in Hadd. rewrite Hid in Hadd.
  destruct (index_entry post_data (path_join posts_dir _)) as [added|] eqn:Hadded;
    [|discriminate].
  simpl in Hadd. rewrite Hkey in Hadd. simpl in Hadd. injection Hadd as <-.
  destruct (index_entry_path _ _ (path_join posts_dir filename) _ Hadded)
    as [loaded [Hloaded Hsame]].
  exists added, loaded. split; [apply store_lookup_set_same|]. split; [|exact Hsame].
  unfold load_posts. rewrite load_loop_spec. cbn [fst].
  apply lookup_loaded; [exact Hname | | exact Hlast].
  unfold file_entry; cbn [fst snd]. rewrite Hcodec. simpl.
  rewrite Hid, Hloaded. simpl. rewrite Hkey. reflexivity.
Qed.

End Load.

(** C8 on a directory with one broken file and one saved post. *)
Lemma load_posts_skips_unparseable_witness :
  (In ("broken.json", None) Sample.listing
   /\ Loaded.is_post_file (H := Sample.codec) ("broken.json", None) = true
   /\ Loaded.file_entry (H := Sample.codec) "broken.json" None
      = Raise "Expecting value: line 1 column 1 (char 0)"
   /\ In (LoadError "broken.json" "Expecting value: line 1 column 1 (char 0)")
        (snd (PostMemory.load_posts (H := Sample.codec) (Some Sample.listing) [])))
  /\ exists e,
      Loaded.file_entry (H := Sample.codec) "twitter_fitness_251104_1002.json"
        (Some (PyDict Sample.saved_post))
      = Ok (Some (PostMemory.KStr "ai_influencer_20251104_100203", e))
      /\ PostMemory.lookup (PostMemory.KStr "ai_influencer_20251104_100203")
           (fst (PostMemory.load_posts (H := Sample.codec) (Some Sample.listing) []))
         = Some e.
Proof.
  pose proof (load_posts_skips_unparseable (H := Sample.codec) Sample.listing [])
    as [_ [_ [_ [Hwarn Hentry]]]].
  split.
  - split; [left; reflexivity|]. split; [reflexivity|]. split; [reflexivity|].
    apply (Hwarn ("broken.json", None)); [left; reflexivity | reflexivity | reflexivity].
  - eexists. split; [vm_compute; reflexivity|].
    apply (Hentry [("broken.json", None); ("twitter_fitness_251104_1002.txt", None)]
             ("twitter_fitness_251104_1002.json", Some (PyDict Sample.saved_post)) []);
      [reflexivity | reflexivity | vm_compute; reflexivity | intros later []].
Defined.

(** C9 on the post of a run with the model unreachable. *)
Lemma save_load_round_trip_witness :
  let k := PostMemory.KStr "ai_influencer_20251104_100203" in
  let m' := match PostMemory.add_post (H := Sample.codec) Sample.saved_post [] with
            | Ok m => m
            | Raise _ => []
            end in
  (forall v, json_load (External := Sample.codec) (json_dump v) = Ok v)
  /\ PyStr.endswith "twitter_fitness_251104_1002.json" ".json" = true
  /\ truthy (get_or_none Sample.saved_post "post_id") = true
  /\ PostMemory.as_key (get_or_none Sample.saved_post "post_id") = Ok k
  /\ PostMemory.add_post (H := Sample.codec) Sample.saved_post [] = Ok m'
  /\ exists added loaded,
      PostMemory.lookup k m' = Some added
      /\ PostMemory.lookup k
           (fst (PostMemory.load_posts (H := Sample.codec)
                   (Some [("twitter_fitness_251104_1002.json",
                           json_dump (PyDict Sample.saved_post))]) []))
         = Some loaded
      /\ Loaded.same_projection loaded added.
Proof.
  cbv zeta.
  assert (Hcodec : forall v, json_load (External := Sample.codec) (json_dump v) = Ok v)
    by (intros v; reflexivity).
  assert (Hadd : PostMemory.add_post (H := Sample.codec) Sample.saved_post []
                 = Ok match PostMemory.add_post (H := Sample.codec) Sample.saved_post [] with
                      | Ok m => m
                      | Raise _ => []
                      end) by (vm_compute; reflexivity).
  split; [exact Hcodec|]. split; [reflexivity|]. split; [reflexivity|].
  split; [reflexivity|]. split; [exact Hadd|].
  exact (save_load_round_trip (H := Sample.codec) Sample.saved_post [] _ []
           (PostMemory.KStr "ai_influencer_20251104_100203")
           "twitter_fitness_251104_1002.json" [] []
           Hcodec eq_refl eq_refl eq_refl Hadd (fun later (Hin : In later []) => match Hin with end)).
Defined.

(* ================================================================== *)
(** * Part III.  Further properties of the program *)
(* ================================================================== *)

Import Text Braces.

(** ** More on strings *)

Lemma to_lower_idem (c : ascii) : PyStr.to_lower (PyStr.to_lower c) = PyStr.to_lower c.
Proof.
  destruct c as [[] [] [] [] [] [] [] []]; reflexivity.
Qed.

Lemma lower_idem (s : string) : PyStr.lower (PyStr.lower s) = PyStr.lower s.
Proof.
  induction s as [|c s IH]; simpl; [reflexivity|]. rewrite to_lower_idem, IH. reflexivity.
Qed.

Lemma lower_app (a b : string) :
  PyStr.lower (a ++ b) = PyStr.lower a ++ PyStr.lower b.
Proof. induction a as [|c a IH]; simpl; [reflexivity|]. rewrite IH. reflexivity. Qed.

Lemma lower_length (s : string) : String.length (PyStr.lower s) = String.length s.
Proof. induction s as [|c s IH]; simpl; [reflexivity|]. rewrite IH. reflexivity. Qed.

Lemma string_app_assoc (a b c : string) : (a ++ b) ++ c = a ++ b ++ c.
Proof. induction a as [|x a IH]; simpl; [reflexivity|]. rewrite IH. reflexivity. Qed.

Lemma occurs_in_lower (q s : string) :
  occurs_in q s -> occurs_in (PyStr.lower q) (PyStr.lower s).
Proof.
  intros [before [after ->]]. exists (PyStr.lower before), (PyStr.lower after).
  rewrite !lower_app. reflexivity.
Qed.

Lemma occurs_in_trans (a b c : string) : occurs_in a b -> occurs_in b c -> occurs_in a c.
Proof.
  intros [b1 [b2 ->]] [c1 [c2 ->]]. exists (c1 ++ b1), (b2 ++ c2).
  rewrite !string_app_assoc. reflexivity.
Qed.

(** ** Trimming and splitting *)

Lemma string_app_nil_r (s : string) : s ++ "" = s.
Proof. induction s as [|c s IH]; simpl; [reflexivity|]. rewrite IH. reflexivity. Qed.

Lemma string_app_length (a b : string) :
  String.length (a ++ b) = String.length a + String.length b.
Proof. induction a as [|c a IH]; simpl; [reflexivity|]. rewrite IH. reflexivity. Qed.

Lemma all_chars_app (test : ascii -> bool) (a b : string) :
  all_chars test (a ++ b) = all_chars test a && all_chars test b.
Proof.
  induction a as [|c a IH]; simpl; [reflexivity|]. rewrite IH, andb_assoc. reflexivity.
Qed.

Lemma lstrip_split (s : string) :
  exists blank, s = blank ++ PyStr.lstrip s /\ is_blank blank = true.
Proof.
  induction s as [|c s [blank [Hs Hb]]]; simpl.
  - exists "". auto.
  - destruct (PyStr.is_space c) eqn:Hc.
    + exists (String c blank). unfold is_blank in *. simpl. rewrite Hc, <- Hs. auto.
    + exists "". auto.
Qed.

Lemma rstrip_split (s : string) :
  exists blank, s = PyStr.rstrip s ++ blank /\ is_blank blank = true.
Proof.
  induction s as [|c s [blank [Hs Hb]]]; simpl.
  - exists "". auto.
  - destruct (PyStr.rstrip s) as [|d r] eqn:Hr.
    + simpl in Hs. subst blank. destruct (PyStr.is_space c) eqn:Hc.
      * exists (String c s). simpl. unfold is_blank in *. simpl. rewrite Hc. auto.
      * exists s. auto.
    + exists blank. simpl. split; [|exact Hb]. f_equal. exact Hs.
Qed.

Lemma lstrip_blank (blank s : string) :
  is_blank blank = true -> PyStr.lstrip (blank ++ s) = PyStr.lstrip s.
Proof.
  unfold is_blank. induction blank as [|c blank IH]; simpl; [reflexivity|].
  intros Hb. apply andb_true_iff in Hb. destruct Hb as [Hc Hb]. rewrite Hc. auto.
Qed.

Lemma rstrip_blank_only (blank : string) : is_blank blank = true -> PyStr.rstrip blank = "".
Proof.
  unfold is_blank. induction blank as [|c blank IH]; simpl; [reflexivity|].
  intros Hb. apply andb_true_iff in Hb. destruct Hb as [Hc Hb]. rewrite IH, Hc by exact Hb.
  reflexivity.
Qed.

Lemma rstrip_blank (s blank : string) :
  is_blank blank = true -> PyStr.rstrip (s ++ blank) = PyStr.rstrip s.
Proof.
  intros Hb. induction s as [|c s IH]; simpl.
  - apply rstrip_blank_only. exact Hb.
  - rewrite IH. reflexivity.
Qed.

Lemma lstrip_head (s : string) (c : ascii) (r : string) :
  PyStr.lstrip s = String c r -> PyStr.is_space c = false.
Proof.
  induction s as [|d s IH]; simpl; [discriminate|].
  destruct (PyStr.is_space d) eqn:Hd; [exact IH|]. intros [= <- _]. exact Hd.
Qed.

Lemma rstrip_head (c : ascii) (s : string) :
  PyStr.is_space c = false -> PyStr.rstrip (String c s) = String c (PyStr.rstrip s).
Proof. intros Hc. simpl. rewrite Hc. destruct (PyStr.rstrip s); reflexivity. Qed.

Lemma lstrip_fixed (c : ascii) (s : string) :
  PyStr.is_space c = false -> PyStr.lstrip (String c s) = String c s.
Proof. intros Hc. simpl. rewrite Hc. reflexivity. Qed.

Lemma rstrip_idem (s : string) : PyStr.rstrip (PyStr.rstrip s) = PyStr.rstrip s.
Proof.
  induction s as [|c s IH]; simpl; [reflexivity|].
  destruct (PyStr.rstrip s) as [|d r] eqn:Hr.
  - destruct (PyStr.is_space c) eqn:Hc; simpl; [reflexivity|]. rewrite Hc. reflexivity.
  - change (PyStr.rstrip (String c (String d r))) with
      (match PyStr.rstrip (String d r) with
       | "" => if PyStr.is_space c then "" else String c ""
       | r' => String c r'
       end).
    rewrite IH. reflexivity.
Qed.

(** The last character of a trimmed text is not white space. *)
Lemma rstrip_last (s r : string) (c : ascii) :
  PyStr.rstrip s = r ++ String c "" -> PyStr.is_space c = false.
Proof.
  revert r; induction s as [|d s IH]; intros r; simpl.
  - destruct r; discriminate.
  - destruct (PyStr.rstrip s) as [|e t] eqn:Hr.
    + destruct (PyStr.is_space d) eqn:Hd.
      * destruct r; discriminate.
      * destruct r as [|x r]; simpl; [intros [= <-]; exact Hd|].
        intros [= _ Habs]. destruct r; discriminate.
    + destruct r as [|x r]; simpl; [discriminate|].
      intros [= _ Ht]. apply (IH r). exact Ht.
Qed.

Lemma strip_idem (s : string) : PyStr.strip (PyStr.strip s) = PyStr.strip s.
Proof.
  unfold PyStr.strip.
  destruct (PyStr.lstrip s) as [|c r] eqn:Hl; [reflexivity|].
  pose proof (lstrip_head _ _ _ Hl) as Hc.
  rewrite rstrip_head by exact Hc. rewrite lstrip_fixed by exact Hc.
  rewrite rstrip_head by exact Hc. rewrite rstrip_idem. reflexivity.
Qed.

Lemma strip_padded (before after s : string) :
  is_blank before = true -> is_blank after = true ->
  PyStr.strip (before ++ s ++ after) = PyStr.strip s.
Proof.
  intros Hb Ha. unfold PyStr.strip. rewrite lstrip_blank by exact Hb.
  destruct (lstrip_split s) as [blank [Hs Hblank]].
  destruct (PyStr.lstrip s) as [|c r] eqn:Hl.
  - rewrite string_app_nil_r in Hs. subst s.
    rewrite lstrip_blank by exact Hblank. simpl.
    destruct (lstrip_split after) as [b2 [Ha2 Hb2]].
    assert (Hblank_l : is_blank (PyStr.lstrip after) = true).
    { unfold is_blank in *. rewrite Ha2, all_chars_app in Ha.
      apply andb_true_iff in Ha. tauto. }
    apply rstrip_blank_only. exact Hblank_l.
  - rewrite Hs at 1. rewrite string_app_assoc, lstrip_blank by exact Hblank.
    pose proof (lstrip_head _ _ _ Hl) as Hc.
    change (String c r ++ after) with (String c (r ++ after)).
    rewrite lstrip_fixed by exact Hc.
    change (String c (r ++ after)) with (String c r ++ after).
    apply rstrip_blank. exact Ha.
Qed.

Lemma strip_decompose (s : string) :
  exists before after,
    s = before ++ PyStr.strip s ++ after
    /\ is_blank before = true /\ is_blank after = true.
Proof.
  destruct (lstrip_split s) as [before [Hs Hb]].
  destruct (rstrip_split (PyStr.lstrip s)) as [after [Hl Ha]].
  exists before, after. unfold PyStr.strip. rewrite <- Hl. auto.
Qed.

Lemma strip_length (s : string) : String.length (PyStr.strip s) <= String.length s.
Proof.
  destruct (strip_decompose s) as [before [after [Hs _]]].
  rewrite Hs at 2. rewrite !string_app_length. lia.
Qed.

Lemma strip_head (s : string) (c : ascii) (r : string) :
  PyStr.strip s = String c r -> PyStr.is_space c = false.
Proof.
  unfold PyStr.strip. destruct (PyStr.lstrip s) as [|d t] eqn:Hl; [discriminate|].
  pose proof (lstrip_head _ _ _ Hl) as Hd. rewrite rstrip_head by exact Hd.
  intros [= <- _]. exact Hd.
Qed.

Lemma is_space_to_lower (c : ascii) : PyStr.is_space (PyStr.to_lower c) = PyStr.is_space c.
Proof. destruct c as [[] [] [] [] [] [] [] []]; reflexivity. Qed.

Lemma lower_lstrip (s : string) : PyStr.lstrip (PyStr.lower s) = PyStr.lower (PyStr.lstrip s).
Proof.
  induction s as [|c s IH]; simpl; [reflexivity|].
  rewrite is_space_to_lower. destruct (PyStr.is_space c); [exact IH | reflexivity].
Qed.

Lemma lower_rstrip (s : string) : PyStr.rstrip (PyStr.lower s) = PyStr.lower (PyStr.rstrip s).
Proof.
  induction s as [|c s IH]; simpl; [reflexivity|].
  rewrite IH, is_space_to_lower.
  destruct (PyStr.rstrip s); simpl; [destruct (PyStr.is_space c)|]; reflexivity.
Qed.

Lemma lower_strip (s : string) : PyStr.strip (PyStr.lower s) = PyStr.lower (PyStr.strip s).
Proof. unfold PyStr.strip. rewrite lower_lstrip, lower_rstrip. reflexivity. Qed.

(** The words of a split: none is empty, none holds white space, and each
    keeps whatever all characters of the text satisfy. *)
Lemma split_words (test : ascii -> bool) (s : string) :
  Forall (fun w => w <> "" /\ all_chars not_space w = true
                   /\ (all_chars test s = true -> all_chars test w = true))
         (PyStr.split s).
Proof.
  induction s as [|c s IH]; [constructor|].
  cbn [PyStr.split]. destruct (PyStr.is_space c) eqn:Hc.
  - eapply Forall_impl; [|exact IH]. intros w [H1 [H2 H3]]. repeat split; auto.
    simpl. intros Ht. apply andb_true_iff in Ht. tauto.
  - assert (Hone : String c "" <> "" /\ all_chars not_space (String c "") = true
                   /\ (all_chars test (String c s) = true ->
                       all_chars test (String c "") = true)).
    { split; [discriminate|]. split; [simpl; unfold not_space; rewrite Hc; reflexivity|].
      simpl. intros Ht. apply andb_true_iff in Ht. destruct Ht as [-> _]. reflexivity. }
    assert (Hrest : Forall (fun w => w <> "" /\ all_chars not_space w = true
                       /\ (all_chars test (String c s) = true -> all_chars test w = true))
                      (PyStr.split s)).
    { eapply Forall_impl; [|exact IH]. intros w [H1 [H2 H3]]. repeat split; auto.
      simpl. intros Ht. apply andb_true_iff in Ht. tauto. }
    destruct s as [|d s']; [constructor; [exact Hone | constructor]|].
    destruct (PyStr.is_space d) eqn:Hd; [constructor; assumption|].
    destruct (PyStr.split (String d s')) as [|w ws] eqn:Hsp;
      [constructor; [exact Hone | constructor]|].
    inversion Hrest as [|? ? [Hw1 [Hw2 Hw3]] Hws]; subst.
    constructor; [|exact Hws].
    split; [discriminate|]. split.
    + simpl. unfold not_space at 1. rewrite Hc. exact Hw2.
    + intros Ht. simpl. rewrite (Hw3 Ht). simpl in Ht.
      apply andb_true_iff in Ht. destruct Ht as [-> _]. reflexivity.
Qed.

Lemma lower_not_upper (s : string) : all_chars not_upper (PyStr.lower s) = true.
Proof.
  induction s as [|c s IH]; simpl; [reflexivity|]. rewrite IH, andb_true_r.
  destruct c as [[] [] [] [] [] [] [] []]; reflexivity.
Qed.

Lemma first_line_split (s : string) :
  exists rest, s = PyStr.first_line s ++ rest
               /\ all_chars (fun c => negb (Ascii.eqb c PyStr.newline)) (PyStr.first_line s) = true
               /\ (rest = "" \/ exists rest', rest = String PyStr.newline rest').
Proof.
  induction s as [|c s [rest [Hs [Hn Hr]]]]; simpl.
  - exists "". auto.
  - destruct (Ascii.eqb c PyStr.newline) eqn:Hc.
    + apply Ascii.eqb_eq in Hc. subst c. exists (String PyStr.newline s). simpl. eauto.
    + exists rest. simpl. rewrite Hc, <- Hs. auto.
Qed.

(** ** Case, words and paths *)




Lemma split_one_word (w : string) :
  w <> "" -> all_chars not_space w = true -> PyStr.split w = [w].
Proof.
  induction w as [|c w IH]; intros Hne Hw; [contradiction|].
  simpl in Hw. apply andb_true_iff in Hw. destruct Hw as [Hc Hw].
  unfold not_space in Hc. apply negb_true_iff in Hc.
  destruct w as [|d w].
  - cbn [PyStr.split]. rewrite Hc. reflexivity.
  - assert (Hd : PyStr.is_space d = false).
    { simpl in Hw. apply andb_true_iff in Hw. destruct Hw as [Hd _].
      unfold not_space in Hd. apply negb_true_iff in Hd. exact Hd. }
    specialize (IH ltac:(discriminate) Hw).
    change (PyStr.split (String c (String d w)))
      with (if PyStr.is_space c then PyStr.split (String d w)
            else if PyStr.is_space d
                 then String c "" :: PyStr.split (String d w)
                 else match PyStr.split (String d w) with
                      | x :: xs => String c x :: xs
                      | [] => [String c ""]
                      end).
    rewrite Hc, Hd, IH. reflexivity.
Qed.



Lemma string_app_inv_head (a x y : string) : a ++ x = a ++ y -> x = y.
Proof. induction a as [|c a IH]; simpl; [auto|]. intros [= Hxy]. auto. Qed.

Lemma string_app_inv_tail (a b x y : string) :
  a ++ x = b ++ y -> String.length x = String.length y -> a = b /\ x = y.
Proof.
  revert b; induction a as [|c a IH]; intros [|d b] Heq Hlen; simpl in *.
  - auto.
  - exfalso. rewrite Heq in Hlen. simpl in Hlen. rewrite string_app_length in Hlen. lia.
  - exfalso. rewrite <- Heq in Hlen. simpl in Hlen. rewrite string_app_length in Hlen. lia.
  - injection Heq as <- Heq. destruct (IH b Heq Hlen) as [-> ->]. auto.
Qed.

Lemma path_join_posts (x : string) :
  path_join "posts" x = if PyStr.startswith x "/" then x else "posts/" ++ x.
Proof. unfold path_join. destruct (PyStr.startswith x "/"); reflexivity. Qed.

Lemma startswith_slash (x : string) :
  PyStr.startswith x "/" = true -> exists r, x = String "/"%char r.
Proof.
  unfold PyStr.startswith. intros Hp. apply prefix_app in Hp. destruct Hp as [r ->].
  exists r. reflexivity.
Qed.

Lemma path_join_posts_inj (x y : string) :
  path_join "posts" x = path_join "posts" y -> x = y.
Proof.
  rewrite !path_join_posts.
  destruct (PyStr.startswith x "/") eqn:Hx, (PyStr.startswith y "/") eqn:Hy; intros Heq.
  - exact Heq.
  - apply startswith_slash in Hx. destruct Hx as [r ->]. discriminate.
  - apply startswith_slash in Hy. destruct Hy as [r ->]. discriminate.
  - apply (string_app_inv_head "posts/"). exact Heq.
Qed.

Lemma zero_padded_length (w n : nat) : String.length (PyStr.zero_padded w n) = w.
Proof.
  revert n; induction w as [|w IH]; intros n; simpl; [reflexivity|].
  rewrite string_app_length, IH. simpl. lia.
Qed.

Lemma digit_not_underscore (n : nat) : PyStr.digit n <> "_"%char.
Proof.
  unfold PyStr.digit. intros Habs.
  pose proof (Nat.mod_upper_bound n 10 ltac:(discriminate)) as Hmod.
  apply (f_equal nat_of_ascii) in Habs.
  rewrite nat_ascii_embedding in Habs by lia.
  change (nat_of_ascii "_"%char) with 95 in Habs. lia.
Qed.



(** ** The post store: insertion and look-up *)

Section StoreKeys.
Import PostMemory PostLookup.

Lemma keys_set (k : key) (e : entry) (m : store) :
  keys (set k e m) = if existsb (key_eqb k) (keys m) then keys m else (keys m ++ [k])%list.
Proof.
  unfold keys. induction m as [|[k' e'] m IH]; simpl; [reflexivity|].
  destruct (key_eqb k k') eqn:Hk; simpl; [reflexivity|].
  rewrite IH. destruct (existsb (key_eqb k) (map fst m)); reflexivity.
Qed.

Lemma existsb_key_in (k : key) (l : list key) :
  existsb (key_eqb k) l = true <-> In k l.
Proof.
  rewrite existsb_exists. split.
  - intros [k' [Hin Hk]]. apply key_eqb_eq in Hk. subst. exact Hin.
  - intros Hin. exists k. split; [exact Hin | apply key_eqb_refl].
Qed.

Lemma lookup_in_keys (k : key) (m : store) :
  In k (keys m) <-> exists e, lookup k m = Some e.
Proof.
  unfold keys. induction m as [|[k' e'] m IH]; simpl.
  - split; [contradiction | intros [e He]; discriminate].
  - destruct (key_eqb k k') eqn:Hk.
    + apply key_eqb_eq in Hk. subst. split; eauto.
    + rewrite <- IH. split; [intros [Heq|Hin]; [|exact Hin] | auto].
      subst. rewrite key_eqb_refl in Hk. discriminate.
Qed.

Lemma set_keeps_keys_distinct (k : key) (e : entry) (m : store) :
  NoDup (keys m) -> NoDup (keys (set k e m)).
Proof.
  intros Hnd. rewrite keys_set.
  destruct (existsb (key_eqb k) (keys m)) eqn:Hk; [exact Hnd|].
  apply NoDup_app; [exact Hnd | repeat constructor; simpl; tauto |].
  intros x Hx [<-|[]].
  apply existsb_key_in in Hx. congruence.
Qed.

End StoreKeys.

Section AddPost.
Context `{External}.
Import PostMemory PostLookup Shape.

Lemma add_post_with_id (post_data : dict) (m : store) :
  truthy (get_or_none post_data "post_id") = true ->
  add_post post_data m
  = bind (index_entry post_data
            (path_join posts_dir (py_str (get_or_none post_data "post_id") ++ ".json")))
      (fun e => bind (as_key (get_or_none post_data "post_id"))
                  (fun k => Ok (set k e m))).
Proof. intros Hid. unfold add_post. rewrite Hid. reflexivity. Qed.

(** X1.  After [add_post] has entered a record whose id is a non-empty
    text, [get_post] of that id returns the entry built from the record, whose
    path is [posts/<id>.json], and every other key of the store reads as
    before. *)
Theorem add_post_then_get_post (post_data : dict) (post_id : string) (m m' : store) :
  Dict.lookup "post_id" post_data = Some (PyStr post_id) ->
  post_id <> "" ->
  add_post post_data m = Ok m' ->
  exists e,
    get_post post_id m' = Some e
    /\ index_entry post_data (path_join posts_dir (post_id ++ ".json")) = Ok e
    /\ file_path e = path_join posts_dir (post_id ++ ".json")
    /\ (forall k, k <> KStr post_id -> lookup k m' = lookup k m).
Proof.
  intros Hid Hne Hadd.
  assert (Hget : get_or_none post_data "post_id" = PyStr post_id)
    by (unfold get_or_none, Dict.get; rewrite Hid; reflexivity).
  rewrite add_post_with_id in Hadd
    by (rewrite Hget; simpl; apply String.eqb_neq in Hne; rewrite Hne; reflexivity).
  rewrite Hget in Hadd. cbn [py_str as_key] in Hadd.
  destruct (index_entry post_data _) as [e|] eqn:He; [|discriminate].
  simpl in Hadd. injection Hadd as <-.
  exists e. split; [apply store_lookup_set_same|]. split; [reflexivity|]. split.
  - unfold index_entry in He.
    repeat match type of He with
           | bind ?r _ = _ => destruct r; simpl in He; [|discriminate]
           end.
    injection He as <-. reflexivity.
  - intros k Hk. apply store_lookup_set_other. exact Hk.
Qed.



Lemma get_nested_cases (d : dict) (outer inner : string) (default : pyobj) :
  get_nested d outer inner default
  = match Dict.lookup outer d with
    | Some (PyDict sub) => Ok (Dict.get sub inner default)
    | Some v => attribute_error v "get"
    | None => Ok default
    end.
Proof.
  unfold get_nested, Dict.get.
  destruct (Dict.lookup outer d) as [[| | | | |sub]|]; reflexivity.
Qed.

Lemma index_entry_ok (post_data : dict) (path : string) :
  (exists e, index_entry post_data path = Ok e) <-> sections_ok post_data = true.
Proof.
  unfold sections_ok, sections, index_entry. cbn [forallb].
  rewrite !get_nested_cases.
  destruct (Dict.lookup "parameters" post_data) as [[| | | | |d1]|]; simpl;
    try (split; [intros [e He]; discriminate | discriminate]);
    (destruct (Dict.lookup "topic" post_data) as [[| | | | |d2]|]; simpl;
     try (split; [intros [e He]; discriminate | discriminate]);
     (destruct (Dict.lookup "content" post_data) as [[| | | | |d3]|]; simpl;
      try (split; [intros [e He]; discriminate | discriminate]);
      (destruct (Dict.lookup "hashtags" post_data) as [[| | | | |d4]|]; simpl;
       try (split; [intros [e He]; discriminate | discriminate]);
       (split; [reflexivity | eauto])))).
Qed.

(** X3.  For a record with a post id, [add_post] raises exactly when one
    of the sections [parameters], [topic], [content], [hashtags] is present
    without being a dict, or the id is a list or a dict. *)
Theorem add_post_raises_iff (post_data : dict) (m : store) :
  truthy (get_or_none post_data "post_id") = true ->
  ((exists msg, add_post post_data m = Raise msg)
   <-> sections_ok post_data = false \/ hashable (get_or_none post_data "post_id") = false).
Proof.
  intros Hid. rewrite add_post_with_id by exact Hid.
  destruct (sections_ok post_data) eqn:Hs.
  - destruct (proj2 (index_entry_ok post_data
                        (path_join posts_dir
                           (py_str (get_or_none post_data "post_id") ++ ".json"))) Hs)
      as [e ->]. simpl.
    destruct (get_or_none post_data "post_id"); simpl; split;
      try (intros [msg Hm]; discriminate); try (intros [Hf|Hf]; discriminate); eauto.
  - destruct (index_entry post_data _) as [e|msg] eqn:He.
    + assert (Hok : sections_ok post_data = true) by (eapply index_entry_ok; eauto).
      congruence.
    + simpl. split; eauto.
Qed.

End AddPost.

Section Reload.
Context `{External}.
Import PostMemory PostLookup Loaded.

Lemma insert_all_cons (ke : key * entry) (l : list (key * entry)) (m : store) :
  insert_all (ke :: l) m = insert_all l (set (fst ke) (snd ke) m).
Proof. reflexivity. Qed.

Lemma insert_all_keys_distinct (l : list (key * entry)) (m : store) :
  NoDup (keys m) -> NoDup (keys (insert_all l m)).
Proof.
  revert m; induction l as [|ke l IH]; intros m Hnd; [exact Hnd|].
  rewrite insert_all_cons. apply IH, set_keeps_keys_distinct, Hnd.
Qed.


Lemma lookup_insert_all_from (k : key) (e : entry) (l : list (key * entry)) (m : store) :
  lookup k (insert_all l m) = Some e -> In (k, e) l \/ lookup k m = Some e.
Proof.
  revert m; induction l as [|[k' e'] l IH]; intros m Hl; [auto|].
  rewrite insert_all_cons in Hl. cbn [fst snd] in Hl.
  destruct (IH _ Hl) as [Hin|Hset]; [left; right; exact Hin|].
  destruct (key_eqb k k') eqn:Hk.
  - apply key_eqb_eq in Hk. subst k'. rewrite store_lookup_set_same in Hset.
    injection Hset as <-. left. left. reflexivity.
  - rewrite store_lookup_set_other in Hset; [auto|].
    intros ->. rewrite key_eqb_refl in Hk. discriminate.
Qed.

Lemma lookup_insert_all_latest (k : key) (l : list (key * entry)) (m : store) :
  lookup k (insert_all l m)
  = match lookup k (insert_all l []) with
    | Some e => Some e
    | None => lookup k m
    end.
Proof.
  revert m; induction l as [|[k' e'] l IH]; intros m; [reflexivity|].
  rewrite !insert_all_cons. cbn [fst snd].
  rewrite (IH (set k' e' m)), (IH (set k' e' [])).
  destruct (lookup k (insert_all l [])); [reflexivity|].
  destruct (key_eqb k k') eqn:Hk.
  - apply key_eqb_eq in Hk. subst k'. rewrite !store_lookup_set_same. reflexivity.
  - assert (Hne : k <> k') by (intros ->; rewrite key_eqb_refl in Hk; discriminate).
    rewrite !store_lookup_set_other by exact Hne. reflexivity.
Qed.

Lemma store_ext (m1 m2 : store) :
  NoDup (keys m1) -> keys m1 = keys m2 ->
  (forall k, lookup k m1 = lookup k m2) -> m1 = m2.
Proof.
  revert m2; induction m1 as [|[k e1] m1 IH]; intros [|[k2 e2] m2] Hnd Hkeys Hl;
    try discriminate; [reflexivity|].
  unfold keys in *. simpl in Hkeys. injection Hkeys as <- Hkeys.
  inversion Hnd as [|? ? Hnotin Hnd']; subst.
  pose proof (Hl k) as Hk. simpl in Hk. rewrite key_eqb_refl in Hk. injection Hk as <-.
  f_equal. apply IH; [exact Hnd' | exact Hkeys |].
  intros k'. pose proof (Hl k') as Hk'. simpl in Hk'.
  destruct (key_eqb k' k) eqn:Hkk; [|exact Hk'].
  apply key_eqb_eq in Hkk. subst k'.
  assert (H1 : lookup k m1 = None).
  { destruct (lookup k m1) eqn:Hlk; [|reflexivity].
    exfalso. apply Hnotin. apply (lookup_in_keys k m1). eauto. }
  assert (H2 : lookup k m2 = None).
  { destruct (lookup k m2) eqn:Hlk; [|reflexivity].
    exfalso. apply Hnotin. unfold keys in *. rewrite Hkeys.
    apply (lookup_in_keys k m2). eauto. }
  congruence.
Qed.

Lemma insert_all_keys_present (l : list (key * entry)) (m : store) :
  (forall ke, In ke l -> In (fst ke) (keys m)) -> keys (insert_all l m) = keys m.
Proof.
  revert m; induction l as [|[k e] l IH]; intros m Hin; [reflexivity|].
  rewrite insert_all_cons. cbn [fst snd].
  assert (Hk : keys (set k e m) = keys m).
  { rewrite keys_set.
    replace (existsb (key_eqb k) (keys m)) with true; [reflexivity|].
    symmetry. apply existsb_key_in. apply (Hin (k, e)). left. reflexivity. }
  rewrite IH; [exact Hk|].
  intros ke Hke. rewrite Hk. apply Hin. right. exact Hke.
Qed.

Lemma lookup_insert_all_in (k : key) (e : entry) (l : list (key * entry)) (m : store) :
  In (k, e) l -> exists e', lookup k (insert_all l m) = Some e'.
Proof.
  revert m; induction l as [|[k' e'] l IH]; intros m Hin; [contradiction|].
  rewrite insert_all_cons. cbn [fst snd]. destruct Hin as [[= -> ->]|Hin]; [|eauto].
  rewrite lookup_insert_all_latest.
  destruct (lookup k (insert_all l [])); [eauto|].
  rewrite store_lookup_set_same. eauto.
Qed.

Lemma insert_all_twice (l : list (key * entry)) (m : store) :
  NoDup (keys m) -> insert_all l (insert_all l m) = insert_all l m.
Proof.
  intros Hnd. apply store_ext.
  - apply insert_all_keys_distinct, insert_all_keys_distinct, Hnd.
  - apply insert_all_keys_present. intros [k e] Hin.
    apply lookup_in_keys. apply (lookup_insert_all_in k e). exact Hin.
  - intros k. rewrite (lookup_insert_all_latest k l (insert_all l m)).
    rewrite (lookup_insert_all_latest k l m).
    destruct (lookup k (insert_all l [])); reflexivity.
Qed.


(** X5.  Loading the same directory a second time changes nothing in the
    index and prints the same warnings again. *)
Theorem load_posts_twice (listing : list (string * FileContent)) (m : store) :
  NoDup (keys m) ->
  let once := load_posts (Some listing) m in
  load_posts (Some listing) (fst once) = once.
Proof.
  intros Hnd. cbv zeta. unfold load_posts. rewrite !load_loop_spec. cbn [fst app].
  rewrite insert_all_twice by exact Hnd. reflexivity.
Qed.

(** X6.  Every entry of the index after [load_posts] was there before or
    comes from a post file of the listing that parses, and then records the
    path of that file in the directory. *)
Theorem load_posts_entries_from_files (listing : list (string * FileContent)) (m : store)
    (k : key) (e : entry) :
  lookup k (fst (load_posts (Some listing) m)) = Some e ->
  lookup k m = Some e
  \/ exists file,
       In file listing /\ is_post_file file = true /\ parses file = true
       /\ file_entry (fst file) (snd file) = Ok (Some (k, e))
       /\ file_path e = path_join posts_dir (fst file).
Proof.
  unfold load_posts. rewrite load_loop_spec. cbn [fst]. intros Hl.
  apply lookup_insert_all_from in Hl. destruct Hl as [Hin|Hm]; [right | left; exact Hm].
  apply in_contributions in Hin. destruct Hin as [file [Hin [Hp He]]].
  exists file. repeat split; try assumption.
  - unfold parses. rewrite He. reflexivity.
  - unfold file_entry in He.
    destruct (json_load (snd file)) as [loaded|]; simpl in He; [|discriminate].
    destruct (as_dict loaded) as [post_data|]; simpl in He; [|discriminate].
    destruct (truthy _); [|discriminate].
    unfold index_entry in He.
    repeat match type of He with
           | bind (bind ?r _) _ = _ => destruct r; simpl in He; [|discriminate]
           end.
    destruct (as_key _); simpl in He; [|discriminate].
    injection He as _ <-. reflexivity.
Qed.

End Reload.

(** ** The post store: filters and searches *)

Section Filters.
Import PostMemory PostLookup Query.

Lemma comprehension_stored (test : entry -> result bool) (f : PostIndexEntry -> bool)
    (l : list PostIndexEntry) :
  (forall p, test (stored p) = Ok (f p)) ->
  comprehension test (map stored l) = Ok (map stored (filter f l)).
Proof.
  intros Htest. induction l as [|p l IH]; simpl; [reflexivity|].
  rewrite Htest, IH; simpl. destruct (f p); reflexivity.
Qed.

Lemma get_posts_by_platform_stored (idx : list (key * PostIndexEntry)) (name : string) :
  get_posts_by_platform name (stored_index idx)
  = Ok (map stored
          (filter (fun p => String.eqb (PyStr.lower (entry_platform p)) (PyStr.lower name))
             (entries idx))).
Proof.
  unfold get_posts_by_platform. rewrite values_stored_index.
  apply comprehension_stored. intros p. reflexivity.
Qed.

Lemma get_posts_by_niche_stored (idx : list (key * PostIndexEntry)) (name : string) :
  get_posts_by_niche name (stored_index idx)
  = Ok (map stored
          (filter (fun p => String.eqb (PyStr.lower (entry_niche p)) (PyStr.lower name))
             (entries idx))).
Proof.
  unfold get_posts_by_niche. rewrite values_stored_index.
  apply comprehension_stored. intros p. reflexivity.
Qed.

(** X7.  On every store state of the data model, [get_posts_by_platform] and
    [get_posts_by_niche] return the entries whose field equals the name up to
    case, in index order, and the case of the name makes no difference. *)
Theorem get_posts_by_field (idx : list (key * PostIndexEntry)) (name : string) :
  get_posts_by_platform name (stored_index idx)
  = Ok (map stored
          (filter (fun p => String.eqb (PyStr.lower (entry_platform p)) (PyStr.lower name))
             (entries idx)))
  /\ get_posts_by_niche name (stored_index idx)
     = Ok (map stored
             (filter (fun p => String.eqb (PyStr.lower (entry_niche p)) (PyStr.lower name))
                (entries idx)))
  /\ get_posts_by_platform (PyStr.lower name) (stored_index idx)
     = get_posts_by_platform name (stored_index idx)
  /\ get_posts_by_niche (PyStr.lower name) (stored_index idx)
     = get_posts_by_niche name (stored_index idx).
Proof.
  split; [apply get_posts_by_platform_stored|].
  split; [apply get_posts_by_niche_stored|].
  split; [rewrite !get_posts_by_platform_stored | rewrite !get_posts_by_niche_stored];
    rewrite lower_idem; reflexivity.
Qed.

Lemma filter_filter_implied {A : Type} (f g : A -> bool) (l : list A) :
  (forall x, f x = true -> g x = true) -> filter f (filter g l) = filter f l.
Proof.
  intros Himp. induction l as [|x l IH]; simpl; [reflexivity|].
  destruct (g x) eqn:Hg; simpl.
  - rewrite IH. reflexivity.
  - destruct (f x) eqn:Hf; [|exact IH]. apply Himp in Hf. congruence.
Qed.

Lemma hit_narrower (q q' : string) (p : PostIndexEntry) :
  occurs_in q q' -> hit q' p -> hit q p.
Proof.
  intros Hq. apply occurs_in_lower in Hq. unfold hit.
  intros [Ht|[Hc|[tag [Hin Htag]]]].
  - left. eapply occurs_in_trans; eassumption.
  - right; left. eapply occurs_in_trans; eassumption.
  - right; right. exists tag. split; [assumption | eapply occurs_in_trans; eassumption].
Qed.

(** X8.  Narrowing a search loses nothing: when [q] is a substring of [q'],
    searching [q'] among the posts that [q] hits gives the same result as
    searching [q'] in the whole store. *)
Theorem search_posts_narrowing (idx : list (key * PostIndexEntry)) (q q' : string) :
  occurs_in q q' ->
  search_posts q' (stored_index (filter (fun kp => hitb q (snd kp)) idx))
  = search_posts q' (stored_index idx).
Proof.
  intros Hq. rewrite !search_posts_stored. f_equal. f_equal.
  unfold entries.
  assert (Hmap : forall l : list (key * PostIndexEntry),
            map snd (filter (fun kp => hitb q (snd kp)) l) = filter (hitb q) (map snd l)).
  { induction l as [|kp l IH]; simpl; [reflexivity|].
    destruct (hitb q (snd kp)); simpl; rewrite IH; reflexivity. }
  rewrite Hmap. apply filter_filter_implied.
  intros p Hp. apply hitb_hit. apply (hit_narrower q q'); [exact Hq|].
  apply hitb_hit. exact Hp.
Qed.

Lemma search_loop_app_stored (query : string) (l : list PostIndexEntry) (rest found : list entry) :
  search_loop (PyStr.lower query) (map stored l ++ rest)%list found
  = search_loop (PyStr.lower query) rest (found ++ map stored (filter (hitb query) l))%list.
Proof.
  revert found; induction l as [|p l IH]; intros found; simpl.
  - rewrite app_nil_r. reflexivity.
  - rewrite matches_stored; simpl. rewrite IH.
    destruct (hitb query p); simpl; [rewrite <- app_assoc|]; reflexivity.
Qed.

(** X9.  [search_posts] raises when it reaches an entry whose title is not
    text: with entries of the data model before it, every query ends in the
    [AttributeError] of [lower] on the type of that title. *)
Theorem search_posts_non_text_title (idx : list (key * PostIndexEntry)) (k : key)
    (bad : entry) (rest : store) (query : string) :
  Shape.is_text (title bad) = false ->
  search_posts query (stored_index idx ++ (k, bad) :: rest)%list
  = Raise ("'" ++ type_name (title bad) ++ "' object has no attribute 'lower'").
Proof.
  intros Hbad. unfold search_posts, values. rewrite map_app.
  fold (values (stored_index idx)). rewrite values_stored_index.
  rewrite search_loop_app_stored. cbn [map snd search_loop].
  unfold matches, in_lower. destruct (title bad); try discriminate Hbad; reflexivity.
Qed.

(** X10.  On every store state of the data model [get_recent_posts] returns
    [min(limit, size)] posts for a limit that is not negative and
    [max(0, size + limit)] posts for a negative one; with a limit of at least
    the size it returns every post of the store. *)
Theorem get_recent_posts_length (idx : list (key * PostIndexEntry)) (n : Z) :
  exists found,
    get_recent_posts n (stored_index idx) = Ok found
    /\ Z.of_nat (List.length found)
       = (if (0 <=? n)%Z then Z.min n (Z.of_nat (List.length idx))
          else Z.max 0 (Z.of_nat (List.length idx) + n))%Z
    /\ ((Z.of_nat (List.length idx) <= n)%Z -> Permutation found (values (stored_index idx))).
Proof.
  unfold get_recent_posts. rewrite values_stored_index, sorted_reverse_stored. simpl.
  eexists. split; [reflexivity|].
  assert (Hlen : List.length (map stored (newest_first (entries idx))) = List.length idx).
  { rewrite length_map, (Permutation_length (newest_first_perm _)).
    unfold entries. apply length_map. }
  unfold slice_to. destruct (0 <=? n)%Z eqn:Hn.
  - apply Z.leb_le in Hn. split.
    + rewrite length_firstn, Hlen. lia.
    + intros Hall. rewrite firstn_all2 by (rewrite Hlen; lia).
      apply Permutation_map, newest_first_perm.
  - apply Z.leb_gt in Hn. split; [|lia].
    rewrite length_firstn, Hlen. lia.
Qed.

End Filters.

(** ** The generators: what always holds *)

Section Generators.
Context `{External}.
Import Frame.

Lemma untouched_refl (st : State) : untouched st st.
Proof. repeat split. Qed.

Lemma untouched_trans (a b c : State) : untouched a b -> untouched b c -> untouched a c.
Proof.
  unfold untouched. intros [H1 [H2 [H3 [H4 H5]]]] [K1 [K2 [K3 [K4 K5]]]].
  repeat split; congruence.
Qed.

(** X11.  The topic and the content generator always return: whatever the
    model does, each makes one call of it and leaves the clock, the disk, the
    store and the conversation alone. *)
Theorem topic_and_content_always_return (env : Env) (st : State) :
  (forall niche audience tone,
     exists topic_data st',
       TopicGenerator.generate_topic niche audience tone env st = (Ok topic_data, st')
       /\ llm_calls st' = S (llm_calls st) /\ untouched st st')
  /\ (forall topic_data platform,
        exists content_data st',
          ContentGenerator.generate_content topic_data platform env st
          = (Ok content_data, st')
          /\ llm_calls st' = S (llm_calls st) /\ untouched st st').
Proof.
  split.
  - intros niche audience tone.
    unfold TopicGenerator.generate_topic, try_except, mbind, invoke, print, ret.
    destruct (llm_invoke env (llm_calls st) _) as [response|e];
      eexists _, _; (split; [reflexivity|]); split; try reflexivity; repeat split.
  - intros topic_data platform.
    unfold ContentGenerator.generate_content, try_except, mbind, invoke, print, ret.
    destruct (llm_invoke env (llm_calls st) _) as [response|e];
      eexists _, _; (split; [reflexivity|]); split; try reflexivity; repeat split.
Qed.

(** X12.  When the response holds no object that parses, the topic has the
    three fixed texts and, as title, the first line of the response: the
    response is the title followed by nothing or by a line feed and the rest,
    and the title holds no line feed. *)
Theorem generate_topic_unparsed (env : Env) (st : State) (niche audience tone response : string) :
  llm_invoke env (llm_calls st) (TopicRequest niche audience tone) = Ok response ->
  (forall group, PyStr.search_braces response = Some group ->
                 exists e, json_loads group = Raise e) ->
  let title := PyStr.first_line response in
  fst (TopicGenerator.generate_topic niche audience tone env st)
  = Ok [("title", PyStr title);
        ("hook", PyStr "Ready to transform your approach?");
        ("angle", PyStr "Expert insights and practical tips");
        ("engagement_question", PyStr "What's your experience with this?")]
  /\ (exists rest, response = title ++ rest
                   /\ (rest = "" \/ exists rest', rest = String PyStr.newline rest'))
  /\ all_chars (fun c => negb (Ascii.eqb c PyStr.newline)) title = true.
Proof.
  intros Hcall Hparse. cbv zeta. split.
  - unfold TopicGenerator.generate_topic, try_except, mbind, invoke, ret.
    rewrite Hcall. cbn [fst].
    destruct (PyStr.search_braces response) as [group|]; [|reflexivity].
    destruct (Hparse group eq_refl) as [e ->]. reflexivity.
  - destruct (first_line_split response) as [rest [Hs [Hn Hr]]]. split; eauto.
Qed.

(** X13.  The content returned when the call succeeds is the response
    without the white space around it: trimming it again changes nothing, it
    is not longer than the response, neither its first nor its last character
    is white space, and [character_count] is its length. *)
Theorem generate_content_trimmed (env : Env) (st : State) (topic_data : dict)
    (platform response : string) :
  llm_invoke env (llm_calls st) (ContentGenerator.request_of topic_data platform)
  = Ok response ->
  exists text flag,
    fst (ContentGenerator.generate_content topic_data platform env st)
    = Ok [("content", PyStr text); ("platform", PyStr platform);
          ("character_count", PyInt (Z.of_nat (String.length text)));
          ("within_limit", PyBool flag)]
    /\ (exists before after,
          response = before ++ text ++ after
          /\ is_blank before = true /\ is_blank after = true)
    /\ PyStr.strip text = text
    /\ String.length text <= String.length response
    /\ (forall c r, text = String c r -> PyStr.is_space c = false)
    /\ (forall r c, text = r ++ String c "" -> PyStr.is_space c = false).
Proof.
  intros Hcall. exists (PyStr.strip response). eexists.
  split; [apply generate_content_returned; exact Hcall|].
  split; [apply strip_decompose|]. split; [apply strip_idem|].
  split; [apply strip_length|]. split.
  - intros c r. apply strip_head.
  - intros r c. unfold PyStr.strip. apply rstrip_last.
Qed.

End Generators.

(** ** The object found in a response *)

Lemma from_first_open_some (s t : string) :
  PyStr.from_first_open s = Some t ->
  exists before t', s = before ++ t /\ t = String "{"%char t'
                    /\ all_chars not_open before = true.
Proof.
  induction s as [|c s IH]; simpl; [discriminate|].
  destruct (Ascii.eqb c "{"%char) eqn:Hc.
  - intros [= <-]. apply Ascii.eqb_eq in Hc. subst c. exists "", s. auto.
  - intros Ht. destruct (IH Ht) as [before [t' [Hs [Ht' Hb]]]].
    exists (String c before), t'. simpl. unfold not_open at 1. rewrite Hc, Hb, <- Hs. auto.
Qed.

Lemma from_first_open_none (s : string) :
  PyStr.from_first_open s = None -> all_chars not_open s = true.
Proof.
  induction s as [|c s IH]; simpl; [reflexivity|].
  unfold not_open at 1. destruct (Ascii.eqb c "{"%char); [discriminate|]. exact IH.
Qed.

Lemma upto_last_close_some (s r : string) :
  PyStr.upto_last_close s = Some r ->
  exists inner after, r = inner ++ "}" /\ s = r ++ after
                      /\ all_chars not_close after = true.
Proof.
  revert r; induction s as [|c s IH]; intros r; simpl; [discriminate|].
  destruct (PyStr.upto_last_close s) as [r'|] eqn:Hr.
  - intros [= <-]. destruct (IH r' eq_refl) as [inner [after [Hr' [Hs Ha]]]].
    exists (String c inner), after. simpl. rewrite <- Hr', <- Hs. auto.
  - destruct (Ascii.eqb c "}"%char) eqn:Hc; [|discriminate].
    intros [= <-]. apply Ascii.eqb_eq in Hc. subst c. exists "", s. simpl.
    split; [reflexivity|]. split; [reflexivity|].
    clear IH. induction s as [|d s IHs]; [reflexivity|].
    simpl in Hr. destruct (PyStr.upto_last_close s); [discriminate|].
    simpl. unfold not_close at 1.
    destruct (Ascii.eqb d "}"%char); [discriminate|]. auto.
Qed.

Lemma upto_last_close_none (s : string) :
  PyStr.upto_last_close s = None -> all_chars not_close s = true.
Proof.
  induction s as [|c s IH]; simpl; [reflexivity|].
  destruct (PyStr.upto_last_close s); [discriminate|].
  unfold not_close at 1. destruct (Ascii.eqb c "}"%char); [discriminate|]. auto.
Qed.

(** X14.  The text that the generators hand to [json.loads] runs from the
    first opening brace of the response to its last closing brace: no opening
    brace stands before it and no closing brace after it; and nothing is
    handed over exactly when no closing brace follows an opening one. *)
Theorem search_braces_span (s : string) :
  match PyStr.search_braces s with
  | Some group =>
      exists before inner after,
        s = before ++ group ++ after
        /\ group = "{" ++ inner ++ "}"
        /\ all_chars not_open before = true
        /\ all_chars not_close after = true
  | None => forall a b c, s <> a ++ "{" ++ b ++ "}" ++ c
  end.
Proof.
  unfold PyStr.search_braces.
  destruct (PyStr.from_first_open s) as [t|] eqn:Ht.
  - destruct (from_first_open_some _ _ Ht) as [before [t' [Hs [Ht' Hb]]]].
    destruct (PyStr.upto_last_close t) as [r|] eqn:Hr.
    + destruct (upto_last_close_some _ _ Hr) as [inner [after [Hr' [Htr Ha]]]].
      subst t. rewrite Htr in Hs.
      destruct inner as [|x inner].
      * simpl in Hr'. subst r. simpl in Htr. discriminate.
      * simpl in Hr'. subst r. simpl in Htr. injection Htr as Hx _. subst x.
        exists before, inner, after. auto.
    + intros a b c Habs. apply upto_last_close_none in Hr.
      assert (Hsfx : exists pre, t = pre ++ "}" ++ c).
      { subst s t. clear Ht Hr.
        revert a Habs. induction before as [|x before IH]; intros a Habs.
        - simpl in Habs. destruct a as [|y a]; simpl in Habs.
          + injection Habs as ->. exists (String "{"%char b). reflexivity.
          + injection Habs as <- ->. exists (String "{"%char (a ++ "{" ++ b)).
            simpl. rewrite !string_app_assoc. reflexivity.
        - simpl in Hb. apply andb_true_iff in Hb. destruct Hb as [Hx Hb].
          destruct a as [|y a]; simpl in Habs.
          + injection Habs as -> _. discriminate Hx.
          + injection Habs as _ Habs. apply (IH Hb a). exact Habs. }
      destruct Hsfx as [pre Hpre]. rewrite Hpre, all_chars_app in Hr.
      apply andb_true_iff in Hr. destruct Hr as [_ Hr]. discriminate Hr.
  - intros a b c Habs. apply from_first_open_none in Ht.
    rewrite Habs, all_chars_app in Ht. apply andb_true_iff in Ht.
    destruct Ht as [_ Ht]. discriminate Ht.
Qed.

(** ** The hashtag generator: fallback and failures *)

Section HashtagPaths.
Context `{External}.
Import HashtagGenerator Frame.



Lemma generate_hashtags_frame (env : Env) (st st' : State) (topic_data content_data : dict)
    (seo_keywords : option (list string)) (r : result dict) :
  generate_hashtags topic_data content_data seo_keywords env st = (r, st') ->
  untouched st st' /\ llm_calls st' <= S (llm_calls st).
Proof.
  unfold generate_hashtags, try_except, mbind, lift, invoke, print, ret.
  repeat match goal with
         | |- context [match ?x with Ok _ => _ | Raise _ => _ end] => destruct x
         end;
    intros [= <- <-]; cbn; repeat split; lia.
Qed.

(** X16.  A reply whose object has no usable [primary_hashtags] (the key is
    missing, or its value cannot be sliced) is absorbed: the exception
    is printed and the generator returns the fallback hashtags, after one
    call of the model. *)
Theorem generate_hashtags_absorbs_bad_reply (env : Env) (st : State)
    (topic_data content_data : dict) (seo_keywords : option (list string))
    (limit : Z) (excerpt : pyobj) (response msg : string) (hashtag_data : dict) :
  let platform := Dict.get content_data "platform" (PyStr "instagram") in
  limit_of platform = Ok limit ->
  py_slice_to 200 (get_or_none content_data "content") = Ok excerpt ->
  llm_invoke env (llm_calls st) (request_of platform topic_data excerpt limit seo_keywords)
  = Ok response ->
  parse_or_fallback platform topic_data response = Ok hashtag_data ->
  bind (subscript hashtag_data "primary_hashtags") (py_slice_to limit) = Raise msg ->
  generate_hashtags topic_data content_data seo_keywords env st
  = (_generate_fallback_hashtags platform topic_data,
     {| llm_calls := S (llm_calls st); clock_reads := clock_reads st;
        directories := directories st; files := files st;
        posts_memory := posts_memory st; conversation := conversation st;
        stdout := stdout st ++ [HashtagError msg] |}).
Proof.
  intros platform Hlimit Hexcerpt Hcall Hparse Hbad.
  unfold generate_hashtags, try_except, mbind, lift, invoke, print. fold platform.
  rewrite Hlimit, Hexcerpt. cbn [llm_calls]. rewrite Hcall, Hparse.
  unfold bind in Hbad.
  destruct (subscript hashtag_data "primary_hashtags") as [primary|e].
  - rewrite Hbad. reflexivity.
  - injection Hbad as ->. reflexivity.
Qed.

(** X17.  The hashtag generator does raise: when the call of the model
    fails and the title of the topic is not text, the fallback built in the
    [except] branch raises the [AttributeError] of [lower] on the type of the
    title. *)
Theorem generate_hashtags_raises_on_untitled (env : Env) (st : State)
    (topic_data content_data : dict) (seo_keywords : option (list string))
    (limit : Z) (excerpt title : pyobj) (e : string) :
  let platform := Dict.get content_data "platform" (PyStr "instagram") in
  limit_of platform = Ok limit ->
  py_slice_to 200 (get_or_none content_data "content") = Ok excerpt ->
  llm_invoke env (llm_calls st) (request_of platform topic_data excerpt limit seo_keywords)
  = Raise e ->
  Dict.lookup "title" topic_data = Some title ->
  Shape.is_text title = false ->
  fst (generate_hashtags topic_data content_data seo_keywords env st)
  = Raise ("'" ++ type_name title ++ "' object has no attribute 'lower'").
Proof.
  intros platform Hlimit Hexcerpt Hcall Htitle Hbad.
  pose proof (generate_hashtags_raised env st topic_data content_data seo_keywords
                limit excerpt e Hlimit Hexcerpt Hcall) as Hrun.
  cbv zeta in Hrun. fold platform in Hrun. rewrite Hrun. cbn [fst].
  unfold _generate_fallback_hashtags, Dict.get. rewrite Htitle.
  destruct title; try discriminate Hbad; reflexivity.
Qed.

End HashtagPaths.

(** ** The orchestrator: what a run does to the state *)

Lemma recorded_path_differs (t_id t_file : datetime) (prefix : string) :
  let recorded := path_join "posts" ("ai_influencer_" ++ Clock.compact t_id ++ ".json") in
  recorded <> path_join "posts" (prefix ++ "_" ++ Clock.short t_file ++ ".json")
  /\ recorded <> path_join "posts" (prefix ++ "_" ++ Clock.short t_file ++ ".txt").
Proof.
  cbv zeta. split; intros Habs; apply path_join_posts_inj in Habs.
  - unfold Clock.compact, Clock.short in Habs.
    set (tail_id := String (PyStr.digit (minute t_id / 10))
                      (String (PyStr.digit (minute t_id))
                         (PyStr.zero_padded 2 (second t_id) ++ ".json"))).
    set (tail_file := PyStr.zero_padded 2 (hour t_file) ++ PyStr.zero_padded 2 (minute t_file)
                      ++ ".json").
    assert (Hl : ("ai_influencer_" ++ PyStr.zero_padded 4 (year t_id)
                  ++ PyStr.zero_padded 2 (month t_id) ++ PyStr.zero_padded 2 (day t_id)
                  ++ "_" ++ String (PyStr.digit (hour t_id / 10)) "")
                 ++ String (PyStr.digit (hour t_id)) tail_id
                 = (prefix ++ "_" ++ PyStr.zero_padded 2 (year t_file)
                    ++ PyStr.zero_padded 2 (month t_file) ++ PyStr.zero_padded 2 (day t_file))
                   ++ String "_"%char tail_file).
    { unfold tail_id, tail_file. rewrite !string_app_assoc.
      rewrite !string_app_assoc in Habs. exact Habs. }
    change (String (PyStr.digit (hour t_id)) tail_id)
      with (String (PyStr.digit (hour t_id)) "" ++ tail_id) in Hl.
    change (String "_"%char tail_file) with (String "_"%char "" ++ tail_file) in Hl.
    rewrite <- !string_app_assoc in Hl.
    apply string_app_inv_tail in Hl.
    + destruct Hl as [Hl _].
      apply string_app_inv_tail in Hl; [|reflexivity].
      destruct Hl as [_ Hd]. injection Hd as Hd.
      exact (digit_not_underscore _ Hd).
    + unfold tail_id, tail_file. cbn [String.length].
      rewrite !string_app_length, !zero_padded_length. reflexivity.
  - change ".json" with (".jso" ++ "n") in Habs.
    change ".txt" with (".tx" ++ "t") in Habs.
    rewrite <- !string_app_assoc in Habs.
    apply string_app_inv_tail in Habs; [|reflexivity].
    destruct Habs as [_ Habs]. discriminate.
Qed.

(** X18.  Whatever the two clock readings, the platform and the niche, the
    path that [add_post] records for a generated post,
    [posts/ai_influencer_<%Y%m%d_%H%M%S>.json], differs from the two paths
    that [_save_post] writes, [<platform>_<niche>_<%y%m%d_%H%M>] with [.json]
    and [.txt]. *)
Theorem recorded_path_is_not_the_saved_one (t_id t_file : datetime) (platform niche : string) :
  let recorded := path_join "posts" ("ai_influencer_" ++ Clock.compact t_id ++ ".json") in
  let base := (platform ++ "_" ++ niche) ++ "_" ++ Clock.short t_file in
  recorded <> path_join "posts" (base ++ ".json")
  /\ recorded <> path_join "posts" (base ++ ".txt").
Proof.
  cbv zeta. rewrite !string_app_assoc.
  pose proof (recorded_path_differs t_id t_file (platform ++ "_" ++ niche)) as Hd.
  cbv zeta in Hd. rewrite !string_app_assoc in Hd. exact Hd.
Qed.

Section Runs.
Context `{External}.
Import AIInfluencerChatbot Frame.

Lemma in_directories_after (d : string) (dirs : list string) :
  In d (if existsb (String.eqb d) dirs then dirs else dirs ++ [d])%list.
Proof.
  destruct (existsb (String.eqb d) dirs) eqn:Hd.
  - apply existsb_exists in Hd. destruct Hd as [x [Hin Hx]].
    apply String.eqb_eq in Hx. subst. exact Hin.
  - apply in_or_app. right. left. reflexivity.
Qed.

Lemma save_post_effect (env : Env) (st : State) (post_data : dict)
    (platform niche : pyobj) :
  makedirs env = Ok tt ->
  get_nested post_data "parameters" "platform" (PyStr "general") = Ok platform ->
  get_nested post_data "parameters" "niche" (PyStr "content") = Ok niche ->
  let base := py_str platform ++ "_" ++ py_str niche ++ "_"
              ++ Clock.short (now env (clock_reads st)) in
  let json_path := path_join "posts" (base ++ ".json") in
  let txt_path := path_join "posts" (base ++ ".txt") in
  exists st',
    _save_post post_data env st = (Ok tt, st')
    /\ In "posts" (directories st')
    /\ (forall path, path <> json_path -> path <> txt_path ->
                     Dict.lookup path (files st') = Dict.lookup path (files st))
    /\ match open_write env json_path with
       | Ok _ => Dict.lookup json_path (files st') = Some (json_dump (PyDict post_data))
       | Raise e => files st' = files st /\ stdout st' = (stdout st ++ [SaveError e])%list
       end.
Proof.
  intros Hmk Hp Hn base json_path txt_path.
  assert (Hdiff : txt_path <> json_path).
  { unfold txt_path, json_path. intros Habs. apply path_join_posts_inj in Habs.
    apply string_app_inv_head in Habs. discriminate. }
  unfold _save_post, try_except, mbind, os_makedirs, lift, datetime_now, write_file, print.
  rewrite Hmk, Hp, Hn.
  cbn [directories files clock_reads llm_calls posts_memory conversation stdout].
  fold base. fold json_path. fold txt_path.
  destruct (open_write env json_path) as [[]|e1].
  - cbn [directories files clock_reads llm_calls posts_memory conversation stdout].
    destruct (open_write env txt_path) as [[]|e2].
    + destruct (snd (text_report post_data)) as [[]|e3]; eexists;
        (split; [reflexivity|]); cbn [directories files stdout];
        (split; [apply in_directories_after|]); split;
        try (intros path H1 H2; rewrite !lookup_set_other by assumption; reflexivity);
        (rewrite lookup_set_other by (intros Habs; apply Hdiff; symmetry; exact Habs);
         apply lookup_set_same).
    + eexists. split; [reflexivity|]. cbn [directories files stdout].
      split; [apply in_directories_after|]. split.
      * intros path H1 H2. rewrite lookup_set_other by assumption. reflexivity.
      * apply lookup_set_same.
  - eexists. split; [reflexivity|]. cbn [directories files stdout].
    split; [apply in_directories_after|]. auto.
Qed.

(** X19.  Once the directory is there, [_save_post] returns whatever the
    writes do: when the JSON file can be opened it holds the dumped post
    afterwards, also when the text report fails; when it cannot, the disk is
    as before and the error is printed; no other path of the disk changes. *)
Theorem save_post_persists (env : Env) (st : State) (post_data : dict)
    (platform niche : pyobj) :
  makedirs env = Ok tt ->
  get_nested post_data "parameters" "platform" (PyStr "general") = Ok platform ->
  get_nested post_data "parameters" "niche" (PyStr "content") = Ok niche ->
  let base := py_str platform ++ "_" ++ py_str niche ++ "_"
              ++ Clock.short (now env (clock_reads st)) in
  let json_path := path_join "posts" (base ++ ".json") in
  let txt_path := path_join "posts" (base ++ ".txt") in
  exists st',
    _save_post post_data env st = (Ok tt, st')
    /\ In "posts" (directories st')
    /\ (forall path, path <> json_path -> path <> txt_path ->
                     Dict.lookup path (files st') = Dict.lookup path (files st))
    /\ match open_write env json_path with
       | Ok _ => Dict.lookup json_path (files st') = Some (json_dump (PyDict post_data))
       | Raise e => files st' = files st /\ stdout st' = (stdout st ++ [SaveError e])%list
       end.
Proof. apply save_post_effect. Qed.

End Runs.

Section RunState.
Context `{External}.
Import AIInfluencerChatbot Frame.

Lemma generate_topic_frame (env : Env) (st st' : State) (niche audience tone : string)
    (r : result dict) :
  TopicGenerator.generate_topic niche audience tone env st = (r, st') ->
  (exists topic_data, r = Ok topic_data)
  /\ llm_calls st' = S (llm_calls st) /\ untouched st st'.
Proof.
  unfold TopicGenerator.generate_topic, try_except, mbind, invoke, print, ret.
  destruct (llm_invoke env (llm_calls st) _) as [response|e]; intros [= <- <-];
    (split; [eexists; reflexivity|]); split; try reflexivity; repeat split.
Qed.

Lemma generate_content_frame (env : Env) (st st' : State) (topic_data : dict)
    (platform : string) (r : result dict) :
  ContentGenerator.generate_content topic_data platform env st = (r, st') ->
  (exists text count flag,
      r = Ok [("content", PyStr text); ("platform", PyStr platform);
              ("character_count", PyInt count); ("within_limit", PyBool flag)])
  /\ llm_calls st' = S (llm_calls st) /\ untouched st st'.
Proof.
  unfold ContentGenerator.generate_content, ContentGenerator.fallback,
    try_except, mbind, invoke, print, ret.
  destruct (llm_invoke env (llm_calls st) _) as [response|e]; intros [= <- <-];
    (split; [eexists _, _, _; reflexivity|]); split; try reflexivity; repeat split.
Qed.

Lemma generate_hashtags_one_call (env : Env) (st st' : State) (topic_data : dict)
    (text platform : string) (count : Z) (flag : bool)
    (seo_keywords : option (list string)) (r : result dict) :
  HashtagGenerator.generate_hashtags topic_data
    [("content", PyStr text); ("platform", PyStr platform);
     ("character_count", PyInt count); ("within_limit", PyBool flag)]
    seo_keywords env st = (r, st') ->
  llm_calls st' = S (llm_calls st) /\ untouched st st'.
Proof.
  unfold HashtagGenerator.generate_hashtags, try_except, mbind, lift, invoke, print, ret.
  cbn [Dict.get Dict.lookup String.eqb Ascii.eqb Bool.eqb get_or_none py_slice_to
       HashtagGenerator.limit_of py_lower bind].
  repeat match goal with
         | |- context [match ?x with Ok _ => _ | Raise _ => _ end] => destruct x
         end;
    intros [= <- <-]; cbn; repeat split.
Qed.


Lemma save_post_ok_inv (env : Env) (st st' : State) (post_data : dict) :
  _save_post post_data env st = (Ok tt, st') -> makedirs env = Ok tt.
Proof.
  unfold _save_post, mbind, os_makedirs.
  destruct (makedirs env) as [[]|e]; [reflexivity | discriminate].
Qed.

Lemma generate_steps_trace (env : Env) (st st' : State)
    (niche audience tone platform : string) (seo_keywords : option (list string))
    (post : dict) :
  generate_steps niche audience tone platform seo_keywords env st = (Ok post, st') ->
  let post_id := "ai_influencer_" ++ Clock.compact (now env (clock_reads st)) in
  let stamp := Clock.isoformat (now env (S (clock_reads st))) in
  let base := platform ++ "_" ++ niche ++ "_"
              ++ Clock.short (now env (S (S (clock_reads st)))) in
  let asked := "Generate a " ++ platform ++ " post about " ++ niche in
  exists topic_data content_data hashtag_data e,
    post = [("post_id", PyStr post_id);
            ("generation_timestamp", PyStr stamp);
            ("parameters",
             PyDict [("niche", PyStr niche); ("audience", PyStr audience);
                     ("tone", PyStr tone); ("platform", PyStr platform);
                     ("seo_keywords", seo_object seo_keywords)]);
            ("topic", PyDict topic_data);
            ("content", PyDict content_data);
            ("hashtags", PyDict hashtag_data);
            ("ready_to_post", PyBool true)]
    /\ PostMemory.index_entry post (path_join "posts" (post_id ++ ".json")) = Ok e
    /\ posts_memory st' = PostMemory.set (PostMemory.KStr post_id) e (posts_memory st)
    /\ (let answered := "Generated post: "
                         ++ py_str (Dict.get topic_data "title" (PyStr "")) in
        conversation st' = (conversation st ++ [(asked, answered)])%list)
    /\ llm_calls st' = 3 + llm_calls st
    /\ clock_reads st' = 3 + clock_reads st
    /\ In "posts" (directories st')
    /\ (forall path,
          path <> path_join "posts" (base ++ ".json") ->
          path <> path_join "posts" (base ++ ".txt") ->
          Dict.lookup path (files st') = Dict.lookup path (files st))
    /\ match open_write env (path_join "posts" (base ++ ".json")) with
       | Ok _ => Dict.lookup (path_join "posts" (base ++ ".json")) (files st')
                 = Some (json_dump (PyDict post))
       | Raise _ => files st' = files st
       end.
Proof.
  intros Hrun. cbv zeta. unfold generate_steps in Hrun.
  apply mbind_ok_inv in Hrun. destruct Hrun as [topic_data [st1 [Htopic Hrun]]].
  apply generate_topic_frame in Htopic. destruct Htopic as [_ [Hc1 Hf1]].
  apply mbind_ok_inv in Hrun. destruct Hrun as [content_data [st2 [Hcontent Hrun]]].
  apply generate_content_frame in Hcontent.
  destruct Hcontent as [[text [count [flag Hcd]]] [Hc2 Hf2]]. injection Hcd as ->.
  apply mbind_ok_inv in Hrun. destruct Hrun as [hashtag_data [st3 [Hhash Hrun]]].
  apply generate_hashtags_one_call in Hhash. destruct Hhash as [Hc3 Hf3].
  pose proof (untouched_trans _ _ _ (untouched_trans _ _ _ Hf1 Hf2) Hf3)
    as [Hk [Hd [Hfiles [Hm Hconv]]]].
  unfold mbind at 1, datetime_now at 1 in Hrun.
  unfold mbind at 1, datetime_now at 1 in Hrun.
  cbn [clock_reads llm_calls] in Hrun. rewrite Hk in Hrun.
  apply mbind_ok_inv in Hrun. destruct Hrun as [[] [st4 [Hsave Hrun]]].
  pose proof (save_post_ok_inv _ _ _ _ Hsave) as Hmk.
  match type of Hsave with
  | _save_post ?p env ?s = _ =>
      destruct (save_post_returns env s p (PyStr platform) (PyStr niche) Hmk
                  eq_refl eq_refl) as [st4a [Hsa [Hm4 [Hk4 [Hl4 Hconv4]]]]];
      destruct (save_post_effect env s p (PyStr platform) (PyStr niche) Hmk
                  eq_refl eq_refl) as [st4b [Hsb [Hdir4 [Hother4 Hjson4]]]]
  end.
  rewrite Hsave in Hsa, Hsb. injection Hsa as <-. injection Hsb as <-.
  cbn [clock_reads llm_calls posts_memory conversation files directories py_str]
    in Hm4, Hk4, Hl4, Hconv4, Hother4, Hjson4.
  unfold mbind, memory_add_post, memory_save_context, ret in Hrun.
  match type of Hrun with
  | context [PostMemory.add_post ?p ?m] =>
      assert (Hadd : exists e,
                 PostMemory.index_entry p
                   (path_join "posts"
                      (("ai_influencer_" ++ Clock.compact (now env (clock_reads st)))
                       ++ ".json")) = Ok e
                 /\ PostMemory.add_post p m
                    = Ok (PostMemory.set
                            (PostMemory.KStr
                               ("ai_influencer_" ++ Clock.compact (now env (clock_reads st))))
                            e m))
        by (eexists; split; reflexivity)
  end.
  destruct Hadd as [e [He Hadd]]. rewrite Hadd in Hrun.
  destruct (save_context env) as [[]|err]; [|discriminate].
  injection Hrun as <- <-.
  exists topic_data. eexists. exists hashtag_data, e.
  cbn [clock_reads llm_calls posts_memory conversation files directories].
  split; [reflexivity|]. split; [exact He|].
  split; [rewrite Hm4, Hm; reflexivity|].
  split; [rewrite Hconv4, Hconv; reflexivity|].
  split; [lia|]. split; [lia|]. split; [exact Hdir4|].
  split; [intros path H1 H2; rewrite (Hother4 path H1 H2), Hfiles; reflexivity|].
  destruct (open_write env _); [exact Hjson4 | destruct Hjson4 as [-> _]; exact Hfiles].
Qed.

End RunState.

Section RunEffects.
Context `{External}.
Import AIInfluencerChatbot Frame.

Lemma ready_result_from_steps (env : Env) (st st' : State)
    (niche audience tone platform : string) (seo_keywords : option (list string))
    (post : dict) :
  generate_complete_post niche audience tone platform seo_keywords env st = (Ok post, st') ->
  Dict.lookup "ready_to_post" post = Some (PyBool true) ->
  generate_steps niche audience tone platform seo_keywords env st = (Ok post, st').
Proof.
  unfold generate_complete_post, try_except.
  destruct (generate_steps niche audience tone platform seo_keywords env st)
    as [[p|e] st1]; [intros [= <- <-]; reflexivity|].
  unfold mbind, print, datetime_now, ret. intros [= <- _] Hready. discriminate Hready.
Qed.

(** X20.  A run that returns a ready post has entered it in the store under
    its id, [ai_influencer_] and the first clock reading, with the platform
    and the niche of the call and the second clock reading as timestamp;
    every other id reads as before; the conversation has one turn more; the
    model was called three times and the clock read three times. *)
Theorem ready_post_is_indexed (env : Env) (st st' : State)
    (niche audience tone platform : string) (seo_keywords : option (list string))
    (post : dict) :
  generate_complete_post niche audience tone platform seo_keywords env st = (Ok post, st') ->
  Dict.lookup "ready_to_post" post = Some (PyBool true) ->
  let post_id := "ai_influencer_" ++ Clock.compact (now env (clock_reads st)) in
  let stamp := Clock.isoformat (now env (S (clock_reads st))) in
  exists e,
    Dict.lookup "post_id" post = Some (PyStr post_id)
    /\ Dict.lookup "generation_timestamp" post = Some (PyStr stamp)
    /\ PostLookup.get_post post_id (posts_memory st') = Some e
    /\ PostMemory.platform e = PyStr platform
    /\ PostMemory.niche e = PyStr niche
    /\ PostMemory.timestamp e = PyStr stamp
    /\ (forall other, other <> post_id ->
          PostLookup.get_post other (posts_memory st')
          = PostLookup.get_post other (posts_memory st))
    /\ List.length (conversation st') = S (List.length (conversation st))
    /\ llm_calls st' = 3 + llm_calls st
    /\ clock_reads st' = 3 + clock_reads st.
Proof.
  intros Hrun Hready. apply ready_result_from_steps in Hrun; [|exact Hready].
  apply generate_steps_trace in Hrun. cbv zeta in Hrun. cbv zeta.
  destruct Hrun as [topic_data [content_data [hashtag_data [e
    [Hpost [He [Hm [Hconv [Hcalls [Hclock _]]]]]]]]]].
  exists e. subst post.
  split; [reflexivity|]. split; [reflexivity|].
  split; [unfold PostLookup.get_post; rewrite Hm; apply store_lookup_set_same|].
  unfold PostMemory.index_entry in He. cbn [bind] in He.
  repeat match type of He with
         | bind ?r _ = _ => destruct r eqn:?; cbn [bind] in He; [|discriminate]
         end.
  injection He as <-. cbn [PostMemory.platform PostMemory.niche PostMemory.timestamp].
  repeat match goal with
         | Hg : get_nested _ _ _ _ = Ok _ |- _ => cbv in Hg; injection Hg as <-
         end.
  split; [reflexivity|]. split; [reflexivity|]. split; [reflexivity|].
  split.
  - intros other Hne. unfold PostLookup.get_post. rewrite Hm.
    apply store_lookup_set_other. congruence.
  - split; [|split; assumption]. rewrite Hconv, length_app. simpl. lia.
Qed.

(** X21.  For every run that returns a ready post, the path recorded in its
    index entry is not the path of the JSON file that was written, and what
    the disk holds at the recorded path is what it held before the run; the
    dumped post is at the other path whenever that file could be opened. *)
Theorem ready_post_path_not_written (env : Env) (st st' : State)
    (niche audience tone platform : string) (seo_keywords : option (list string))
    (post : dict) :
  generate_complete_post niche audience tone platform seo_keywords env st = (Ok post, st') ->
  Dict.lookup "ready_to_post" post = Some (PyBool true) ->
  let post_id := "ai_influencer_" ++ Clock.compact (now env (clock_reads st)) in
  let saved := path_join "posts"
                 (platform ++ "_" ++ niche ++ "_"
                  ++ Clock.short (now env (S (S (clock_reads st)))) ++ ".json") in
  exists e,
    PostLookup.get_post post_id (posts_memory st') = Some e
    /\ PostMemory.file_path e = path_join "posts" (post_id ++ ".json")
    /\ PostMemory.file_path e <> saved
    /\ Dict.lookup (PostMemory.file_path e) (files st')
       = Dict.lookup (PostMemory.file_path e) (files st)
    /\ (open_write env saved = Ok tt ->
        Dict.lookup saved (files st') = Some (json_dump (PyDict post))).
Proof.
  intros Hrun Hready. apply ready_result_from_steps in Hrun; [|exact Hready].
  apply generate_steps_trace in Hrun. cbv zeta in Hrun. cbv zeta.
  destruct Hrun as [topic_data [content_data [hashtag_data [e
    [Hpost [He [Hm [_ [_ [_ [_ [Hother Hjson]]]]]]]]]]]].
  exists e.
  assert (Hpath : PostMemory.file_path e
                  = path_join "posts"
                      (("ai_influencer_" ++ Clock.compact (now env (clock_reads st)))
                       ++ ".json")).
  { unfold PostMemory.index_entry in He.
    repeat match type of He with
           | bind ?r _ = _ => destruct r; cbn [bind] in He; [|discriminate]
           end.
    injection He as <-. reflexivity. }
  set (t_file := now env (S (S (clock_reads st)))) in *.
  set (saved := path_join "posts"
                  (platform ++ "_" ++ niche ++ "_" ++ Clock.short t_file ++ ".json")).
  set (report := path_join "posts"
                   (platform ++ "_" ++ niche ++ "_" ++ Clock.short t_file ++ ".txt")).
  assert (Hs1 : path_join "posts"
                  ((platform ++ "_" ++ niche ++ "_" ++ Clock.short t_file) ++ ".json")
                = saved)
    by (unfold saved; rewrite !string_app_assoc; reflexivity).
  assert (Hs2 : path_join "posts"
                  ((platform ++ "_" ++ niche ++ "_" ++ Clock.short t_file) ++ ".txt")
                = report)
    by (unfold report; rewrite !string_app_assoc; reflexivity).
  rewrite Hs1 in Hjson, Hother. rewrite Hs2 in Hother.
  destruct (recorded_path_differs (now env (clock_reads st)) t_file
              (platform ++ "_" ++ niche)) as [Hj Ht].
  assert (Hs3 : path_join "posts"
                  ((platform ++ "_" ++ niche) ++ "_" ++ Clock.short t_file ++ ".json")
                = saved)
    by (unfold saved; rewrite !string_app_assoc; reflexivity).
  assert (Hs4 : path_join "posts"
                  ((platform ++ "_" ++ niche) ++ "_" ++ Clock.short t_file ++ ".txt")
                = report)
    by (unfold report; rewrite !string_app_assoc; reflexivity).
  rewrite Hs3 in Hj. rewrite Hs4 in Ht.
  assert (Hrec : path_join "posts"
                   (("ai_influencer_" ++ Clock.compact (now env (clock_reads st))) ++ ".json")
                 = path_join "posts"
                     ("ai_influencer_" ++ Clock.compact (now env (clock_reads st)) ++ ".json"))
    by (rewrite string_app_assoc; reflexivity).
  rewrite Hrec in Hpath. rewrite <- Hpath in Hj, Ht.
  split; [unfold PostLookup.get_post; rewrite Hm; apply store_lookup_set_same|].
  split; [rewrite Hpath, Hrec; reflexivity|].
  split; [exact Hj|].
  split; [apply Hother; assumption|].
  intros Hopen. rewrite Hopen in Hjson. exact Hjson.
Qed.

End RunEffects.

Section Failures.
Context `{External}.
Import AIInfluencerChatbot Frame.

Lemma handler_untouched (env : Env) (st : State) (e : string) :
  exists st',
    (mbind (print (PostError e))
       (fun _ => mbind datetime_now (fun t => ret (error_result e t)))) env st
    = (Ok (error_result e (now env (clock_reads st))), st')
    /\ directories st' = directories st /\ files st' = files st
    /\ posts_memory st' = posts_memory st /\ conversation st' = conversation st.
Proof. eexists. split; [reflexivity|]. repeat split. Qed.

(** X22.  When the directory of the posts cannot be created, the run
    returns an error result with [ready_to_post] false, and nothing is
    written, indexed or added to the conversation. *)
Theorem unwritable_directory_leaves_no_trace (env : Env) (st : State)
    (niche audience tone platform : string) (seo_keywords : option (list string))
    (msg : string) :
  makedirs env = Raise msg ->
  exists e t st',
    generate_complete_post niche audience tone platform seo_keywords env st
    = (Ok [("error", PyStr e); ("ready_to_post", PyBool false);
           ("generation_timestamp", PyStr (Clock.isoformat t))], st')
    /\ directories st' = directories st
    /\ files st' = files st
    /\ posts_memory st' = posts_memory st
    /\ conversation st' = conversation st.
Proof.
  intros Hmk.
  assert (Hsteps : exists e st1,
            generate_steps niche audience tone platform seo_keywords env st = (Raise e, st1)
            /\ directories st1 = directories st /\ files st1 = files st
            /\ posts_memory st1 = posts_memory st /\ conversation st1 = conversation st).
  { unfold generate_steps.
    destruct (TopicGenerator.generate_topic niche audience tone env st)
      as [r1 st1] eqn:H1.
    destruct (generate_topic_frame _ _ _ _ _ _ _ H1) as [[topic_data ->] [_ Hf1]].
    rewrite (mbind_ok _ _ _ _ _ _ H1).
    destruct (ContentGenerator.generate_content topic_data platform env st1)
      as [r2 st2] eqn:H2.
    destruct (generate_content_frame _ _ _ _ _ _ H2) as [[text [count [flag ->]]] [_ Hf2]].
    rewrite (mbind_ok _ _ _ _ _ _ H2).
    match goal with
    | |- context [mbind (HashtagGenerator.generate_hashtags ?t ?c ?k) _ env ?s] =>
        destruct (HashtagGenerator.generate_hashtags t c k env s) as [r3 st3] eqn:H3
    end.
    destruct (generate_hashtags_one_call _ _ _ _ _ _ _ _ _ _ H3) as [_ Hf3].
    pose proof (untouched_trans _ _ _ (untouched_trans _ _ _ Hf1 Hf2) Hf3)
      as [Hk [Hd [Hfiles [Hm Hconv]]]].
    destruct r3 as [hashtag_data|e3].
    - rewrite (mbind_ok _ _ _ _ _ _ H3).
      cbv beta. unfold mbind at 1, datetime_now at 1.
      unfold mbind at 1, datetime_now at 1. unfold mbind at 1.
      unfold _save_post at 1. unfold mbind at 1. unfold os_makedirs. rewrite Hmk.
      eexists _, _. split; [reflexivity|]. cbn. auto.
    - rewrite (mbind_raise _ _ _ _ _ _ H3). eexists _, _. split; [reflexivity|]. auto. }
  destruct Hsteps as [e [st1 [Hrun [Hd [Hfiles [Hm Hconv]]]]]].
  unfold generate_complete_post, try_except. rewrite Hrun.
  destruct (handler_untouched env st1 e) as [st' [Hh [Hd' [Hf' [Hm' Hc']]]]].
  rewrite Hh. exists e, (now env (clock_reads st1)), st'.
  split; [reflexivity|]. repeat split; congruence.
Qed.

(** X23.  A failure of the hashtag generator reaches the caller of the
    orchestrator: when the topic parsed from the response has a title that is
    not text and the third call of the model raises, the run returns the
    error result that carries the [AttributeError] of [lower]. *)
Theorem untitled_topic_reaches_the_caller (env : Env) (st : State)
    (niche audience tone platform response group e : string)
    (seo_keywords : option (list string)) (topic_data : dict) (title : pyobj) :
  llm_invoke env (llm_calls st) (TopicRequest niche audience tone) = Ok response ->
  PyStr.search_braces response = Some group ->
  json_loads group = Ok topic_data ->
  Dict.lookup "title" topic_data = Some title ->
  Shape.is_text title = false ->
  (forall r, llm_invoke env (S (S (llm_calls st))) r = Raise e) ->
  fst (generate_complete_post niche audience tone platform seo_keywords env st)
  = Ok [("error", PyStr ("'" ++ type_name title ++ "' object has no attribute 'lower'"));
        ("ready_to_post", PyBool false);
        ("generation_timestamp", PyStr (Clock.isoformat (now env (clock_reads st))))].
Proof.
  intros Hcall Hspan Hparse Htitle Hbad Hthird.
  assert (Htopic : exists st1,
            TopicGenerator.generate_topic niche audience tone env st = (Ok topic_data, st1)
            /\ llm_calls st1 = S (llm_calls st) /\ untouched st st1).
  { unfold TopicGenerator.generate_topic, try_except, mbind, invoke, ret.
    rewrite Hcall, Hspan, Hparse. eexists. split; [reflexivity|]. repeat split. }
  destruct Htopic as [st1 [H1 [Hc1 Hf1]]].
  unfold generate_complete_post, try_except, generate_steps.
  rewrite (mbind_ok _ _ _ _ _ _ H1).
  destruct (ContentGenerator.generate_content topic_data platform env st1)
    as [r2 st2] eqn:H2.
  destruct (generate_content_frame _ _ _ _ _ _ H2) as [[text [count [flag ->]]] [Hc2 Hf2]].
  rewrite (mbind_ok _ _ _ _ _ _ H2).
  match goal with
  | |- context [mbind (HashtagGenerator.generate_hashtags ?t ?c ?k) _ env ?s] =>
      pose proof (generate_hashtags_raised env s t c k
                    (Dict.get HashtagGenerator.platform_limits (PyStr.lower platform) 30%Z)
                    (PyStr (PyStr.slice_to 200 text)) e eq_refl eq_refl) as Hh;
      destruct (HashtagGenerator.generate_hashtags t c k env s) as [r3 st3] eqn:H3
  end.
  cbv zeta in Hh. rewrite Hc2, Hc1 in Hh. specialize (Hh (Hthird _)).
  injection Hh as -> ->.
  assert (Hfb : HashtagGenerator._generate_fallback_hashtags (PyStr platform) topic_data
                = Raise ("'" ++ type_name title ++ "' object has no attribute 'lower'")).
  { unfold HashtagGenerator._generate_fallback_hashtags, Dict.get. rewrite Htitle.
    destruct title; try discriminate Hbad; reflexivity. }
  cbn [Dict.get Dict.lookup String.eqb Ascii.eqb Bool.eqb] in H3.
  rewrite Hfb in H3.
  rewrite (mbind_raise _ _ _ _ _ _ H3).
  unfold mbind, print, datetime_now, ret. cbn [fst clock_reads].
  destruct Hf1 as [Hk1 _]. destruct Hf2 as [Hk2 _]. rewrite Hk2, Hk1. reflexivity.
Qed.

End Failures.

(** ** The command loop *)

Section Commands.
Import Cli.

(** X24.  The command loop reads a line up to case and surrounding white
    space: padding the line with white space, or lower-casing it, leads to
    the same branch with the same arguments. *)
Theorem interpret_ignores_case_and_padding (line before after : string) :
  is_blank before = true -> is_blank after = true ->
  interpret (before ++ line ++ after) = interpret line
  /\ interpret (PyStr.lower line) = interpret line.
Proof.
  intros Hb Ha. unfold interpret. split.
  - rewrite strip_padded by assumption. reflexivity.
  - rewrite lower_strip, lower_idem. reflexivity.
Qed.

Lemma plain_word_default (w : string) :
  w <> "" -> all_chars not_space w = true -> all_chars not_upper w = true -> plain_word w.
Proof. unfold plain_word. auto. Qed.

Lemma split_lower_plain (s : string) : Forall plain_word (PyStr.split (PyStr.lower s)).
Proof.
  eapply Forall_impl; [|apply (split_words not_upper (PyStr.lower s))].
  intros w [H1 [H2 H3]]. repeat split; auto. apply H3, lower_not_upper.
Qed.

Lemma nth_plain (n : nat) (l : list string) (default : string) :
  Forall plain_word l -> plain_word default -> plain_word (nth n l default).
Proof.
  intros Hl Hd. destruct (nth_in_or_default n l default) as [Hin| ->]; [|exact Hd].
  rewrite Forall_forall in Hl. apply Hl. exact Hin.
Qed.

Lemma skipn_plain (n : nat) (l : list string) :
  Forall plain_word l -> Forall plain_word (skipn n l).
Proof.
  intros Hl. rewrite Forall_forall in *. intros w Hin. apply Hl.
  rewrite <- (firstn_skipn n l). apply in_or_app. right. exact Hin.
Qed.

(** X25.  What the command loop passes on: the three arguments of a
    generation are words without white space and upper-case letters (given or
    default); a suggestion filter goes to the platform when it is instagram,
    linkedin or twitter and to the niche otherwise, never to both; a search
    query is not empty and is a sequence of such words joined by single
    spaces; the text sent to the chat is already trimmed and lower-cased. *)
Theorem interpret_passes_plain_words (line : string) :
  match interpret line with
  | Generate platform niche audience =>
      plain_word platform /\ plain_word niche /\ plain_word audience
  | Suggest platform niche =>
      (platform = None \/ niche = None)
      /\ (forall p, platform = Some p -> listed_platform p = true)
      /\ (forall n, niche = Some n -> listed_platform n = false /\ plain_word n)
  | Search query =>
      query <> ""
      /\ exists words, words <> [] /\ Forall plain_word words
                       /\ query = PyStr.join " " words
  | Chat text => PyStr.lower (PyStr.strip text) = text
  | _ => True
  end.
Proof.
  unfold interpret.
  set (user_input := PyStr.lower (PyStr.strip line)).
  pose proof (split_lower_plain (PyStr.strip line)) as Hwords. fold user_input in Hwords.
  destruct (String.eqb user_input "exit"); [exact I|].
  destruct (String.eqb user_input "help"); [exact I|].
  destruct (PyStr.startswith user_input "generate post").
  { repeat split; apply nth_plain; try exact Hwords;
      (split; [discriminate | split; reflexivity]). }
  destruct (PyStr.startswith user_input "suggest posts").
  { destruct (nth_error (PyStr.split user_input) 2) as [filter_type|] eqn:Hnth.
    - destruct (listed_platform filter_type) eqn:Hl.
      + split; [auto|]. split; [intros p [= <-]; exact Hl | discriminate].
      + split; [auto|]. split; [discriminate|]. intros n [= <-]. split; [exact Hl|].
        apply nth_error_In in Hnth. rewrite Forall_forall in Hwords. auto.
    - split; [auto|]. split; discriminate. }
  destruct (PyStr.startswith user_input "search posts").
  { destruct (String.eqb _ "") eqn:Hq; [exact I|].
    apply String.eqb_neq in Hq. split; [exact Hq|].
    exists (skipn 2 (PyStr.split user_input)). split.
    - intros Habs. rewrite Habs in Hq. apply Hq. reflexivity.
    - split; [apply skipn_plain; exact Hwords | reflexivity]. }
  destruct (String.eqb user_input "clear"); [exact I|].
  unfold user_input. rewrite lower_strip, strip_idem, lower_idem. reflexivity.
Qed.

End Commands.

(** ** A one-word niche with the model unreachable *)

Section OneWord.
Context `{External}.


End OneWord.

(** ** The analysis methods *)

Section Analysis.
Context `{External}.
Import PostMemory Query Analyst.

Lemma post_contexts_stored (l : list PostIndexEntry) :
  post_contexts (map stored l) = Ok (map Digest.of_entry l).
Proof.
  induction l as [|p l IH]; simpl; [reflexivity|]. rewrite IH.
  unfold post_context, Digest.of_entry; simpl.
  unfold PyStr.slice_to. simpl. reflexivity.
Qed.

Lemma posts_context_stored (l : list PostIndexEntry) :
  posts_context (map stored l) = Ok (Digest.of_posts l).
Proof.
  unfold posts_context, Digest.of_posts. rewrite firstn_map, post_contexts_stored.
  reflexivity.
Qed.

(** X27.  On every store state of the data model [search_similar_posts]
    returns: the fixed text when the query hits no post, whatever the model
    would answer; otherwise the trimmed answer of the model, or the error
    text, for a prompt built from the first three hits, each with at most 200
    characters of its content. *)
Theorem search_similar_posts_outcome (model : Model) (idx : list (key * PostIndexEntry))
    (query : string) :
  search_similar_posts model query (stored_index idx)
  = Ok match filter (hitb query) (entries idx) with
       | [] => no_similar
       | hits =>
           match similar_reply model query (Digest.of_posts hits) with
           | Ok response => PyStr.strip response
           | Raise e => cross_mark ++ " Error analyzing similar posts: " ++ e
           end
       end.
Proof.
  unfold search_similar_posts. rewrite search_posts_stored. cbn [bind].
  destruct (filter (hitb query) (entries idx)) as [|p hits] eqn:Hhits; [reflexivity|].
  cbn [map]. change (stored p :: map stored hits) with (map stored (p :: hits)).
  rewrite posts_context_stored. cbn [bind].
  destruct (similar_reply model query _); reflexivity.
Qed.

(** X28.  On every store state of the data model [get_post_suggestions]
    returns: it selects by platform when one is given (and not empty), else by
    niche, else the five most recent posts; with nothing selected it returns
    the fixed text whatever the model would answer, and otherwise the trimmed
    answer, or the error text, for a prompt built from the first three
    selected posts. *)
Theorem get_post_suggestions_outcome (model : Model) (idx : list (key * PostIndexEntry))
    (platform niche : option string) :
  let selected :=
    match given platform, given niche with
    | Some p, _ =>
        filter (fun e => String.eqb (PyStr.lower (entry_platform e)) (PyStr.lower p))
          (entries idx)
    | None, Some n =>
        filter (fun e => String.eqb (PyStr.lower (entry_niche e)) (PyStr.lower n))
          (entries idx)
    | None, None => firstn 5 (newest_first (entries idx))
    end in
  get_post_suggestions model platform niche (stored_index idx)
  = Ok match selected with
       | [] => no_suggestions
       | _ =>
           match suggestions_reply model (Digest.of_posts selected) with
           | Ok response => PyStr.strip response
           | Raise e => cross_mark ++ " Error analyzing posts: " ++ e
           end
       end.
Proof.
  cbv zeta. unfold get_post_suggestions.
  assert (Hsel : forall l : list PostIndexEntry,
            match map stored l with
            | [] => Ok no_suggestions
            | _ :: _ =>
                bind (posts_context (map stored l))
                  (fun context =>
                     match suggestions_reply model context with
                     | Ok response => Ok (PyStr.strip response)
                     | Raise e => Ok (cross_mark ++ " Error analyzing posts: " ++ e)
                     end)
            end
            = Ok match l with
                 | [] => no_suggestions
                 | _ =>
                     match suggestions_reply model (Digest.of_posts l) with
                     | Ok response => PyStr.strip response
                     | Raise e => cross_mark ++ " Error analyzing posts: " ++ e
                     end
                 end).
  { intros [|p l]; [reflexivity|].
    rewrite posts_context_stored. cbn [map bind].
    destruct (suggestions_reply model _); reflexivity. }
  destruct (given platform) as [p|].
  - rewrite get_posts_by_platform_stored. cbn [bind]. apply Hsel.
  - destruct (given niche) as [n|].
    + rewrite get_posts_by_niche_stored. cbn [bind]. apply Hsel.
    + unfold get_recent_posts. rewrite values_stored_index, sorted_reverse_stored.
      cbn [bind]. unfold slice_to. cbn [Z.leb Z.compare Z.to_nat Pos.to_nat Pos.iter_op].
      rewrite firstn_map. apply Hsel.
Qed.

End Analysis.

(** ** The further properties at concrete inputs *)

Lemma add_post_then_get_post_witness :
  Dict.lookup "post_id" Sample.saved_post = Some (PyStr "ai_influencer_20251104_100203")
  /\ "ai_influencer_20251104_100203" <> ""
  /\ exists m',
      PostMemory.add_post (H := Sample.codec) Sample.saved_post [] = Ok m'
      /\ exists e,
          PostLookup.get_post "ai_influencer_20251104_100203" m' = Some e
          /\ PostMemory.file_path e = "posts/ai_influencer_20251104_100203.json".
Proof.
  split; [reflexivity|]. split; [discriminate|].
  eexists. split; [vm_compute; reflexivity|].
  destruct (add_post_then_get_post (H := Sample.codec) Sample.saved_post
              "ai_influencer_20251104_100203" [] _ eq_refl
              ltac:(discriminate) ltac:(vm_compute; reflexivity))
    as [e [Hget [_ [Hpath _]]]].
  exists e. split; [exact Hget | exact Hpath].
Defined.


Lemma add_post_raises_iff_witness :
  truthy (get_or_none Probe.malformed_post "post_id") = true
  /\ Shape.sections_ok Probe.malformed_post = false
  /\ exists msg, PostMemory.add_post (H := Sample.codec) Probe.malformed_post [] = Raise msg.
Proof.
  split; [reflexivity|]. split; [reflexivity|].
  apply (proj2 (add_post_raises_iff (H := Sample.codec) Probe.malformed_post [] eq_refl)).
  left. reflexivity.
Defined.


Lemma load_posts_twice_witness :
  NoDup (PostLookup.keys [])
  /\ PostMemory.load_posts (H := Sample.codec) (Some Sample.listing)
       (fst (PostMemory.load_posts (H := Sample.codec) (Some Sample.listing) []))
     = PostMemory.load_posts (H := Sample.codec) (Some Sample.listing) [].
Proof.
  split; [constructor|].
  exact (load_posts_twice (H := Sample.codec) Sample.listing [] (NoDup_nil _)).
Defined.

Lemma load_posts_entries_from_files_witness :
  exists e,
    PostMemory.lookup (PostMemory.KStr "ai_influencer_20251104_100203")
      (fst (PostMemory.load_posts (H := Sample.codec) (Some Sample.listing) [])) = Some e
    /\ (PostMemory.lookup (PostMemory.KStr "ai_influencer_20251104_100203") [] = Some e
        \/ exists file,
             In file Sample.listing
             /\ Loaded.is_post_file (H := Sample.codec) file = true
             /\ Loaded.parses (H := Sample.codec) file = true
             /\ Loaded.file_entry (H := Sample.codec) (fst file) (snd file)
                = Ok (Some (PostMemory.KStr "ai_influencer_20251104_100203", e))
             /\ PostMemory.file_path e = path_join PostMemory.posts_dir (fst file)).
Proof.
  eexists. split; [vm_compute; reflexivity|].
  apply (load_posts_entries_from_files (H := Sample.codec) Sample.listing []).
  vm_compute; reflexivity.
Defined.

Lemma search_posts_narrowing_witness :
  occurs_in "run" "runs"
  /\ PostMemory.search_posts "runs"
       (PostMemory.stored_index
          (filter (fun kp => Query.hitb "run" (snd kp)) Query.two_posts))
     = PostMemory.search_posts "runs" (PostMemory.stored_index Query.two_posts).
Proof.
  assert (Hq : occurs_in "run" "runs") by (exists "", "s"; reflexivity).
  split; [exact Hq|].
  exact (search_posts_narrowing Query.two_posts "run" "runs" Hq).
Defined.

Lemma search_posts_non_text_title_witness :
  Shape.is_text (PostMemory.title ProbeWorld.untitled_entry) = false
  /\ PostMemory.search_posts "stretch"
       (PostMemory.stored_index Query.two_posts
        ++ [(PostMemory.KStr "ai_influencer_20240103_090000", ProbeWorld.untitled_entry)])%list
     = Raise "'NoneType' object has no attribute 'lower'".
Proof.
  split; [reflexivity|].
  exact (search_posts_non_text_title Query.two_posts
           (PostMemory.KStr "ai_influencer_20240103_090000") ProbeWorld.untitled_entry []
           "stretch" eq_refl).
Defined.

Lemma generate_topic_unparsed_witness :
  llm_invoke Sample.online 0 (TopicRequest "fitness" "gym-goers" "motivational")
  = Ok "  Move a little every day.  "
  /\ (forall group, PyStr.search_braces "  Move a little every day.  " = Some group ->
                    exists e, json_loads (External := Sample.codec) group = Raise e)
  /\ fst (TopicGenerator.generate_topic (H := Sample.codec)
            "fitness" "gym-goers" "motivational" Sample.online Sample.fresh)
     = Ok [("title", PyStr "  Move a little every day.  ");
           ("hook", PyStr "Ready to transform your approach?");
           ("angle", PyStr "Expert insights and practical tips");
           ("engagement_question", PyStr "What's your experience with this?")].
Proof.
  assert (Hparse : forall group,
            PyStr.search_braces "  Move a little every day.  " = Some group ->
            exists e, json_loads (External := Sample.codec) group = Raise e)
    by (intros group Hg; vm_compute in Hg; discriminate Hg).
  split; [reflexivity|]. split; [exact Hparse|].
  exact (proj1 (generate_topic_unparsed (H := Sample.codec) Sample.online
                  (Sample.fresh (H := Sample.codec))
                  "fitness" "gym-goers" "motivational" _ eq_refl Hparse)).
Defined.

Lemma generate_content_trimmed_witness :
  llm_invoke Sample.online 0
    (ContentGenerator.request_of (H := Sample.codec) Sample.long_topic "twitter")
  = Ok "  Move a little every day.  "
  /\ exists text flag,
      fst (ContentGenerator.generate_content (H := Sample.codec) Sample.long_topic
             "twitter" Sample.online Sample.fresh)
      = Ok [("content", PyStr text); ("platform", PyStr "twitter");
            ("character_count", PyInt (Z.of_nat (String.length text)));
            ("within_limit", PyBool flag)]
      /\ PyStr.strip text = text.
Proof.
  split; [reflexivity|].
  destruct (generate_content_trimmed (H := Sample.codec) Sample.online
              (Sample.fresh (H := Sample.codec)) Sample.long_topic "twitter" _ eq_refl)
    as [text [flag [Hrun [_ [Hfix _]]]]].
  exists text, flag. split; assumption.
Defined.


Lemma generate_hashtags_absorbs_bad_reply_witness :
  HashtagGenerator.limit_of (PyStr "twitter") = Ok 5%Z
  /\ py_slice_to 200 (get_or_none Sample.twitter_content "content")
     = Ok (PyStr "Tired by noon? Try these habits.")
  /\ HashtagGenerator.parse_or_fallback (H := ProbeWorld.empty_object_codec)
       (PyStr "twitter") Sample.long_topic "{}" = Ok []
  /\ bind (subscript [] "primary_hashtags") (py_slice_to 5) = Raise "'primary_hashtags'"
  /\ fst (HashtagGenerator.generate_hashtags (H := ProbeWorld.empty_object_codec)
            Sample.long_topic Sample.twitter_content None ProbeWorld.braces Sample.fresh)
     = HashtagGenerator._generate_fallback_hashtags (H := ProbeWorld.empty_object_codec)
         (PyStr "twitter") Sample.long_topic.
Proof.
  split; [reflexivity|]. split; [reflexivity|]. split; [reflexivity|].
  split; [reflexivity|].
  rewrite (generate_hashtags_absorbs_bad_reply (H := ProbeWorld.empty_object_codec)
             ProbeWorld.braces (Sample.fresh (H := ProbeWorld.empty_object_codec))
             Sample.long_topic Sample.twitter_content None 5%Z
             (PyStr "Tired by noon? Try these habits.") "{}" "'primary_hashtags'" []
             eq_refl eq_refl eq_refl eq_refl eq_refl).
  reflexivity.
Defined.

Lemma generate_hashtags_raises_on_untitled_witness :
  HashtagGenerator.limit_of (PyStr "twitter") = Ok 5%Z
  /\ Dict.lookup "title" Probe.untitled_topic = Some PyNone
  /\ Shape.is_text PyNone = false
  /\ fst (HashtagGenerator.generate_hashtags (H := Sample.codec)
            Probe.untitled_topic Sample.twitter_content None Sample.offline Sample.fresh)
     = Raise "'NoneType' object has no attribute 'lower'".
Proof.
  split; [reflexivity|]. split; [reflexivity|]. split; [reflexivity|].
  exact (generate_hashtags_raises_on_untitled (H := Sample.codec) Sample.offline
           (Sample.fresh (H := Sample.codec)) Probe.untitled_topic Sample.twitter_content
           None 5%Z (PyStr "Tired by noon? Try these habits.") PyNone
           "503 service unavailable" eq_refl eq_refl eq_refl eq_refl eq_refl).
Defined.

Lemma save_post_persists_witness :
  makedirs Sample.offline = Ok tt
  /\ get_nested Sample.saved_post "parameters" "platform" (PyStr "general")
     = Ok (PyStr "twitter")
  /\ get_nested Sample.saved_post "parameters" "niche" (PyStr "content")
     = Ok (PyStr "fitness")
  /\ exists st',
      AIInfluencerChatbot._save_post (H := Sample.codec) Sample.saved_post
        Sample.offline Sample.fresh = (Ok tt, st')
      /\ In "posts" (directories st').
Proof.
  split; [reflexivity|]. split; [reflexivity|]. split; [reflexivity|].
  destruct (save_post_persists (H := Sample.codec) Sample.offline
              (Sample.fresh (H := Sample.codec)) Sample.saved_post
              (PyStr "twitter") (PyStr "fitness") eq_refl eq_refl eq_refl)
    as [st' [Hrun [Hdir _]]].
  exists st'. split; assumption.
Defined.

Lemma ready_post_is_indexed_witness :
  exists post st',
    AIInfluencerChatbot.generate_complete_post (H := Sample.codec)
      "fitness" "gym-goers" "motivational" "twitter" None Sample.offline Sample.fresh
    = (Ok post, st')
    /\ Dict.lookup "ready_to_post" post = Some (PyBool true)
    /\ exists e,
        PostLookup.get_post "ai_influencer_20251104_100203" (posts_memory st') = Some e
        /\ PostMemory.platform e = PyStr "twitter".
Proof.
  eexists _, _. split; [vm_compute; reflexivity|]. split; [vm_compute; reflexivity|].
  destruct (ready_post_is_indexed (H := Sample.codec) Sample.offline
              (Sample.fresh (H := Sample.codec)) _
              "fitness" "gym-goers" "motivational" "twitter" None _
              ltac:(vm_compute; reflexivity) ltac:(vm_compute; reflexivity))
    as [e [_ [_ [Hget [Hp _]]]]].
  exists e. split; [exact Hget | exact Hp].
Defined.

Lemma ready_post_path_not_written_witness :
  exists post st',
    AIInfluencerChatbot.generate_complete_post (H := Sample.codec)
      "fitness" "gym-goers" "motivational" "twitter" None Sample.offline Sample.fresh
    = (Ok post, st')
    /\ Dict.lookup "ready_to_post" post = Some (PyBool true)
    /\ exists e,
        PostLookup.get_post "ai_influencer_20251104_100203" (posts_memory st') = Some e
        /\ Dict.lookup (PostMemory.file_path e) (files st')
           = Dict.lookup (PostMemory.file_path e) (files (Sample.fresh (H := Sample.codec))).
Proof.
  eexists _, _. split; [vm_compute; reflexivity|]. split; [vm_compute; reflexivity|].
  destruct (ready_post_path_not_written (H := Sample.codec) Sample.offline
              (Sample.fresh (H := Sample.codec)) _
              "fitness" "gym-goers" "motivational" "twitter" None _
              ltac:(vm_compute; reflexivity) ltac:(vm_compute; reflexivity))
    as [e [Hget [_ [_ [Hsame _]]]]].
  exists e. split; [exact Hget | exact Hsame].
Defined.

Lemma unwritable_directory_leaves_no_trace_witness :
  makedirs Sample.read_only = Raise "[Errno 30] Read-only file system: 'posts'"
  /\ exists e t st',
      AIInfluencerChatbot.generate_complete_post (H := Sample.codec)
        "fitness" "gym-goers" "motivational" "twitter" None Sample.read_only Sample.fresh
      = (Ok [("error", PyStr e); ("ready_to_post", PyBool false);
             ("generation_timestamp", PyStr (Clock.isoformat t))], st')
      /\ files st' = files (Sample.fresh (H := Sample.codec)).
Proof.
  split; [reflexivity|].
  destruct (unwritable_directory_leaves_no_trace (H := Sample.codec) Sample.read_only
              (Sample.fresh (H := Sample.codec))
              "fitness" "gym-goers" "motivational" "twitter" None _ eq_refl)
    as [e [t [st' [Hrun [_ [Hfiles _]]]]]].
  exists e, t, st'. split; assumption.
Defined.

Lemma untitled_topic_reaches_the_caller_witness :
  llm_invoke ProbeWorld.drops_out 0 (TopicRequest "fitness" "gym-goers" "motivational")
  = Ok "{}"
  /\ PyStr.search_braces "{}" = Some "{}"
  /\ json_loads (External := ProbeWorld.untitled_codec) "{}" = Ok Probe.untitled_topic
  /\ Dict.lookup "title" Probe.untitled_topic = Some PyNone
  /\ Shape.is_text PyNone = false
  /\ (forall r, llm_invoke ProbeWorld.drops_out 2 r = Raise "503 service unavailable")
  /\ fst (AIInfluencerChatbot.generate_complete_post (H := ProbeWorld.untitled_codec)
            "fitness" "gym-goers" "motivational" "twitter" None
            ProbeWorld.drops_out Sample.fresh)
     = Ok [("error", PyStr "'NoneType' object has no attribute 'lower'");
           ("ready_to_post", PyBool false);
           ("generation_timestamp", PyStr "2025-11-04T10:02:03")].
Proof.
  split; [reflexivity|]. split; [reflexivity|]. split; [reflexivity|].
  split; [reflexivity|]. split; [reflexivity|]. split; [intros r; reflexivity|].
  exact (untitled_topic_reaches_the_caller (H := ProbeWorld.untitled_codec)
           ProbeWorld.drops_out (Sample.fresh (H := ProbeWorld.untitled_codec))
           "fitness" "gym-goers" "motivational" "twitter" "{}" "{}"
           "503 service unavailable" None Probe.untitled_topic PyNone
           eq_refl eq_refl eq_refl eq_refl eq_refl (fun r => eq_refl)).
Defined.

Lemma interpret_ignores_case_and_padding_witness :
  Text.is_blank " " = true
  /\ Text.is_blank "  " = true
  /\ Cli.interpret (" " ++ "Generate Post Twitter" ++ "  ")
     = Cli.interpret "Generate Post Twitter".
Proof.
  split; [reflexivity|]. split; [reflexivity|].
  exact (proj1 (interpret_ignores_case_and_padding "Generate Post Twitter" " " "  "
                  eq_refl eq_refl)).
Defined.


Lemma generate_hashtags_returned_witness :
  HashtagGenerator.limit_of (PyStr "twitter") = Ok 5%Z
  /\ py_slice_to 200 (get_or_none Sample.twitter_content "content")
     = Ok (PyStr "Tired by noon? Try these habits.")
  /\ exists total kept,
      fst (HashtagGenerator.generate_hashtags (H := Sample.codec)
             Sample.long_topic Sample.twitter_content None Sample.online Sample.fresh)
      = Ok total
      /\ Dict.lookup "primary_hashtags" total = Some (PyList kept)
      /\ Dict.lookup "total_primary" total = Some (PyInt (Z.of_nat (List.length kept)))
      /\ (Z.of_nat (List.length kept) <= 5)%Z.
Proof.
  split; [reflexivity|]. split; [reflexivity|].
  destruct (generate_hashtags_returned (H := Sample.codec) Sample.online
              (Sample.fresh (H := Sample.codec)) Sample.long_topic Sample.twitter_content
              None 5%Z (PyStr "Tired by noon? Try these habits.")
              "  Move a little every day.  " _ _
              eq_refl eq_refl eq_refl ltac:(vm_compute; reflexivity)
              ltac:(vm_compute; reflexivity))
    as [total [kept [Hrun [Hp [Ht [Hle _]]]]]].
  exists total, kept. repeat split; assumption.
Defined.
